(** * ByteQuest content verifier: the three edge functions

    A shallow embedding of [supabase/functions/verify-content/index.ts],
    [supabase/functions/verify-citations/index.ts] and
    [supabase/functions/detect-ai/index.ts], and the properties of the
    normalisation, merge and citation re-verification logic.

    Layout: [Js] holds the fragment of JavaScript the functions rely on
    (values of type [any], strings, exceptions, the code-fence expression);
    [VerifyContent], [VerifyCitations] and [DetectAi] transcribe the three
    handlers; [Spec] states the rules of the specification in its own
    terms, [Runs] reads runs of the re-verifier as functions, [Samples]
    holds the data of the scenarios.  The theorems follow: [JsFacts],
    [StatusNormalizer], [Merger], [Reverifier], [Detector]. *)

From Stdlib Require Import String Ascii List ZArith NArith Bool Lia Arith.
From Stdlib Require Import Numbers.DecimalString.
Import ListNotations.

Local Open Scope string_scope.
Local Open Scope bool_scope.

(* ===================================================================== *)
(** ** The JavaScript fragment *)
(* ===================================================================== *)

Module Js.

(** *** Strings

    A JavaScript string is a sequence of UTF-16 code units.  The embedding
    covers the strings whose code units lie in [0, 255] (the Latin-1 range):
    a [string] here is such a sequence, one [ascii] per code unit.  *)

(** [String.prototype.toLowerCase] on one code unit of that range:
    A-Z and the accented capitals U+00C0..U+00DE (U+00D7, the
    multiplication sign, apart) move up by 32; every other unit is kept. *)
Definition lowerUnit (c : ascii) : ascii :=
  let n := N_of_ascii c in
  if ((65 <=? n) && (n <=? 90)
      || (192 <=? n) && (n <=? 222) && negb (n =? 215))%N
  then ascii_of_N (n + 32)
  else c.

Fixpoint toLowerCase (s : string) : string :=
  match s with
  | EmptyString => EmptyString
  | String c s' => String (lowerUnit c) (toLowerCase s')
  end.

(** [s.startsWith(t)] *)
Definition startsWith (s t : string) : bool := String.prefix t s.

(** [s.includes(t)]: [t] starts at some position of [s]. *)
Fixpoint includes (s t : string) : bool :=
  String.prefix t s ||
  match s with
  | EmptyString => false
  | String _ s' => includes s' t
  end.

(** [s.substring(a, b)]: the units from [min a b] up to, not including,
    [max a b], clamped to the length of [s]. *)
Definition substring (s : string) (a b : nat) : string :=
  String.substring (Nat.min a b) (Nat.max a b - Nat.min a b) s.

(** White space and line terminators of the range: TAB, LF, VT, FF, CR,
    SPACE and NO-BREAK SPACE.  This is the class [\s] of a regular
    expression and what [trim] removes. *)
Definition isSpace (c : ascii) : bool :=
  let n := N_of_ascii c in
  ((9 <=? n) && (n <=? 13) || (n =? 32) || (n =? 160))%N.

Fixpoint trimStart (s : string) : string :=
  match s with
  | EmptyString => EmptyString
  | String c s' => if isSpace c then trimStart s' else s
  end.

Fixpoint trimEnd (s : string) : string :=
  match s with
  | EmptyString => EmptyString
  | String c s' =>
      match trimEnd s' with
      | EmptyString => if isSpace c then EmptyString else String c EmptyString
      | t => String c t
      end
  end.

(** [s.trim()] *)
Definition trim (s : string) : string := trimEnd (trimStart s).

(** Decimal rendering of an integer, as a template literal prints a
    number that holds an integer. *)
Definition numberToString (n : Z) : string :=
  NilEmpty.string_of_int (Z.to_int n).

Definition natToString (n : nat) : string :=
  NilEmpty.string_of_uint (Nat.to_uint n).

(** *** Values of type [any]

    What [JSON.parse] and [response.json()] produce, plus [undefined].
    Numbers are the ones that hold an integer: the code only ever tests a
    number from JSON for being zero. An object is the list of its own
    properties in property order, each key once. *)
#[local] Unset Elimination Schemes.
Inductive value : Type :=
| VUndefined
| VNull
| VBool (b : bool)
| VNum (n : Z)
| VStr (s : string)
| VArr (xs : list value)
| VObj (ps : list (string * value)).
#[local] Set Elimination Schemes.

Definition obj : Type := list (string * value).

(** ToBoolean *)
Definition truthy (v : value) : bool :=
  match v with
  | VUndefined | VNull => false
  | VBool b => b
  | VNum n => negb (n =? 0)%Z
  | VStr s => negb (s =? "")%string
  | VArr _ | VObj _ => true
  end.

Definition nullish (v : value) : bool :=
  match v with
  | VUndefined | VNull => true
  | _ => false
  end.

(** [a || b] and [a ?? b] on values. *)
Definition or (a b : value) : value := if truthy a then a else b.
Definition coalesce (a b : value) : value := if nullish a then b else a.

(** [a === "lit"] *)
Definition isStr (v : value) (lit : string) : bool :=
  match v with
  | VStr s => (s =? lit)%string
  | _ => false
  end.

Fixpoint lookup (k : string) (ps : obj) : value :=
  match ps with
  | [] => VUndefined
  | (k', v) :: ps' => if (k' =? k)%string then v else lookup k ps'
  end.

(** Writing property [k]: an existing property keeps its place, a new one
    goes last. *)
Fixpoint setProp (k : string) (v : value) (ps : obj) : obj :=
  match ps with
  | [] => [(k, v)]
  | (k', v') :: ps' =>
      if (k' =? k)%string then (k, v) :: ps' else (k', v') :: setProp k v ps'
  end.

(** *** Exceptions

    [Error] is [new Error(message)] and what the environment rejects with;
    [TypeError] is raised by the engine, and carries the expression at
    fault in place of the engine's own wording. *)
Inductive exn : Type :=
| Error (message : string)
| TypeError (site : string).

Definition message (e : exn) : string :=
  match e with
  | Error m => m
  | TypeError s => s
  end.

Definition result (A : Type) : Type := (exn + A)%type.

Definition ret {A} (a : A) : result A := inr a.
Definition throw {A} (e : exn) : result A := inl e.
Definition bind {A B} (m : result A) (f : A -> result B) : result B :=
  match m with
  | inl e => inl e
  | inr a => f a
  end.

Declare Scope js_scope.
Delimit Scope js_scope with js.
Notation "x <- m ;; k" := (bind m (fun x => k))
  (at level 61, m at next level, right associativity) : js_scope.

(** [xs.map(f)] with a callback that may throw: the first throw ends it. *)
Fixpoint mapM {A B} (f : A -> result B) (xs : list A) : result (list B) :=
  match xs with
  | [] => ret []
  | x :: xs' =>
      bind (f x) (fun y => bind (mapM f xs') (fun ys => ret (y :: ys)))
  end.

(** [xs.find(p)]: the first element on which [p] is truthy, else
    [undefined]; a throw of [p] ends the search. *)
Fixpoint find (p : value -> result bool) (xs : list value) : result value :=
  match xs with
  | [] => ret VUndefined
  | x :: xs' => bind (p x) (fun b => if b then ret x else find p xs')
  end.

(** [v.k].  The property names read by this code ([text], [status], [url],
    ...) are defined on no prototype, so reading one from a primitive or an
    array gives [undefined]; reading from [null] or [undefined] throws. *)
Definition getProp (v : value) (k : string) : result value :=
  match v with
  | VUndefined | VNull => throw (TypeError k)
  | VObj ps => ret (lookup k ps)
  | _ => ret VUndefined
  end.

(** [v?.k] *)
Definition getOpt (v : value) (k : string) : value :=
  match v with
  | VObj ps => lookup k ps
  | _ => VUndefined
  end.

(** [v?.[0]] *)
Definition firstOpt (v : value) : value :=
  match v with
  | VArr (x :: _) => x
  | VStr (String c _) => VStr (String c EmptyString)
  | VObj ps => lookup "0" ps
  | _ => VUndefined
  end.

(** The own enumerable properties an object spread [{...v}] copies. *)
Fixpoint indexed {A} (f : A -> value) (i : nat) (xs : list A) : obj :=
  match xs with
  | [] => []
  | x :: xs' => (natToString i, f x) :: indexed f (S i) xs'
  end.

Definition spread (v : value) : obj :=
  match v with
  | VObj ps => ps
  | VArr xs => indexed (fun x => x) 0 xs
  | VStr s =>
      indexed (fun c => VStr (String c EmptyString)) 0 (list_ascii_of_string s)
  | _ => []
  end.

(** *** The code fence of a chat answer

    [content.match(/```(?:json)?\s*([\s\S]*?)```/)]. *)

(** The units of [s] before the first occurrence of [t], if [t] occurs. *)
Fixpoint before (s t : string) : option string :=
  if String.prefix t s then Some EmptyString
  else match s with
       | EmptyString => None
       | String c s' => option_map (String c) (before s' t)
       end.

Fixpoint drop (n : nat) (s : string) : string :=
  match n, s with
  | S n', String _ s' => drop n' s'
  | _, _ => s
  end.

(** The expression tried at the head of [s]: three backquotes, [json] if
    it is there, the white space that follows, then the shortest run that
    ends at three backquotes; that run is the capture.  Giving back [json]
    or white space cannot help: none of those units is a backquote, so the
    same closing fence is the first one on every path. *)
Definition fenceAt (s : string) : option string :=
  if String.prefix "```" s then
    let r := drop 3 s in
    let r := if String.prefix "json" r then drop 4 r else r in
    before (trimStart r) "```"
  else None.

(** The leftmost position at which the expression matches decides. *)
Fixpoint fencedBlock (s : string) : option string :=
  match fenceAt s with
  | Some inner => Some inner
  | None =>
      match s with
      | EmptyString => None
      | String _ s' => fencedBlock s'
      end
  end.

(** [(content.match(...) || [null, content])[1].trim()] *)
Definition jsonText (content : string) : string :=
  trim match fencedBlock content with
       | Some inner => inner
       | None => content
       end.

(** *** HTTP responses as the handlers see them *)

(** A settled [fetch]: [status], and how reading the body ends, with its
    text or with a throw. *)
Record Response : Type := mkResponse {
  status : Z;
  text : result string
}.

(** [response.ok] *)
Definition ok (r : Response) : bool :=
  ((200 <=? status r) && (status r <=? 299))%Z.

(** How [await fetch(...)] ends: it rejects (no connection, DNS failure,
    the abort of a timeout), or settles with a response of any status. *)
Inductive Fetch : Type :=
| Rejected (e : exn)
| Settled (r : Response).

(** A request to an edge function: whether its method is OPTIONS (any
    other method is handled like POST), and what [await req.json()]
    gives. *)
Inductive Method : Type := OPTIONS | POST.

Record Request : Type := mkRequest {
  method : Method;
  body : result value
}.

End Js.

(* ===================================================================== *)
(** ** verify-content: normalisation and merge *)
(* ===================================================================== *)

Module VerifyContent.
Import Js.
Local Open Scope js_scope.

(** The return types of the two normalisers. *)
Inductive ClaimStatus : Type :=
| ClaimVerified        (* "verified" *)
| ClaimQuestionable    (* "questionable" *)
| ClaimFalse.          (* "false" *)

Inductive CitationStatus : Type :=
| CitationValid        (* "valid" *)
| CitationBroken       (* "broken" *)
| CitationFake.        (* "fake" *)

Definition claimStatusText (st : ClaimStatus) : string :=
  match st with
  | ClaimVerified => "verified"
  | ClaimQuestionable => "questionable"
  | ClaimFalse => "false"
  end.

Definition citationStatusText (st : CitationStatus) : string :=
  match st with
  | CitationValid => "valid"
  | CitationBroken => "broken"
  | CitationFake => "fake"
  end.

(** The string part of [normalizeClaimStatus], after [!status] let it by. *)
Definition claimStatusOf (status : string) : ClaimStatus :=
  let s := toLowerCase status in
  if includes s "true" || includes s "verified" || includes s "accurate"
     || includes s "correct"
  then ClaimVerified
  else if includes s "false" || includes s "incorrect" || includes s "wrong"
          || includes s "fake"
  then ClaimFalse
  else ClaimQuestionable.

(** [normalizeClaimStatus(status)].  The parameter is declared [string]; the
    caller passes what the backend sent, so a truthy value that is no
    string reaches [status.toLowerCase()] and throws. *)
Definition normalizeClaimStatus (status : value) : result ClaimStatus :=
  if negb (truthy status) then ret ClaimQuestionable
  else match status with
       | VStr s => ret (claimStatusOf s)
       | _ => throw (TypeError "status.toLowerCase")
       end.

Definition citationStatusOf (status : string) : CitationStatus :=
  let s := toLowerCase status in
  if includes s "valid" || includes s "exists" || includes s "found"
     || includes s "working"
  then CitationValid
  else if includes s "fake" || includes s "fabricated"
          || includes s "nonexistent" || includes s "false"
  then CitationFake
  else CitationBroken.

(** [normalizeCitationStatus(status)] *)
Definition normalizeCitationStatus (status : value) : result CitationStatus :=
  if negb (truthy status) then ret CitationBroken
  else match status with
       | VStr s => ret (citationStatusOf s)
       | _ => throw (TypeError "status.toLowerCase")
       end.

(** The objects of the merged result. *)
Module Claim.
Record t : Type := make {
  text : value;
  status : ClaimStatus;
  note : value;
  suggestedSources : value
}.
End Claim.

Module Citation.
Record t : Type := make {
  source : value;
  url : value;
  status : CitationStatus;
  reason : value
}.
End Citation.

Module VerificationResult.
Record t : Type := make {
  error : value;                 (* [undefined] when the key is absent *)
  trustScore : value;
  claims : list Claim.t;
  citations : list Citation.t;
  hallucinationRisk : value;
  hallucinationRiskReason : value;
  analysisSummary : value;
  source : string
}.
End VerificationResult.

(** The callback of [find] (lines 144-146):
    [claim.text && s.claimText && (A || B)]. *)
Definition suggestionMatches (claim s : value) : result bool :=
  claimText0 <- getProp claim "text" ;;
  if negb (truthy claimText0) then ret false else
  sText0 <- getProp s "claimText" ;;
  if negb (truthy sText0) then ret false else
  match claimText0, sText0 with
  | VStr claimText, VStr sText =>
      ret (includes (toLowerCase claimText)
                    (substring (toLowerCase sText) 0 30)
           || includes (toLowerCase sText)
                       (substring (toLowerCase claimText) 0 30))
  | VStr _, _ => throw (TypeError "s.claimText.toLowerCase")
  | _, _ => throw (TypeError "claim.text.toLowerCase")
  end.

(** [aiResult?.sourceSuggestions?.find(...)] *)
Definition findSuggestion (aiResult claim : value) : result value :=
  let suggestions := getOpt aiResult "sourceSuggestions" in
  if nullish suggestions then ret VUndefined
  else match suggestions with
       | VArr entries => find (suggestionMatches claim) entries
       | _ => throw (TypeError "sourceSuggestions.find")
       end.

(** The callback of [claims.map] (lines 141-155). *)
Definition mergeClaim (aiResult claim : value) : result Claim.t :=
  aiSuggestion <- findSuggestion aiResult claim ;;
  text <- getProp claim "text" ;;
  claim_ <- getProp claim "claim" ;;
  status <- getProp claim "status" ;;
  verdict <- getProp claim "verdict" ;;
  verification_status <- getProp claim "verification_status" ;;
  st <- normalizeClaimStatus (or (or status verdict) verification_status) ;;
  note <- getProp claim "note" ;;
  explanation <- getProp claim "explanation" ;;
  reason <- getProp claim "reason" ;;
  suggested <- getProp claim "suggestedSources" ;;
  ret (Claim.make
         (or (or text claim_) (VStr ""))
         st
         (or (or (or note explanation) reason) (VStr ""))
         (or (or (getOpt aiSuggestion "suggestedSources") suggested)
             (VArr []))).

(** The callback of [citations.map] (lines 157-162). *)
Definition mergeCitation (citation : value) : result Citation.t :=
  source <- getProp citation "source" ;;
  name <- getProp citation "name" ;;
  url <- getProp citation "url" ;;
  status <- getProp citation "status" ;;
  validity <- getProp citation "validity" ;;
  st <- normalizeCitationStatus (or status validity) ;;
  reason <- getProp citation "reason" ;;
  explanation <- getProp citation "explanation" ;;
  ret (Citation.make
         (or (or source name) (VStr ""))
         (or url (VStr "unknown"))
         st
         (or (or reason explanation) (VStr ""))).

(** [(x || []).map(f)]: only an array has [map]. *)
Definition mapArray {B} (site : string) (f : value -> result B) (x : value)
  : result (list B) :=
  match or x (VArr []) with
  | VArr xs => mapM f xs
  | _ => throw (TypeError site)
  end.

(** Step 3 (lines 134-187): the merge of the two results. *)
Definition merge (backendResult backendError aiResult : value)
  : result VerificationResult.t :=
  if truthy backendResult then
    rawClaims <- getProp backendResult "claims" ;;
    claims <- mapArray "claims.map" (mergeClaim aiResult) rawClaims ;;
    rawCitations <- getProp backendResult "citations" ;;
    citations <- mapArray "citations.map" mergeCitation rawCitations ;;
    trustScore <- getProp backendResult "trustScore" ;;
    trust_score <- getProp backendResult "trust_score" ;;
    ret (VerificationResult.make
           VUndefined
           (coalesce (coalesce trustScore trust_score) (VNum 50))
           claims
           citations
           (or (getOpt aiResult "hallucinationRisk") (VStr "Medium"))
           (or (getOpt aiResult "hallucinationRiskReason")
               (VStr "Unable to assess"))
           (or (getOpt aiResult "analysisSummary") (VStr ""))
           "backend+ai")
  else
    ret (VerificationResult.make
           (or backendError (VStr "Backend verification failed"))
           (VNum 0)
           []
           []
           (or (getOpt aiResult "hallucinationRisk") (VStr "Unknown"))
           (or (getOpt aiResult "hallucinationRiskReason")
               (VStr "Backend verification required"))
           (or (getOpt aiResult "analysisSummary")
               (VStr "Unable to verify without backend"))
           "ai-only-fallback").

Section Handler.

(** [JSON.parse]: the value a text denotes, or the [SyntaxError] thrown. *)
Variable JSON_parse : string -> result value.

(** [await response.json()] *)
Definition json (r : Response) : result value :=
  body <- text r ;; JSON_parse body.

(** Step 1 (lines 30-53): [(backendResult, backendError)] after the
    [try]/[catch] around the backend call. *)
Definition callBackend (backend : Fetch) : value * value :=
  match backend with
  | Rejected e => (VNull, VStr (message e))
  | Settled r =>
      if negb (ok r) then
        match text r with
        | inl e => (VNull, VStr (message e))
        | inr _ =>
            (VNull, VStr ("Backend API error: " ++ numberToString (status r)))
        end
      else
        match json r with
        | inl e => (VNull, VStr (message e))
        | inr v => (v, VNull)
        end
  end.

(** Lines 116-127, inside the [try] of the supplementary call: the content
    of the first choice, and the object parsed out of it. *)
Definition parseInsight (aiData : value) : result value :=
  choices <- getProp aiData "choices" ;;
  let content := getOpt (getOpt (firstOpt choices) "message") "content" in
  if negb (truthy content) then ret VNull
  else match content with
       | VStr c =>
           match JSON_parse (jsonText c) with
           | inl _ => ret VNull            (* inner catch, line 124 *)
           | inr v => ret v
           end
       | _ => throw (TypeError "content.substring")
       end.

(** Step 2 (lines 93-131): [aiResult] after the [try]/[catch] around the
    supplementary call; every failure leaves it [null]. *)
Definition callAi (ai : Fetch) : value :=
  match ai with
  | Rejected _ => VNull
  | Settled r =>
      if negb (ok r) then VNull
      else match bind (json r) parseInsight with
           | inl _ => VNull
           | inr v => v
           end
  end.

(** What the handler answers. *)
Inductive Reply : Type :=
| Preflight                               (* [new Response(null, ...)] *)
| BadRequest (error : string)             (* status 400, [{ error }] *)
| ServerError (error : string)            (* status 500, [{ error }] *)
| Merged (r : VerificationResult.t).      (* status 200, [finalResult] *)

(** The body of the outer [try] (lines 17-193); [inl] is a throw that the
    outer [catch] receives.  [apiKey] is [Deno.env.get("LOVABLE_API_KEY")],
    [backend] and [ai] are how the two upstream calls end. *)
Definition handle (body : result value) (apiKey : value) (backend ai : Fetch)
  : result Reply :=
  parsed <- body ;;
  text <- getProp parsed "text" ;;
  match text with
  | VStr (String _ _) =>
      let '(backendResult, backendError) := callBackend backend in
      if negb (truthy apiKey)
      then throw (Error "LOVABLE_API_KEY is not configured")
      else
        let aiResult := callAi ai in
        finalResult <- merge backendResult backendError aiResult ;;
        ret (Merged finalResult)
  | _ => ret (BadRequest "Text is required")
  end.

(** The handler given to [serve]. *)
Definition serve (req : Request) (apiKey : value) (backend ai : Fetch)
  : Reply :=
  match method req with
  | OPTIONS => Preflight
  | POST =>
      match handle (body req) apiKey backend ai with
      | inl e => ServerError (message e)
      | inr reply => reply
      end
  end.

End Handler.

End VerifyContent.

(* ===================================================================== *)
(** ** verify-citations: the URL probe and the re-verifier *)
(* ===================================================================== *)

Module VerifyCitations.
Import Js.

(** *** Computations that use the network

    The world is the list of the URLs requested so far, oldest first; a
    computation ends with a value or a throw. *)
Definition World : Type := list string.
Definition io (A : Type) : Type := World -> result A * World.

Definition ioRet {A} (a : A) : io A := fun w => (inr a, w).
Definition ioThrow {A} (e : exn) : io A := fun w => (inl e, w).
Definition ioBind {A B} (m : io A) (f : A -> io B) : io B :=
  fun w =>
    match m w with
    | (inl e, w') => (inl e, w')
    | (inr a, w') => f a w'
    end.
Definition lift {A} (r : result A) : io A := fun w => (r, w).

(** [try { m } catch (error) { h }] *)
Definition tryCatch {A} (m : io A) (h : exn -> io A) : io A :=
  fun w =>
    match m w with
    | (inl e, w') => h e w'
    | (inr a, w') => (inr a, w')
    end.

Declare Scope io_scope.
Delimit Scope io_scope with io.
Notation "x <- m ;; k" := (ioBind m (fun x => k))
  (at level 61, m at next level, right associativity) : io_scope.
Local Open Scope io_scope.

(** [await Promise.all(ms)] where each [m] has run up to its request by
    the time the next one starts: every computation takes place, in list
    order; one throw rejects the whole. *)
Fixpoint promiseAll {A} (ms : list (io A)) : io (list A) :=
  fun w =>
    match ms with
    | [] => (inr [], w)
    | m :: ms' =>
        let '(r, w1) := m w in
        let '(rs, w2) := promiseAll ms' w1 in
        (match r, rs with
         | inl e, _ => inl e
         | inr _, inl e => inl e
         | inr a, inr l => inr (a :: l)
         end, w2)
    end.

(** *** The regular expressions of [checkUrl] *)

(** The longest prefix whose units satisfy [p], and the rest. *)
Fixpoint span (p : ascii -> bool) (s : string) : string * string :=
  match s with
  | EmptyString => (EmptyString, EmptyString)
  | String c s' =>
      if p c then let '(a, b) := span p s' in (String c a, b)
      else (EmptyString, s)
  end.

Definition notGt (c : ascii) : bool := negb (c =? ">")%char.
Definition notLt (c : ascii) : bool := negb (c =? "<")%char.

(** A lower-case literal at the head of [s] under flag [i]. *)
Definition startsWithCI (s lit : string) : bool :=
  String.prefix lit (toLowerCase (String.substring 0 (String.length lit) s)).

(** [/<title[^>]*>([^<]+)<\/title>/i] tried at the head of [s]; the
    capture.  Both classes stop at the one unit that may follow them, so
    no shorter repetition can succeed where the longest fails. *)
Definition titleAt (s : string) : option string :=
  if startsWithCI s "<title" then
    match snd (span notGt (drop 6 s)) with
    | String _ r =>
        let '(inner, r') := span notLt r in
        match inner with
        | EmptyString => None
        | _ => if startsWithCI r' "</title>" then Some inner else None
        end
    | EmptyString => None
    end
  else None.

(** [html.match(...)]: the leftmost match. *)
Fixpoint titleMatch (s : string) : option string :=
  match titleAt s with
  | Some inner => Some inner
  | None =>
      match s with
      | EmptyString => None
      | String _ s' => titleMatch s'
      end
  end.

(** [s.replace(re, by)] under flag [g], the expression being given by the
    length of its match at the head of a string (never 0 for the ones
    below); [skip] counts the units of a match still to pass over. *)
Fixpoint replaceAll (matchAt : string -> option nat) (by_ : string)
  (skip : nat) (s : string) : string :=
  match s with
  | EmptyString => EmptyString
  | String c s' =>
      match skip with
      | S k => replaceAll matchAt by_ k s'
      | O =>
          match matchAt s with
          | Some (S k) => by_ ++ replaceAll matchAt by_ k s'
          | _ => String c (replaceAll matchAt by_ 0 s')
          end
      end
  end.

(** [/<script[^>]*>[\s\S]*?<\/script>/i] and the same for [style]:
    [opening] is ["<script"], [closing] is ["</script>"]. *)
Definition blockAt (opening closing : string) (s : string) : option nat :=
  if startsWithCI s opening then
    let '(attrs, r) := span notGt (drop (String.length opening) s) in
    match r with
    | String _ r' =>
        match before (toLowerCase r') closing with
        | Some inner =>
            Some (String.length opening + String.length attrs + 1
                  + String.length inner + String.length closing)
        | None => None
        end
    | EmptyString => None
    end
  else None.

(** [/<[^>]+>/] *)
Definition tagAt (s : string) : option nat :=
  match s with
  | String "<" r =>
      match span notGt r with
      | (String _ _ as inner, String _ _) => Some (String.length inner + 2)
      | _ => None
      end
  | _ => None
  end.

(** [/\s+/] *)
Definition spacesAt (s : string) : option nat :=
  match fst (span isSpace s) with
  | EmptyString => None
  | ws => Some (String.length ws)
  end.

(** Lines 53-59: the text preview. *)
Definition textContent (html : string) : string :=
  let s := replaceAll (blockAt "<script" "</script>") "" 0 html in
  let s := replaceAll (blockAt "<style" "</style>") "" 0 s in
  let s := replaceAll tagAt " " 0 s in
  let s := replaceAll spacesAt " " 0 s in
  substring (trim s) 0 300.

(** *** The probe *)

(** The return type of [checkUrl]. *)
Module Probe.
Record t : Type := make {
  exists_ : bool;
  status : Z;
  title : option string;
  preview : option string
}.
End Probe.

Definition unreachable (code : Z) : Probe.t :=
  Probe.make false code None None.

Definition optional (o : option string) : value :=
  match o with
  | Some s => VStr s
  | None => VUndefined
  end.

Section Network.

(** How a GET of each URL ends (after redirects, within the 5 s allowed
    before the abort, which shows as a rejection). *)
Variable network : string -> Fetch.

(** [await fetch(url, ...)]: the request is recorded, then it settles or
    throws. *)
Definition fetch (url : string) : io Response :=
  fun w =>
    (match network url with
     | Rejected e => inl e
     | Settled r => inr r
     end, (w ++ [url])%list).

(** The body of the [try] of [checkUrl] (lines 24-61).  [url] is declared
    [string]; it is [citation.url], whatever the caller sent. *)
Definition probe (url : value) : io Probe.t :=
  if negb (truthy url) || isStr url "unknown" then ioRet (unreachable 0)
  else
    match url with
    | VStr u =>
        if negb (startsWith u "http") then ioRet (unreachable 0)
        else
          response <- fetch u ;;
          if negb (ok response) then ioRet (unreachable (Js.status response))
          else
            html <- lift (text response) ;;
            ioRet (Probe.make true (Js.status response)
                     (option_map trim (titleMatch html))
                     (Some (textContent html)))
    | _ => ioThrow (TypeError "url.startsWith")
    end.

(** [checkUrl(url)] *)
Definition checkUrl (url : value) : io Probe.t :=
  tryCatch (probe url) (fun _ => ioRet (unreachable 0)).

(** *** The re-verifier *)

(** The double quote, unit 34. *)
Definition quote : ascii := "034"%char.

(** Lines 89-104: [(updatedStatus, updatedReason)]. *)
Definition reconcile (status reason : value) (result : Probe.t)
  : value * value :=
  if Probe.exists_ result then
    if isStr status "broken" then
      (VStr "valid",
       VStr ("URL is accessible. Page title: " ++ String quote
             (match Probe.title result with
              | Some (String _ _ as t) => t
              | _ => "Unknown"
              end ++ String quote EmptyString)))
    else (status, reason)
  else
    if isStr status "valid" then
      (VStr "broken",
       VStr (if negb (Probe.status result =? 0)%Z
             then "URL returned HTTP " ++ numberToString (Probe.status result)
             else "URL is not accessible or does not exist"))
    else (status, reason).

(** Lines 89-114: the object the callback returns, once the probe has
    answered. *)
Definition updated (citation : value) (result : Probe.t) : Js.result obj :=
  bind (getProp citation "status") (fun status =>
  bind (getProp citation "reason") (fun reason =>
  let '(updatedStatus, updatedReason) := reconcile status reason result in
  ret (setProp "contentPreview" (optional (Probe.preview result))
      (setProp "pageTitle" (optional (Probe.title result))
      (setProp "httpStatus" (VNum (Probe.status result))
      (setProp "verified" (VBool true)
      (setProp "reason" updatedReason
      (setProp "status" updatedStatus
      (spread citation))))))))).

(** The callback of [citations.map] (lines 86-115). *)
Definition verifyCitation (citation : value) : io obj :=
  url <- lift (getProp citation "url") ;;
  result <- checkUrl url ;;
  lift (updated citation result).

Inductive Reply : Type :=
| Preflight                               (* [new Response(null, ...)] *)
| BadRequest (error : string)             (* status 400, [{ error }] *)
| ServerError (error : string)            (* status 500, [{ error }] *)
| Verified (citations : list obj).        (* status 200, [{ citations }] *)

(** The body of the outer [try] (lines 74-122). *)
Definition handle (body : result value) : io Reply :=
  parsed <- lift body ;;
  citations <- lift (getProp parsed "citations") ;;
  match citations with
  | VArr cs =>
      verifiedCitations <- promiseAll (map verifyCitation cs) ;;
      ioRet (Verified verifiedCitations)
  | _ => ioRet (BadRequest "Citations array is required")
  end.

(** The handler given to [serve]. *)
Definition serve (req : Request) : World -> Reply * World :=
  fun w =>
    match method req with
    | OPTIONS => (Preflight, w)
    | POST =>
        match handle (body req) w with
        | (inl e, w') => (ServerError (message e), w')
        | (inr reply, w') => (reply, w')
        end
    end.

End Network.

End VerifyCitations.

(* ===================================================================== *)
(** ** detect-ai *)
(* ===================================================================== *)

Module DetectAi.
Import Js.
Local Open Scope js_scope.

(** The object of the [catch] of lines 107-115. *)
Definition defaultPayload : value :=
  VObj [("isAiGenerated", VBool false);
        ("confidence", VNum 50);
        ("indicators", VArr []);
        ("analysis", VStr "Unable to determine AI authorship");
        ("error", VStr "Failed to parse AI analysis")].

Inductive Reply : Type :=
| Preflight                               (* [new Response(null, ...)] *)
| BadRequest (error : string)             (* status 400 *)
| RateLimited (error : string)            (* status 429 *)
| CreditsExhausted (error : string)       (* status 402 *)
| ServerError (error : string)            (* status 500 *)
| Detection (payload : value).            (* status 200, [result] *)

Section Handler.

Variable JSON_parse : string -> result value.

Definition json (r : Response) : result value :=
  body <- text r ;; JSON_parse body.

(** Lines 102-116: [result].  A content that is no string throws at
    [content.match], inside the [try]. *)
Definition parseDetection (content : value) : value :=
  match content with
  | VStr c =>
      match JSON_parse (jsonText c) with
      | inr v => v
      | inl _ => defaultPayload
      end
  | _ => defaultPayload
  end.

(** The body of the outer [try] (lines 14-120); [gateway] is how the call
    to the AI gateway ends. *)
Definition handle (body : result value) (apiKey : value) (gateway : Fetch)
  : result Reply :=
  parsed <- body ;;
  text <- getProp parsed "text" ;;
  match text with
  | VStr (String _ _) =>
      if negb (truthy apiKey)
      then throw (Error "LOVABLE_API_KEY is not configured")
      else
        match gateway with
        | Rejected e => throw e
        | Settled response =>
            if negb (ok response) then
              _ <- Js.text response ;;
              if (status response =? 429)%Z then
                ret (RateLimited
                       "Rate limit exceeded. Please try again in a moment.")
              else if (status response =? 402)%Z then
                ret (CreditsExhausted
                       "AI credits exhausted. Please add credits to continue.")
              else
                throw (Error ("AI gateway error: "
                              ++ numberToString (status response)))
            else
              data <- json response ;;
              choices <- getProp data "choices" ;;
              let content :=
                getOpt (getOpt (firstOpt choices) "message") "content" in
              if negb (truthy content)
              then throw (Error "No response from AI")
              else ret (Detection (parseDetection content))
        end
  | _ => ret (BadRequest "Text is required")
  end.

(** The handler given to [serve]. *)
Definition serve (req : Request) (apiKey : value) (gateway : Fetch) : Reply :=
  match method req with
  | OPTIONS => Preflight
  | POST =>
      match handle (body req) apiKey gateway with
      | inl e => ServerError (message e)
      | inr reply => reply
      end
  end.

End Handler.

End DetectAi.

(* ===================================================================== *)
(** ** What the specification says, in its own terms *)
(* ===================================================================== *)

Module Spec.
Import Js.

(** [kw] occurs in [s] when case is ignored: some stretch of [s] has the
    lower-case form of [kw]. *)
Definition occursIgnoringCase (kw s : string) : Prop :=
  exists pre mid post,
    s = pre ++ mid ++ post /\ toLowerCase mid = toLowerCase kw.

(** Some keyword of the list occurs in [s], case ignored. *)
Definition mentions (kws : list string) (s : string) : Prop :=
  exists kw, In kw kws /\ occursIgnoringCase kw s.

(** The keyword sets of section 4.1. *)
Definition claimPositive : list string :=
  ["true"; "verified"; "accurate"; "correct"].
Definition claimNegative : list string :=
  ["false"; "incorrect"; "wrong"; "fake"].
Definition citationPositive : list string :=
  ["valid"; "exists"; "found"; "working"].
Definition citationFabricated : list string :=
  ["fake"; "fabricated"; "nonexistent"; "false"].

(** The bidirectional 30-character-prefix test of section 4.2: the first
    30 characters of either text occur in the other, case ignored. *)
Definition first30 (s : string) : string := String.substring 0 30 s.

Definition prefixOverlap (claimText entryText : string) : Prop :=
  occursIgnoringCase (first30 entryText) claimText
  \/ occursIgnoringCase (first30 claimText) entryText.

(** The factual backend call fails: a network error, a status outside
    2xx, or a body that does not parse. *)
Definition backendFails (JSON_parse : string -> result value)
  (backend : Fetch) : bool :=
  match backend with
  | Rejected _ => true
  | Settled r =>
      negb (ok r)
      || match VerifyContent.json JSON_parse r with
         | inl _ => true
         | inr _ => false
         end
  end.

(** The reconciliation rule of section 4.4, one constructor per line of
    the rule.  [Reconciled status reason p status' reason'] reads: a
    citation with prior [status] and [reason], probed with outcome [p],
    leaves re-verification with [status'] and [reason']. *)
Definition titleOrUnknown (title : option string) : string :=
  match title with
  | Some t => if (t =? "")%string then "Unknown" else t
  | None => "Unknown"
  end.

Definition quoted (s : string) : string :=
  String "034"%char (s ++ String "034"%char EmptyString).

Inductive Reconciled (status reason : value) (p : VerifyCitations.Probe.t)
  : value -> value -> Prop :=
| broken_and_reachable :
    status = VStr "broken" ->
    VerifyCitations.Probe.exists_ p = true ->
    Reconciled status reason p
      (VStr "valid")
      (VStr ("URL is accessible. Page title: "
             ++ quoted (titleOrUnknown (VerifyCitations.Probe.title p))))
| valid_and_unreachable_with_code :
    status = VStr "valid" ->
    VerifyCitations.Probe.exists_ p = false ->
    VerifyCitations.Probe.status p <> 0%Z ->
    Reconciled status reason p
      (VStr "broken")
      (VStr ("URL returned HTTP "
             ++ numberToString (VerifyCitations.Probe.status p)))
| valid_and_unreachable_without_code :
    status = VStr "valid" ->
    VerifyCitations.Probe.exists_ p = false ->
    VerifyCitations.Probe.status p = 0%Z ->
    Reconciled status reason p
      (VStr "broken")
      (VStr "URL is not accessible or does not exist")
| every_other_case :
    ~ (status = VStr "broken" /\ VerifyCitations.Probe.exists_ p = true) ->
    ~ (status = VStr "valid" /\ VerifyCitations.Probe.exists_ p = false) ->
    Reconciled status reason p status reason.

(** The four properties the re-verifier adds, and the six it writes. *)
Definition added : list string :=
  ["verified"; "httpStatus"; "pageTitle"; "contentPreview"].

Definition written : list string := "status" :: "reason" :: added.

(** Two probe outcomes agree on what the rule looks at: reachability and
    the HTTP code. *)
Definition sameOutcome (p q : VerifyCitations.Probe.t) : Prop :=
  VerifyCitations.Probe.exists_ p = VerifyCitations.Probe.exists_ q
  /\ VerifyCitations.Probe.status p = VerifyCitations.Probe.status q.

End Spec.

(* ===================================================================== *)
(** ** Runs of the re-verifier, read as functions *)
(* ===================================================================== *)

Module Runs.
Import Js VerifyCitations.

(** The outcome of probing [url] on [network], read off a run of
    [checkUrl] from the empty world. *)
Definition probed (network : string -> Fetch) (url : value)
  : Probe.t :=
  match fst (checkUrl network url []) with
  | inr p => p
  | inl _ => unreachable 0
  end.

(** The object the re-verifier returns for the citation object [c]. *)
Definition reverified (network : string -> Fetch) (c : obj) : obj :=
  match updated (VObj c) (probed network (lookup "url" c))
  with
  | inr o => o
  | inl _ => c
  end.

End Runs.

(* ===================================================================== *)
(** ** Sample data *)
(* ===================================================================== *)

Module Samples.
Import Js.

(** A stand-in for [JSON.parse] that knows the texts of [table] and
    rejects every other text. *)
Definition parseWith (table : list (string * value)) (s : string)
  : result value :=
  match List.find (fun kv => (fst kv =? s)%string) table with
  | Some kv => inr (snd kv)
  | None => inl (Error "Unexpected token in JSON")
  end.

Definition q (s : string) : string := Spec.quoted s.

(** The insight of scenario 2, as the AI writes it and as it parses. *)
Definition insightText : string :=
  "{" ++ q "hallucinationRisk" ++ ":" ++ q "High" ++ ","
      ++ q "analysisSummary" ++ ":" ++ q "Several figures lack a source."
      ++ "}".

Definition insight : value :=
  VObj [("hallucinationRisk", VStr "High");
        ("analysisSummary", VStr "Several figures lack a source.")].

(** A chat completion whose first choice has [content]. *)
Definition completion (content : string) : value :=
  VObj [("choices",
         VArr [VObj [("message",
                      VObj [("role", VStr "assistant");
                            ("content", VStr content)])]])].

Definition fencedInsightText : string :=
  "Here is the analysis: ```json" ++ String "010"%char insightText
  ++ String "010"%char "```".

Definition parse : string -> result value :=
  parseWith [("<completion: fenced insight>", completion fencedInsightText);
             ("<completion: prose>",
              completion "I am sorry, I cannot assess this text.");
             (insightText, insight)].

(** Scenario 1, with an insight that suggests a source for its claim. *)
Definition eiffelClaim : value :=
  VObj [("text", VStr "The Eiffel Tower is 330m tall");
        ("status", VStr "true");
        ("note", VStr "matches official spec")].

Definition eiffelBackend : value :=
  VObj [("trustScore", VNum 82);
        ("claims", VArr [eiffelClaim]);
        ("citations",
         VArr [VObj [("source", VStr "Wikipedia");
                     ("url",
                      VStr "https://en.wikipedia.org/wiki/Eiffel_Tower");
                     ("status", VStr "valid")]])].

Definition eiffelEntry : value :=
  VObj [("claimText", VStr "the eiffel tower is 330m tall");
        ("suggestedSources", VArr [VStr "https://www.toureiffel.paris/en"])].

Definition eiffelInsight : value :=
  VObj [("hallucinationRisk", VStr "Low");
        ("sourceSuggestions", VArr [eiffelEntry])].

(** A claim for which the backend itself names a source. *)
Definition sourcedClaim : value :=
  VObj [("text", VStr "Water boils at 90 degrees Celsius at sea level");
        ("status", VStr "false");
        ("suggestedSources", VArr [VStr "https://www.nist.gov"])].

(** A claim, and an insight whose only entry has an empty [claimText]. *)
Definition skyClaim : value :=
  VObj [("text", VStr "The sky is green")].

Definition blankEntry : value :=
  VObj [("claimText", VStr "");
        ("suggestedSources", VArr [VStr "https://a.example"])].

Definition blankInsight : value :=
  VObj [("sourceSuggestions", VArr [blankEntry])].

(** Scenario 3: a citation marked broken whose URL answers 200 with a
    title; scenario 4: a citation marked valid without a URL. *)
Definition exampleCitation : obj :=
  [("source", VStr "Example"); ("url", VStr "https://example.com");
   ("status", VStr "broken"); ("reason", VStr "Link did not resolve")].

Definition unknownCitation : obj :=
  [("source", VStr "A 2019 study"); ("url", VStr "unknown");
   ("status", VStr "valid"); ("reason", VStr "Cited by name")].

Definition goneCitation : obj :=
  [("source", VStr "Old blog"); ("url", VStr "https://gone.example/post");
   ("status", VStr "valid"); ("reason", VStr "Found")].

(** A citation as an earlier run returned it, when its URL answered 503. *)
Definition staleCitation : obj :=
  [("source", VStr "Example"); ("url", VStr "https://example.com");
   ("status", VStr "broken"); ("reason", VStr "Link did not resolve");
   ("verified", VBool true); ("httpStatus", VNum 503)].

Definition exampleNetwork (url : string) : Fetch :=
  if (url =? "https://example.com")%string then
    Settled (mkResponse 200
      (inr "<html><head><title>Example Domain</title></head><body><h1>Example Domain</h1></body></html>"))
  else if (url =? "https://gone.example/post")%string then
    Settled (mkResponse 404 (inr "Not Found"))
  else Rejected (Error "dns error").

Definition citationsRequest (cs : list obj) : value :=
  VObj [("citations", VArr (map VObj cs))].

Definition okResponse (body : string) : Fetch :=
  Settled (mkResponse 200 (inr body)).

Definition textRequest (text : string) : result value :=
  inr (VObj [("text", VStr text)]).

End Samples.

(* ===================================================================== *)
(** ** Conditions on requests and upstream answers *)
(* ===================================================================== *)

Module Conditions.
Import Js.

(** The request gets past the checks of lines 17-24 and 56-59 of
    verify-content (lines 14-26 of detect-ai): a POST whose body parses to
    a value with a non-empty string [text], and the API key is set. *)
Definition accepted (req : Request) (apiKey : value) : Prop :=
  method req = POST
  /\ (exists parsed c t,
        body req = inr parsed
        /\ getProp parsed "text" = inr (VStr (String c t)))
  /\ truthy apiKey = true.

(** The backend call gave the truthy value [b]: a 2xx response whose body
    parses to [b]. *)
Definition backendReturns (JSON_parse : string -> result value)
  (backend : Fetch) (b : value) : Prop :=
  exists r,
    backend = Settled r /\ ok r = true
    /\ VerifyContent.json JSON_parse r = inr b /\ truthy b = true.

(** [text] of the request body is a non-empty string. *)
Definition validText (parsed : value) : bool :=
  match getOpt parsed "text" with
  | VStr (String _ _) => true
  | _ => false
  end.

(** The array [(x || [])] that [map] runs over, when it is one. *)
Definition arrayOr (x : value) : option (list value) :=
  match or x (VArr []) with
  | VArr xs => Some xs
  | _ => None
  end.

(** A backend claim on which the callback of [claims.map] throws: [null],
    or one whose first truthy value among [status], [verdict] and
    [verification_status] is no string. *)
Definition malformedClaim (claim : value) : bool :=
  nullish claim
  || (let st := or (or (getOpt claim "status") (getOpt claim "verdict"))
                   (getOpt claim "verification_status") in
      truthy st && match st with VStr _ => false | _ => true end).

(** The content of the first choice of a chat completion. *)
Definition contentOf (aiData : value) : value :=
  getOpt (getOpt (firstOpt (getOpt aiData "choices")) "message") "content".

(** The ways the supplementary call can fail to give an insight. *)
Inductive InsightFails (JSON_parse : string -> result value)
  : Fetch -> Prop :=
| call_rejected (e : exn) :
    InsightFails JSON_parse (Rejected e)
| status_not_2xx (r : Response) :
    ok r = false -> InsightFails JSON_parse (Settled r)
| body_unparsable (r : Response) (e : exn) :
    VerifyContent.json JSON_parse r = inl e ->
    InsightFails JSON_parse (Settled r)
| no_content (r : Response) (aiData : value) :
    VerifyContent.json JSON_parse r = inr aiData ->
    truthy (contentOf aiData) = false ->
    InsightFails JSON_parse (Settled r)
| content_unparsable (r : Response) (aiData : value) (c : string) (e : exn) :
    VerifyContent.json JSON_parse r = inr aiData ->
    contentOf aiData = VStr c ->
    JSON_parse (jsonText c) = inl e ->
    InsightFails JSON_parse (Settled r).

(** Every unit of [s] passes [p]. *)
Fixpoint every (p : ascii -> bool) (s : string) : bool :=
  match s with
  | EmptyString => true
  | String c s' => p c && every p s'
  end.

(** No unit of [s] is the backquote. *)
Definition backquoteFree (s : string) : bool :=
  every (fun c => negb (c =? "`")%char) s.

(** What [checkUrl] requests for [url]: the URL itself when it is a string
    that starts with "http", nothing otherwise. *)
Definition requestsOf (url : value) : list string :=
  match url with
  | VStr u => if startsWith u "http" then [u] else []
  | _ => []
  end.

(** The URLs the re-verifier requests for a list of citation objects: the
    [url] of each one that is a string starting with "http", in order. *)
Definition requested (cs : list obj) : list string :=
  flat_map (fun c => requestsOf (lookup "url" c)) cs.

End Conditions.

(* ===================================================================== *)
(** ** The objects on the wire *)
(* ===================================================================== *)

Module Wire.
Import Js VerifyContent.

(** The object literals of lines 149-154 and 157-162 of verify-content,
    as the JSON of the reply holds them. *)
Definition claimObject (c : Claim.t) : obj :=
  [("text", Claim.text c);
   ("status", VStr (claimStatusText (Claim.status c)));
   ("note", Claim.note c);
   ("suggestedSources", Claim.suggestedSources c)].

Definition citationObject (c : Citation.t) : obj :=
  [("source", Citation.source c);
   ("url", Citation.url c);
   ("status", VStr (citationStatusText (Citation.status c)));
   ("reason", Citation.reason c)].

(** [finalResult] (lines 164-172 and 177-186); only the second literal has
    the key [error]. *)
Definition resultObject (r : VerificationResult.t) : obj :=
  ((if nullish (VerificationResult.error r) then []
    else [("error", VerificationResult.error r)])
   ++
   [("trustScore", VerificationResult.trustScore r);
      ("claims",
       VArr (map (fun c => VObj (claimObject c))
                 (VerificationResult.claims r)));
      ("citations",
       VArr (map (fun c => VObj (citationObject c))
                 (VerificationResult.citations r)));
      ("hallucinationRisk", VerificationResult.hallucinationRisk r);
      ("hallucinationRiskReason",
       VerificationResult.hallucinationRiskReason r);
      ("analysisSummary", VerificationResult.analysisSummary r);
      ("source", VStr (VerificationResult.source r))])%list.

End Wire.

(* ===================================================================== *)
(** ** More sample data *)
(* ===================================================================== *)

Module Scenarios.
Import Js.

(** A stand-in for [JSON.parse] that knows a few more texts. *)
Definition parse : string -> result value :=
  Samples.parseWith
    [("null", VNull);
     ("<backend: eiffel>", Samples.eiffelBackend);
     ("<backend: one claim rated 1>",
      VObj [("claims",
             VArr [Samples.eiffelClaim;
                   VObj [("text", VStr "Paris is in France");
                         ("status", VNum 1)]])]);
     ("<completion: no suggestions>",
      Samples.completion "{ <sourceSuggestions: none> }");
     ("{ <sourceSuggestions: none> }",
      VObj [("hallucinationRisk", VStr "Low");
            ("sourceSuggestions", VStr "none")]);
     ("<completion: prose>",
      Samples.completion "I am sorry, I cannot assess this text.")].

Definition request : Request :=
  mkRequest POST (Samples.textRequest "The Eiffel Tower is 330m tall.").

Definition key : value := VStr "key".

(** A backend citation that names its source and gives no URL. *)
Definition bareCitation : value :=
  VObj [("source", VStr "A 2019 study"); ("status", VStr "valid")].

End Scenarios.

(* ===================================================================== *)
(** ** The client: what the components do with the replies *)
(* ===================================================================== *)

Module Client.
Import Js.

(** ToString on a value: what a template literal and [new Error(v)] print.
    An array prints its elements joined by commas, [null] and [undefined]
    among them as nothing; an object prints as [object Object], unless it
    has a property [toString] of its own, which JSON cannot make callable:
    the conversion then throws. *)
Fixpoint toStr (v : value) : result string :=
  match v with
  | VUndefined => ret "undefined"
  | VNull => ret "null"
  | VBool true => ret "true"
  | VBool false => ret "false"
  | VNum n => ret (numberToString n)
  | VStr s => ret s
  | VArr xs =>
      (fix join (xs : list value) : result string :=
         match xs with
         | [] => ret ""
         | x :: rest =>
             bind (match x with
                   | VUndefined | VNull => ret ""
                   | _ => toStr x
                   end)
               (fun head =>
                  match rest with
                  | [] => ret head
                  | _ => bind (join rest)
                           (fun tail => ret (head ++ "," ++ tail))
                  end)
         end) xs
  | VObj ps =>
      match lookup "toString" ps with
      | VUndefined => ret "[object Object]"
      | _ => throw (TypeError "toString")
      end
  end.

(** [new Error(v)]: the message is the string of [v], and empty for
    [undefined]. *)
Definition newError (v : value) : result exn :=
  match v with
  | VUndefined => ret (Error "")
  | _ => bind (toStr v) (fun s => ret (Error s))
  end.

(** [v.length] *)
Definition lengthOf (v : value) : result value :=
  match v with
  | VUndefined | VNull => throw (TypeError "length")
  | VArr xs => ret (VNum (Z.of_nat (List.length xs)))
  | VStr s => ret (VNum (Z.of_nat (String.length s)))
  | VObj ps => ret (lookup "length" ps)
  | _ => ret VUndefined
  end.

(** What [JSON.parse(JSON.stringify(v))] gives for a [v] other than
    [undefined]: a property that holds [undefined] is left out, an element
    that holds it becomes [null], everything else is copied. *)
Fixpoint jsonCopy (v : value) : value :=
  match v with
  | VArr xs =>
      VArr (map (fun x => match x with
                          | VUndefined => VNull
                          | _ => jsonCopy x
                          end) xs)
  | VObj ps =>
      VObj ((fix props (ps : list (string * value)) : obj :=
               match ps with
               | [] => []
               | (_, VUndefined) :: ps' => props ps'
               | (k, x) :: ps' => (k, jsonCopy x) :: props ps'
               end) ps)
  | _ => v
  end.

(** [JSON.parse(JSON.stringify(v))]: [JSON.stringify(undefined)] is
    [undefined], which [JSON.parse] reads as the text [undefined] and
    rejects with a SyntaxError. *)
Definition jsonRoundTrip (v : value) : result value :=
  match v with
  | VUndefined =>
      throw (Error (String "034" ("undefined"
                                  ++ String "034" " is not valid JSON")))
  | _ => ret (jsonCopy v)
  end.

(** Handlers change the state of their component and may throw: a run
    gives a value or a throw, and the state reached. *)
Definition act (S A : Type) : Type := S -> result A * S.

Definition pure {S A} (a : A) : act S A := fun st => (inr a, st).
Definition raise {S A} (e : exn) : act S A := fun st => (inl e, st).
Definition andThen {S A B} (m : act S A) (f : A -> act S B) : act S B :=
  fun st =>
    match m st with
    | (inl e, st') => (inl e, st')
    | (inr a, st') => f a st'
    end.
Definition lift {S A} (r : result A) : act S A := fun st => (r, st).
Definition modify {S} (f : S -> S) : act S unit := fun st => (inr tt, f st).

Declare Scope act_scope.
Delimit Scope act_scope with act.
Notation "x <- m ;; k" := (andThen m (fun x => k))
  (at level 61, m at next level, right associativity) : act_scope.
Notation "m ;;; k" := (andThen m (fun _ => k))
  (at level 61, right associativity) : act_scope.

(** What [supabase.functions.invoke] resolves to. *)
Record Invoked : Type := mkInvoked {
  data : value;
  error : value
}.

(** A call of [toast]. *)
Record Toast : Type := mkToast {
  title : string;
  description : string;
  destructive : bool                  (* [variant: "destructive"] *)
}.

End Client.

(* ===================================================================== *)
(** ** The dashboard (VerificationDashboard) *)
(* ===================================================================== *)

Module Dashboard.
Import Js Client.
Local Open Scope act_scope.

(** A row given to [insert] on [verification_history]. *)
Record Row : Type := mkRow {
  text_preview : string;
  full_text : string;
  trust_score : value;
  claims : value;
  citations : value
}.

(** The state of the component, the toasts shown and the rows given to
    [insert], oldest first. *)
Record State : Type := mkState {
  inputText : string;
  result : value;                     (* [null] before a verification *)
  showResults : bool;
  isVerifying : bool;
  isVerifyingCitations : bool;
  historyRefreshTrigger : nat;
  toasts : list Toast;
  inserts : list Row
}.

Definition setResult (v : value) (st : State) : State :=
  mkState (inputText st) v (showResults st) (isVerifying st)
    (isVerifyingCitations st) (historyRefreshTrigger st) (toasts st)
    (inserts st).

Definition setShowResults (b : bool) (st : State) : State :=
  mkState (inputText st) (result st) b (isVerifying st)
    (isVerifyingCitations st) (historyRefreshTrigger st) (toasts st)
    (inserts st).

Definition setIsVerifying (b : bool) (st : State) : State :=
  mkState (inputText st) (result st) (showResults st) b
    (isVerifyingCitations st) (historyRefreshTrigger st) (toasts st)
    (inserts st).

Definition setIsVerifyingCitations (b : bool) (st : State) : State :=
  mkState (inputText st) (result st) (showResults st) (isVerifying st)
    b (historyRefreshTrigger st) (toasts st) (inserts st).

Definition refreshHistory (st : State) : State :=
  mkState (inputText st) (result st) (showResults st) (isVerifying st)
    (isVerifyingCitations st) (S (historyRefreshTrigger st)) (toasts st)
    (inserts st).

Definition toast (t : Toast) (st : State) : State :=
  mkState (inputText st) (result st) (showResults st) (isVerifying st)
    (isVerifyingCitations st) (historyRefreshTrigger st)
    (toasts st ++ [t])%list (inserts st).

Definition insert (row : Row) (st : State) : State :=
  mkState (inputText st) (result st) (showResults st) (isVerifying st)
    (isVerifyingCitations st) (historyRefreshTrigger st) (toasts st)
    (inserts st ++ [row])%list.

(** Line 66: the preview stored with a verification. *)
Definition textPreview (text : string) : string :=
  substring text 0 200
  ++ (if (200 <? String.length text)%nat then "..." else "").

(** [saveToHistory] (lines 64-84).  [inserted] is how the insert ends: a
    throw, or the [error] of its answer.  The row is built inside the
    [try]: reading [trustScore] from a result that is [null] or
    [undefined], or copying a list that is [undefined], throws before
    [insert] is called, and the [catch] only logs. *)
Definition saveToHistory (inserted : Js.result value) (text : string)
  (verificationResult : value) (st : State) : State :=
  let row :=
    (trustScore <- getProp verificationResult "trustScore" ;;
     givenClaims <- getProp verificationResult "claims" ;;
     copiedClaims <- jsonRoundTrip givenClaims ;;
     givenCitations <- getProp verificationResult "citations" ;;
     copiedCitations <- jsonRoundTrip givenCitations ;;
     ret (mkRow (textPreview text) text trustScore copiedClaims
            copiedCitations))%js in
  match row with
  | inl _ => st
  | inr row =>
      let st := insert row st in
      match inserted with
      | inl _ => st
      | inr error => if truthy error then st else refreshHistory st
      end
  end.

(** Lines 107-121: [verificationResult]. *)
Definition verificationResultOf (d : value) (aiDetectResponse : Invoked)
  : value :=
  VObj [("trustScore", or (getOpt d "trustScore") (VNum 50));
        ("claims", or (getOpt d "claims") (VArr []));
        ("citations", or (getOpt d "citations") (VArr []));
        ("hallucinationRisk", getOpt d "hallucinationRisk");
        ("hallucinationRiskReason", getOpt d "hallucinationRiskReason");
        ("analysisSummary", getOpt d "analysisSummary");
        ("source", getOpt d "source");
        ("aiDetection",
         if truthy (data aiDetectResponse)
            && negb (truthy (error aiDetectResponse))
         then
           let a := data aiDetectResponse in
           VObj [("isAiGenerated", or (getOpt a "isAiGenerated")
                                      (VBool false));
                 ("confidence", or (getOpt a "confidence") (VNum 50));
                 ("indicators", or (getOpt a "indicators") (VArr []));
                 ("analysis", or (getOpt a "analysis") (VStr ""))]
         else VUndefined)].

(** The body of the [try] of [handleVerify] (lines 93-132). *)
Definition verifying (verifyResponse aiDetectResponse : Invoked)
  (inserted : Js.result value) (text : string) : act State unit :=
  if truthy (error verifyResponse) then
    m <- lift (getProp (error verifyResponse) "message") ;;
    e <- lift (newError (or m (VStr "Verification failed"))) ;;
    raise e
  else
    dataError <- lift (getProp (data verifyResponse) "error") ;;
    if truthy dataError then
      e <- lift (newError dataError) ;;
      raise e
    else
      let verificationResult :=
        verificationResultOf (data verifyResponse) aiDetectResponse in
      modify (setResult verificationResult) ;;;
      modify (setShowResults true) ;;;
      modify (saveToHistory inserted text verificationResult) ;;;
      score <- lift (toStr (getOpt (data verifyResponse) "trustScore")) ;;
      modify (toast (mkToast "Verification complete"
                       ("Trust score: " ++ score ++ "%") false)).

(** [handleVerify] (lines 86-142), given what the two calls resolve to
    and how the insert ends. *)
Definition handleVerify (verifyResponse aiDetectResponse : Invoked)
  (inserted : Js.result value) (st : State) : State :=
  if (trim (inputText st) =? "")%string then st
  else
    let st1 := setShowResults false (setIsVerifying true st) in
    let '(r, st2) :=
      verifying verifyResponse aiDetectResponse inserted (inputText st)
        st1 in
    let st3 :=
      match r with
      | inl e => toast (mkToast "Verification failed" (message e) true) st2
      | inr _ => st2
      end in
    setIsVerifying false st3.

(** The body of the [try] of [handleVerifyCitations] (lines 150-167). *)
Definition verifyingCitations (answer : Invoked) : act State unit :=
  if truthy (error answer) then
    m <- lift (getProp (error answer) "message") ;;
    e <- lift (newError (or m (VStr "Citation verification failed"))) ;;
    raise e
  else
    cs <- lift (getProp (data answer) "citations") ;;
    if truthy cs then
      modify (fun st =>
                if truthy (result st)
                then setResult (VObj (setProp "citations" cs
                                        (spread (result st)))) st
                else st) ;;;
      modify (toast (mkToast "Citations verified"
                       "All citation URLs have been checked" false))
    else pure tt.

(** [handleVerifyCitations] (lines 144-176), given what the call resolves
    to.  A throw of the first line leaves the state as it is. *)
Definition handleVerifyCitations (answer : Invoked) (st : State) : State :=
  let count :=
    if nullish (result st) then inr VUndefined
    else bind (getProp (result st) "citations") lengthOf in
  match count with
  | inl _ => st
  | inr n =>
      if negb (truthy n) then st
      else
        let st1 := setIsVerifyingCitations true st in
        let '(r, st2) := verifyingCitations answer st1 in
        let st3 :=
          match r with
          | inl e =>
              toast (mkToast "Citation verification failed" (message e)
                       true) st2
          | inr _ => st2
          end in
        setIsVerifyingCitations false st3
  end.

(** The request [handleVerifyCitations] sends:
    [{ citations: result.citations }]. *)
Definition citationsBody (st : State) : value :=
  VObj [("citations", getOpt (result st) "citations")].

Definition setInputText (s : string) (st : State) : State :=
  mkState s (result st) (showResults st) (isVerifying st)
    (isVerifyingCitations st) (historyRefreshTrigger st) (toasts st)
    (inserts st).

(** [handleLoadFromHistory] (lines 178-191); the arguments are the fields
    of [item]. *)
Definition handleLoadFromHistory (text : string)
  (trustScore claims citations : value) (st : State) : State :=
  setShowResults true
    (setResult (VObj [("trustScore", trustScore);
                      ("claims", claims);
                      ("citations", citations)])
       (setInputText text st)).

End Dashboard.

(* ===================================================================== *)
(** ** The history panel (VerificationHistory) *)
(* ===================================================================== *)

Module VerificationHistory.
Import Js Client.

(** [Array.isArray(v)] *)
Definition isArray (v : value) : bool :=
  match v with
  | VArr _ => true
  | _ => false
  end.

(** An item of [parsedData] (lines 59-63), from a row of the table. *)
Definition parsed (item : Dashboard.Row) : Dashboard.Row :=
  Dashboard.mkRow (Dashboard.text_preview item) (Dashboard.full_text item)
    (Dashboard.trust_score item)
    (if isArray (Dashboard.claims item) then Dashboard.claims item
     else VArr [])
    (if isArray (Dashboard.citations item) then Dashboard.citations item
     else VArr []).

(** [handleLoad] (lines 79-90), with the dashboard's
    [handleLoadFromHistory] as [onLoadVerification]. *)
Definition handleLoad (item : Dashboard.Row) (st : Dashboard.State)
  : Dashboard.State :=
  Dashboard.toast
    (mkToast "Loaded from history" "Previous verification result restored"
       false)
    (Dashboard.handleLoadFromHistory (Dashboard.full_text item)
       (Dashboard.trust_score item) (Dashboard.claims item)
       (Dashboard.citations item) st).

End VerificationHistory.

(* ===================================================================== *)
(** ** Comparison mode *)
(* ===================================================================== *)

Module ComparisonMode.
Import Js Client.
Local Open Scope act_scope.

Record State : Type := mkState {
  textA : string;
  textB : string;
  resultA : value;
  resultB : value;
  isComparing : bool;
  toasts : list Toast
}.

Definition setResultA (v : value) (st : State) : State :=
  mkState (textA st) (textB st) v (resultB st) (isComparing st) (toasts st).
Definition setResultB (v : value) (st : State) : State :=
  mkState (textA st) (textB st) (resultA st) v (isComparing st) (toasts st).
Definition setIsComparing (b : bool) (st : State) : State :=
  mkState (textA st) (textB st) (resultA st) (resultB st) b (toasts st).
Definition toast (t : Toast) (st : State) : State :=
  mkState (textA st) (textB st) (resultA st) (resultB st) (isComparing st)
    (toasts st ++ [t])%list.

(** Lines 60-64: the result kept for one side. *)
Definition comparisonResult (d : value) : value :=
  VObj [("trustScore", or (getOpt d "trustScore") (VNum 50));
        ("claims", or (getOpt d "claims") (VArr []));
        ("citations", or (getOpt d "citations") (VArr []))].

(** The body of the [try] of [handleCompare] (lines 52-75). *)
Definition comparing (responseA responseB : Invoked) : act State unit :=
  (if truthy (error responseA) then
     m <- lift (getProp (error responseA) "message") ;;
     e <- lift (newError m) ;;
     raise e
   else pure tt) ;;;
  (if truthy (error responseB) then
     m <- lift (getProp (error responseB) "message") ;;
     e <- lift (newError m) ;;
     raise e
   else pure tt) ;;;
  tsA <- lift (getProp (data responseA) "trustScore") ;;
  modify (setResultA (comparisonResult (data responseA))) ;;;
  tsB <- lift (getProp (data responseB) "trustScore") ;;
  modify (setResultB (comparisonResult (data responseB))) ;;;
  modify (toast (mkToast "Comparison complete"
                   "Both texts have been analyzed" false)).

(** [handleCompare] (lines 37-86). *)
Definition handleCompare (responseA responseB : Invoked) (st : State)
  : State :=
  if (trim (textA st) =? "")%string || (trim (textB st) =? "")%string then
    toast (mkToast "Both texts required"
             "Please enter text in both fields to compare" true) st
  else
    let st1 := setResultB VNull (setResultA VNull (setIsComparing true st)) in
    let '(r, st2) := comparing responseA responseB st1 in
    let st3 :=
      match r with
      | inl e => toast (mkToast "Comparison failed" (message e) true) st2
      | inr _ => st2
      end in
    setIsComparing false st3.

End ComparisonMode.

(* ===================================================================== *)
(** ** The highlighted text (HighlightedText) *)
(* ===================================================================== *)

Module HighlightedText.
Import Js.

(** [interface Claim] of the component. *)
Record Claim : Type := mkClaim {
  text : string;
  status : VerifyContent.ClaimStatus;
  note : string
}.

(** What is pushed on [elements]: a plain span with key [text-<idx>]
    ([None] stands for [text-end]), a highlighted span with key
    [claim-<idx>] and the tooltip of its claim; [Whole] is the one span
    shown when nothing was pushed. *)
Inductive Element : Type :=
| Plain (key : option nat) (content : string)
| Marked (key : nat) (claim : Claim) (content : string)
| Whole (content : string).

Definition content (e : Element) : string :=
  match e with
  | Plain _ c | Marked _ _ c | Whole c => c
  end.

(** The text on the screen: the contents of the elements in a row. *)
Fixpoint shown (es : list Element) : string :=
  match es with
  | [] => EmptyString
  | e :: es' => content e ++ shown es'
  end.

(** [s.indexOf(t)] *)
Definition indexOf (s t : string) : Z :=
  match before s t with
  | Some pre => Z.of_nat (String.length pre)
  | None => (-1)%Z
  end.

(** [s.slice(a, b)] and [s.slice(a)] for indices that are not negative,
    as the ones the component passes. *)
Definition slice (s : string) (a b : Z) : string :=
  String.substring (Z.to_nat a) (Z.to_nat (b - a)) s.

Definition sliceFrom (s : string) (a : Z) : string :=
  String.substring (Z.to_nat a) (String.length s - Z.to_nat a) s.

(** Where the claim's text first occurs in the original text, case
    ignored (lines 43-44 and 49). *)
Definition position (originalText : string) (claim : Claim) : Z :=
  indexOf (toLowerCase originalText) (toLowerCase (text claim)).

(** [[...claims].sort((a, b) => indexA - indexB)]: the sort is stable, so
    its result is the one of inserting each claim before the first claim
    whose position is not smaller. *)
Fixpoint insertByPosition (originalText : string) (x : Claim)
  (ys : list Claim) : list Claim :=
  match ys with
  | [] => [x]
  | y :: ys' =>
      if (position originalText x <=? position originalText y)%Z
      then x :: y :: ys'
      else y :: insertByPosition originalText x ys'
  end.

Definition sortedClaims (originalText : string) (claims : list Claim)
  : list Claim :=
  fold_right (insertByPosition originalText) [] claims.

(** The callback of [forEach] (lines 48-87) on the claims from index
    [idx] on; [acc] is [(elements, lastIndex)]. *)
Fixpoint place (originalText : string) (idx : nat) (claims : list Claim)
  (acc : list Element * Z) : list Element * Z :=
  match claims with
  | [] => acc
  | claim :: rest =>
      let '(elements, lastIndex) := acc in
      let startIndex := position originalText claim in
      place originalText (S idx) rest
        (if (startIndex =? -1)%Z then acc
         else
           let elements :=
             if (startIndex >? lastIndex)%Z
             then (elements
                   ++ [Plain (Some idx)
                         (slice originalText lastIndex startIndex)])%list
             else elements in
           let stop := (startIndex + Z.of_nat (String.length (text claim)))%Z in
           ((elements
             ++ [Marked idx claim (slice originalText startIndex stop)])%list,
            stop))
  end.

(** The elements the component renders (lines 37-101). *)
Definition render (originalText : string) (claims : list Claim)
  : list Element :=
  let '(elements, lastIndex) :=
    place originalText 0 (sortedClaims originalText claims) ([], 0%Z) in
  let elements :=
    if (lastIndex <? Z.of_nat (String.length originalText))%Z
    then (elements ++ [Plain None (sliceFrom originalText lastIndex)])%list
    else elements in
  match elements with
  | [] => [Whole originalText]
  | _ => elements
  end.

(** The claims found, taken in the order of display, lie apart: each
    starts at or after the end of the one before ([lastIndex]). *)
Fixpoint apart (originalText : string) (lastIndex : Z)
  (claims : list Claim) : bool :=
  match claims with
  | [] => true
  | claim :: rest =>
      let startIndex := position originalText claim in
      if (startIndex =? -1)%Z then apart originalText lastIndex rest
      else (lastIndex <=? startIndex)%Z
           && apart originalText
                (startIndex + Z.of_nat (String.length (text claim)))%Z rest
  end.

End HighlightedText.

(* ===================================================================== *)
(** ** The summary of an export (ExportResults) *)
(* ===================================================================== *)

Module ExportResults.
Import Js.

(** [xs.filter(c => c.status === st).length] *)
Definition count (st : string) (xs : list obj) : nat :=
  List.length (filter (fun c => isStr (lookup "status" c) st) xs).

(** [summary] of [exportAsJSON] (lines 42-51). *)
Record Summary : Type := mkSummary {
  totalClaims : nat;
  verifiedClaims : nat;
  questionableClaims : nat;
  falseClaims : nat;
  totalCitations : nat;
  validCitations : nat;
  brokenCitations : nat;
  fakeCitations : nat
}.

Definition summary (claims citations : list obj) : Summary :=
  mkSummary (List.length claims)
    (count "verified" claims) (count "questionable" claims)
    (count "false" claims)
    (List.length citations)
    (count "valid" citations) (count "broken" citations)
    (count "fake" citations).

End ExportResults.

(* ===================================================================== *)
(** ** Facts about the JavaScript fragment *)
(* ===================================================================== *)

Module JsFacts.
Import Js.

Lemma prefix_iff (t s : string) :
  String.prefix t s = true <-> exists post, s = t ++ post.
Proof.
  revert s; induction t as [|c t IH]; intros s.
  - destruct s; simpl; split; eauto.
  - destruct s as [|d s]; simpl.
    + split; [discriminate | intros [post H]; discriminate].
    + destruct (Ascii.ascii_dec c d) as [->|ne].
      * rewrite IH. split; intros [post H]; exists post.
        -- now rewrite H.
        -- now injection H.
      * split; [discriminate | intros [post H]; injection H; congruence].
Qed.

Lemma includes_iff (s t : string) :
  includes s t = true <-> exists pre post, s = pre ++ t ++ post.
Proof.
  induction s as [|c s IH]; cbn [includes].
  - rewrite orb_false_r, prefix_iff. split.
    + intros [post H]. now exists EmptyString, post.
    + intros [pre [post H]]. destruct pre; simpl in H.
      * now exists post.
      * discriminate.
  - rewrite orb_true_iff, prefix_iff, IH. split.
    + intros [[post H] | [pre [post H]]].
      * now exists EmptyString, post.
      * exists (String c pre), post. simpl. now rewrite H.
    + intros [pre [post H]]. destruct pre as [|d pre]; simpl in H.
      * left. now exists post.
      * right. injection H as _ H. now exists pre, post.
Qed.

Lemma toLowerCase_app (a b : string) :
  toLowerCase (a ++ b) = toLowerCase a ++ toLowerCase b.
Proof. induction a; simpl; congruence. Qed.

Lemma toLowerCase_length (s : string) :
  String.length (toLowerCase s) = String.length s.
Proof. induction s; simpl; congruence. Qed.

(** A split of the lower-case form comes from a split of the string. *)
Lemma toLowerCase_split (s a b : string) :
  toLowerCase s = a ++ b ->
  exists a' b', s = a' ++ b' /\ toLowerCase a' = a /\ toLowerCase b' = b.
Proof.
  revert s; induction a as [|c a IH]; intros s H; simpl in H.
  - now exists EmptyString, s.
  - destruct s as [|d s]; simpl in H; [discriminate|].
    injection H as Hc H. destruct (IH _ H) as [a' [b' [-> [Ha Hb]]]].
    exists (String d a'), b'. simpl. now rewrite Hc, Ha.
Qed.

Lemma lowerUnit_idem (c : ascii) : lowerUnit (lowerUnit c) = lowerUnit c.
Proof.
  destruct c as [[] [] [] [] [] [] [] []]; reflexivity.
Qed.

Lemma toLowerCase_idem (s : string) :
  toLowerCase (toLowerCase s) = toLowerCase s.
Proof. induction s; simpl; [|rewrite lowerUnit_idem]; congruence. Qed.

(** [includes] on lower-case forms is occurrence with case ignored. *)
Lemma includes_lower_lower_iff (s kw : string) :
  includes (toLowerCase s) (toLowerCase kw) = true
  <-> Spec.occursIgnoringCase kw s.
Proof.
  rewrite includes_iff. unfold Spec.occursIgnoringCase. split.
  - intros [pre [post H]].
    destruct (toLowerCase_split _ _ _ H) as [pre' [r [-> [_ Hr]]]].
    destruct (toLowerCase_split _ _ _ Hr) as [mid [post' [-> [Hm _]]]].
    now exists pre', mid, post'.
  - intros [pre [mid [post [-> Hm]]]].
    exists (toLowerCase pre), (toLowerCase post).
    now rewrite !toLowerCase_app, Hm.
Qed.

(** The test the normalisers make, with a keyword written in lower case. *)
Lemma includes_lower_iff (s kw : string) :
  toLowerCase kw = kw ->
  includes (toLowerCase s) kw = true <-> Spec.occursIgnoringCase kw s.
Proof.
  intros Hkw. rewrite <- Hkw at 1. apply includes_lower_lower_iff.
Qed.

Lemma substring_lower (n m : nat) (s : string) :
  String.substring n m (toLowerCase s)
  = toLowerCase (String.substring n m s).
Proof.
  revert n m; induction s as [|c s IH]; intros [|n] [|m]; simpl;
    try reflexivity; try apply IH.
  now rewrite IH.
Qed.

(** [find] returns the first element that passes, after elements that all
    fail, or [undefined] when every element fails. *)
Lemma find_first (p : value -> result bool) (xs : list value) (v : value) :
  find p xs = inr v ->
  (exists l1 l2,
      xs = (l1 ++ v :: l2)%list
      /\ Forall (fun x => p x = inr false) l1
      /\ p v = inr true)
  \/ (v = VUndefined /\ Forall (fun x => p x = inr false) xs).
Proof.
  induction xs as [|x xs IH]; simpl.
  - intros [= <-]. right. split; [reflexivity | constructor].
  - destruct (p x) as [e|[|]] eqn:Hp; cbn [bind]; try discriminate.
    + intros [= <-]. left. exists [], xs. repeat split; auto.
    + intros H. destruct (IH H) as [[l1 [l2 [-> [Hl Hv]]]] | [-> Hall]].
      * left. exists (x :: l1), l2. repeat split; auto.
      * right. split; [reflexivity | constructor; assumption].
Qed.

Lemma mapM_In {A B} (f : A -> result B) (xs : list A) (ys : list B) (y : B) :
  mapM f xs = inr ys -> In y ys -> exists x, In x xs /\ f x = inr y.
Proof.
  revert ys; induction xs as [|x xs IH]; simpl; intros ys.
  - intros [= <-] [].
  - destruct (f x) as [e|y0] eqn:Hf; cbn [bind]; try discriminate.
    destruct (mapM f xs) as [e|ys0]; cbn [bind]; try discriminate.
    intros [= <-] [<-|Hin].
    + exists x. auto.
    + destruct (IH _ eq_refl Hin) as [x' [Hx Hfx]]. exists x'. auto.
Qed.

End JsFacts.

(* ===================================================================== *)
(** ** The status normaliser *)
(* ===================================================================== *)

Module StatusNormalizer.
Import Js VerifyContent Spec JsFacts.

(** The four-way disjunction of [includes] tests is [mentions]. *)
Lemma includes4_iff (a b c d s : string) :
  toLowerCase a = a -> toLowerCase b = b ->
  toLowerCase c = c -> toLowerCase d = d ->
  includes (toLowerCase s) a || includes (toLowerCase s) b
  || includes (toLowerCase s) c || includes (toLowerCase s) d = true
  <-> mentions [a; b; c; d] s.
Proof.
  intros Ha Hb Hc Hd.
  rewrite !orb_true_iff, !includes_lower_iff by assumption.
  unfold mentions. split.
  - intros [[[H|H]|H]|H];
      [exists a | exists b | exists c | exists d]; simpl; auto 6.
  - intros [kw [Hin H]]. simpl in Hin.
    destruct Hin as [<-|[<-|[<-|[<-|[]]]]]; auto.
Qed.

Lemma claimPositive_iff (s : string) :
  (let l := toLowerCase s in
   includes l "true" || includes l "verified" || includes l "accurate"
   || includes l "correct") = true <-> mentions claimPositive s.
Proof. now apply includes4_iff. Qed.

Lemma claimNegative_iff (s : string) :
  (let l := toLowerCase s in
   includes l "false" || includes l "incorrect" || includes l "wrong"
   || includes l "fake") = true <-> mentions claimNegative s.
Proof. now apply includes4_iff. Qed.

Lemma citationPositive_iff (s : string) :
  (let l := toLowerCase s in
   includes l "valid" || includes l "exists" || includes l "found"
   || includes l "working") = true <-> mentions citationPositive s.
Proof. now apply includes4_iff. Qed.

Lemma citationFabricated_iff (s : string) :
  (let l := toLowerCase s in
   includes l "fake" || includes l "fabricated" || includes l "nonexistent"
   || includes l "false") = true <-> mentions citationFabricated s.
Proof. now apply includes4_iff. Qed.

(** On a string the guard [!status] changes nothing: the empty string
    holds no keyword. *)
Lemma normalizeClaimStatus_string (s : string) :
  normalizeClaimStatus (VStr s) = inr (claimStatusOf s).
Proof. destruct s; reflexivity. Qed.

Lemma normalizeCitationStatus_string (s : string) :
  normalizeCitationStatus (VStr s) = inr (citationStatusOf s).
Proof. destruct s; reflexivity. Qed.

(** A three-way choice by two tests, read as three equivalences. *)
Lemma priority_choice {A} (x y z : A) (bp bn : bool) (P N : Prop) :
  x <> y -> x <> z -> y <> z ->
  (bp = true <-> P) -> (bn = true <-> N) ->
  let r := if bp then x else if bn then y else z in
  (r = x <-> P) /\ (r = y <-> ~ P /\ N) /\ (r = z <-> ~ P /\ ~ N).
Proof.
  intros xy xz yz HP HN r. subst r.
  destruct bp, bn; repeat split; intros;
    repeat match goal with
           | H : _ /\ _ |- _ => destruct H
           end;
    try congruence; try tauto;
    try (exfalso; intuition congruence);
    try (apply HP; reflexivity); try (apply HN; reflexivity);
    try (intro; intuition congruence).
Qed.

Lemma claimStatusOf_priority (s : string) :
  (claimStatusOf s = ClaimVerified <-> mentions claimPositive s)
  /\ (claimStatusOf s = ClaimFalse
      <-> ~ mentions claimPositive s /\ mentions claimNegative s)
  /\ (claimStatusOf s = ClaimQuestionable
      <-> ~ mentions claimPositive s /\ ~ mentions claimNegative s).
Proof.
  apply (priority_choice ClaimVerified ClaimFalse ClaimQuestionable);
    try discriminate.
  - apply claimPositive_iff.
  - apply claimNegative_iff.
Qed.

Lemma citationStatusOf_priority (s : string) :
  (citationStatusOf s = CitationValid <-> mentions citationPositive s)
  /\ (citationStatusOf s = CitationFake
      <-> ~ mentions citationPositive s /\ mentions citationFabricated s)
  /\ (citationStatusOf s = CitationBroken
      <-> ~ mentions citationPositive s /\ ~ mentions citationFabricated s).
Proof.
  apply (priority_choice CitationValid CitationFake CitationBroken);
    try discriminate.
  - apply citationPositive_iff.
  - apply citationFabricated_iff.
Qed.

Lemma inr_inj {E A} (x y : A) : @inr E A x = inr y <-> x = y.
Proof. split; [now intros [= ->] | now intros ->]. Qed.

Lemma returns_iff {A} (r : result A) (x v : A) (P : Prop) :
  r = inr x -> (x = v <-> P) -> (r = inr v <-> P).
Proof. intros -> H. rewrite <- H. apply inr_inj. Qed.

(** C2.  On every string the two normalisers return (they do not throw)
    one of the three values of their enum, chosen by case-insensitive
    occurrence of keywords in a fixed order: a positive keyword gives
    verified / valid; failing that, a negative (fabrication) keyword gives
    false / fake; failing both, questionable / broken.  The empty string
    and a missing status give questionable / broken, and each of the three
    values is reached. *)
Theorem normalizers_total_in_priority_order (s : string) :
  (exists st, normalizeClaimStatus (VStr s) = inr st)
  /\ (normalizeClaimStatus (VStr s) = inr ClaimVerified
      <-> mentions claimPositive s)
  /\ (normalizeClaimStatus (VStr s) = inr ClaimFalse
      <-> ~ mentions claimPositive s /\ mentions claimNegative s)
  /\ (normalizeClaimStatus (VStr s) = inr ClaimQuestionable
      <-> ~ mentions claimPositive s /\ ~ mentions claimNegative s)
  /\ (exists st, normalizeCitationStatus (VStr s) = inr st)
  /\ (normalizeCitationStatus (VStr s) = inr CitationValid
      <-> mentions citationPositive s)
  /\ (normalizeCitationStatus (VStr s) = inr CitationFake
      <-> ~ mentions citationPositive s /\ mentions citationFabricated s)
  /\ (normalizeCitationStatus (VStr s) = inr CitationBroken
      <-> ~ mentions citationPositive s /\ ~ mentions citationFabricated s)
  /\ normalizeClaimStatus (VStr "") = inr ClaimQuestionable
  /\ normalizeClaimStatus VUndefined = inr ClaimQuestionable
  /\ normalizeClaimStatus VNull = inr ClaimQuestionable
  /\ normalizeCitationStatus (VStr "") = inr CitationBroken
  /\ normalizeCitationStatus VUndefined = inr CitationBroken
  /\ normalizeCitationStatus VNull = inr CitationBroken
  /\ (forall st, exists s', normalizeClaimStatus (VStr s') = inr st)
  /\ (forall st, exists s', normalizeCitationStatus (VStr s') = inr st).
Proof.
  destruct (claimStatusOf_priority s) as [c1 [c2 c3]].
  destruct (citationStatusOf_priority s) as [k1 [k2 k3]].
  pose proof (normalizeClaimStatus_string s) as ec.
  pose proof (normalizeCitationStatus_string s) as ek.
  repeat match goal with |- _ /\ _ => split end;
    try reflexivity;
    try (apply (returns_iff _ _ _ _ ec); assumption);
    try (apply (returns_iff _ _ _ _ ek); assumption).
  - exists (claimStatusOf s). apply normalizeClaimStatus_string.
  - exists (citationStatusOf s). apply normalizeCitationStatus_string.
  - intros [| |];
      [exists "true" | exists "unsure" | exists "wrong"]; reflexivity.
  - intros [| |];
      [exists "working" | exists "timeout" | exists "fabricated"];
      reflexivity.
Qed.

(** C10.  A positive keyword anywhere in the status string decides, also
    inside a negating word and next to negative keywords: every string in
    which a positive keyword occurs is normalised to verified (claims) or
    valid (citations); so ["untrue"] is verified and ["invalid"] is
    valid. *)
Theorem positive_keyword_wins (s : string) :
  (mentions claimPositive s ->
   normalizeClaimStatus (VStr s) = inr ClaimVerified)
  /\ (mentions citationPositive s ->
      normalizeCitationStatus (VStr s) = inr CitationValid)
  /\ normalizeClaimStatus (VStr "untrue") = inr ClaimVerified
  /\ normalizeClaimStatus (VStr "Incorrect, false and fake")
     = inr ClaimVerified
  /\ normalizeCitationStatus (VStr "invalid") = inr CitationValid
  /\ normalizeCitationStatus (VStr "Not found: fabricated")
     = inr CitationValid.
Proof.
  repeat match goal with |- _ /\ _ => split end; try reflexivity.
  - intros H. rewrite normalizeClaimStatus_string. f_equal.
    now apply (proj1 (claimStatusOf_priority s)).
  - intros H. rewrite normalizeCitationStatus_string. f_equal.
    now apply (proj1 (citationStatusOf_priority s)).
Qed.

Lemma positive_keyword_wins_witness :
  mentions claimPositive "untrue"
  /\ normalizeClaimStatus (VStr "untrue") = inr ClaimVerified
  /\ mentions citationPositive "invalid"
  /\ normalizeCitationStatus (VStr "invalid") = inr CitationValid.
Proof.
  assert (Hc : mentions claimPositive "untrue").
  { exists "true". split; [simpl; auto|].
    exists "un", "true", "". split; reflexivity. }
  assert (Hk : mentions citationPositive "invalid").
  { exists "valid". split; [simpl; auto|].
    exists "in", "valid", "". split; reflexivity. }
  split; [exact Hc|].
  split; [exact (proj1 (positive_keyword_wins "untrue") Hc)|].
  split; [exact Hk|].
  exact (proj1 (proj2 (positive_keyword_wins "invalid")) Hk).
Defined.

End StatusNormalizer.

(* ===================================================================== *)
(** ** The result merger *)
(* ===================================================================== *)

Module Merger.
Import Js VerifyContent Spec JsFacts.

Section Fallback.

Variable JSON_parse : string -> result value.

(** A failed backend call leaves [backendResult] null and an error text. *)
Lemma callBackend_failed (backend : Fetch) :
  backendFails JSON_parse backend = true ->
  exists reason, callBackend JSON_parse backend = (VNull, VStr reason).
Proof.
  unfold backendFails, callBackend. destruct backend as [e|r].
  - intros _. now exists (message e).
  - destruct (ok r); simpl.
    + destruct (json JSON_parse r) as [e|v]; [|discriminate].
      intros _. now exists (message e).
    + intros _. destruct (text r) as [e|body]; eauto.
Qed.

(** The [||] of a string with a non-empty default is a string. *)
Lemma or_string_default (reason fallback : string) :
  exists shown, or (VStr reason) (VStr fallback) = VStr shown.
Proof. unfold or. destruct (truthy (VStr reason)); eauto. Qed.

(** C1.  Whenever the factual backend call fails (network error, status
    outside 2xx, unparsable body), whatever the AI-insight call did, the
    handler answers with a merged result whose trustScore is 0, whose
    claims and citations are empty and whose source is "ai-only-fallback";
    the risk, its reason and the summary are the AI result's when it has
    them, and the risk is "Unknown" otherwise. *)
Theorem backend_failure_gives_fallback
  (req : Request) (apiKey : value) (backend ai : Fetch)
  (parsed : value) (c : ascii) (t : string) :
  method req = POST ->
  body req = inr parsed ->
  getProp parsed "text" = inr (VStr (String c t)) ->
  truthy apiKey = true ->
  backendFails JSON_parse backend = true ->
  exists r,
    serve JSON_parse req apiKey backend ai = Merged r
    /\ VerificationResult.trustScore r = VNum 0
    /\ VerificationResult.claims r = []
    /\ VerificationResult.citations r = []
    /\ VerificationResult.source r = "ai-only-fallback"
    /\ (exists reason, VerificationResult.error r = VStr reason)
    /\ VerificationResult.hallucinationRisk r
       = or (getOpt (callAi JSON_parse ai) "hallucinationRisk")
            (VStr "Unknown")
    /\ VerificationResult.hallucinationRiskReason r
       = or (getOpt (callAi JSON_parse ai) "hallucinationRiskReason")
            (VStr "Backend verification required")
    /\ VerificationResult.analysisSummary r
       = or (getOpt (callAi JSON_parse ai) "analysisSummary")
            (VStr "Unable to verify without backend")
    /\ (callAi JSON_parse ai = VNull ->
        VerificationResult.hallucinationRisk r = VStr "Unknown").
Proof.
  intros Hm Hb Ht Hk Hfail.
  destruct (callBackend_failed backend Hfail) as [reason Hcall].
  unfold serve, handle. rewrite Hm, Hb. cbn [bind].
  rewrite Ht. cbn [bind]. rewrite Hcall, Hk. cbn.
  eexists. split; [reflexivity|]. cbn.
  repeat split.
  - apply or_string_default.
  - intros ->. reflexivity.
Qed.

End Fallback.

(** Scenario 2: the backend call throws, the AI call returns a fenced
    insight with risk "High". *)
Lemma backend_failure_gives_fallback_witness :
  exists r,
    serve Samples.parse
      (mkRequest POST (Samples.textRequest "The moon is made of cheese."))
      (VStr "key")
      (Rejected (Error "connection refused"))
      (Samples.okResponse "<completion: fenced insight>")
    = Merged r
    /\ VerificationResult.trustScore r = VNum 0
    /\ VerificationResult.claims r = []
    /\ VerificationResult.hallucinationRisk r = VStr "High"
    /\ VerificationResult.error r = VStr "connection refused".
Proof.
  destruct (backend_failure_gives_fallback Samples.parse
              (mkRequest POST
                 (Samples.textRequest "The moon is made of cheese."))
              (VStr "key")
              (Rejected (Error "connection refused"))
              (Samples.okResponse "<completion: fenced insight>")
              (VObj [("text", VStr "The moon is made of cheese.")])
              "T"%char "he moon is made of cheese."
              eq_refl eq_refl eq_refl eq_refl eq_refl)
    as [r [Hr [Hts [Hcl [_ [_ [_ [Hrisk _]]]]]]]].
  exists r. split; [exact Hr|]. split; [exact Hts|]. split; [exact Hcl|].
  split; [exact Hrisk|].
  vm_compute in Hr. injection Hr as <-. reflexivity.
Defined.

(** *** Source suggestions *)

(** What [findSuggestion] returns: the first entry of the AI list that
    matches, or [undefined] when there is no list or no entry matches. *)
Lemma findSuggestion_inv (aiResult claim v : value) :
  findSuggestion aiResult claim = inr v ->
  (exists l1 l2,
      getOpt aiResult "sourceSuggestions" = VArr (l1 ++ v :: l2)
      /\ Forall (fun x => suggestionMatches claim x = inr false) l1
      /\ suggestionMatches claim v = inr true)
  \/ (v = VUndefined
      /\ (nullish (getOpt aiResult "sourceSuggestions") = true
          \/ exists entries,
               getOpt aiResult "sourceSuggestions" = VArr entries
               /\ Forall (fun x => suggestionMatches claim x = inr false)
                         entries)).
Proof.
  unfold findSuggestion.
  destruct (getOpt aiResult "sourceSuggestions") as [| | | | |entries|] eqn:Hs;
    cbn; try discriminate.
  - intros [= <-]. right. auto.
  - intros [= <-]. right. auto.
  - intros H. destruct (find_first _ _ _ H) as [[l1 [l2 [-> [Hl Hv]]]]|[-> Ha]].
    + left. exists l1, l2. auto.
    + right. split; [reflexivity|]. right. exists entries. auto.
Qed.

(** Where the [suggestedSources] of a merged claim comes from. *)
Lemma mergeClaim_sources (aiResult claim : value) (m : Claim.t) :
  mergeClaim aiResult claim = inr m ->
  exists aiSuggestion own,
    findSuggestion aiResult claim = inr aiSuggestion
    /\ getProp claim "suggestedSources" = inr own
    /\ Claim.suggestedSources m
       = or (or (getOpt aiSuggestion "suggestedSources") own) (VArr []).
Proof.
  unfold mergeClaim.
  destruct (findSuggestion aiResult claim) as [e|aiSuggestion];
    [discriminate|].
  cbn [bind].
  destruct claim; cbn [getProp bind ret throw]; try discriminate;
    match goal with
    | |- context [normalizeClaimStatus ?v] =>
        destruct (normalizeClaimStatus v); cbn [bind ret]; try discriminate
    end;
    intros [= <-]; eexists _, _; repeat split.
Qed.

(** The claims of a merged result come from the backend's [claims]. *)
Lemma merge_claims_origin
  (backendResult backendError aiResult : value)
  (r : VerificationResult.t) (c : Claim.t) :
  merge backendResult backendError aiResult = inr r ->
  In c (VerificationResult.claims r) ->
  exists raw claim,
    getProp backendResult "claims" = inr (VArr raw)
    /\ In claim raw
    /\ mergeClaim aiResult claim = inr c.
Proof.
  unfold merge. destruct (truthy backendResult) eqn:Hb.
  - destruct (getProp backendResult "claims") as [e|rawClaims] eqn:Hc;
      cbn [bind]; [discriminate|].
    unfold mapArray at 1.
    destruct (or rawClaims (VArr [])) as [| | | | |xs|] eqn:Hor;
      cbn [bind throw]; try discriminate.
    destruct (mapM (mergeClaim aiResult) xs) as [e|claims] eqn:Hmap;
      cbn [bind]; [discriminate|].
    destruct (getProp backendResult "citations") as [e|rawCitations];
      cbn [bind]; [discriminate|].
    destruct (mapArray "citations.map" mergeCitation rawCitations)
      as [e|citations]; cbn [bind]; [discriminate|].
    destruct (getProp backendResult "trustScore") as [e|x1];
      cbn [bind]; [discriminate|].
    destruct (getProp backendResult "trust_score") as [e|x2];
      cbn [bind]; [discriminate|].
    intros [= <-]. cbn. intros Hin.
    destruct (mapM_In _ _ _ _ Hmap Hin) as [claim [Hx Hf]].
    exists xs, claim. repeat split; auto.
    unfold or in Hor. destruct (truthy rawClaims).
    + now subst.
    + injection Hor as <-. destruct Hx.
  - intros [= <-]. intros [].
Qed.

(** C3 (as amended).  In every merged result, a claim's suggestedSources
    differs from the empty list only when a matching AI-insight entry
    supplies it or the backend claim carries it itself; the claim's status
    is not looked at. *)
Theorem suggested_sources_origin
  (backendResult backendError aiResult : value)
  (r : VerificationResult.t) (c : Claim.t) :
  merge backendResult backendError aiResult = inr r ->
  In c (VerificationResult.claims r) ->
  Claim.suggestedSources c <> VArr [] ->
  exists raw claim,
    getProp backendResult "claims" = inr (VArr raw)
    /\ In claim raw
    /\ mergeClaim aiResult claim = inr c
    /\ ((exists entries entry,
            getOpt aiResult "sourceSuggestions" = VArr entries
            /\ In entry entries
            /\ suggestionMatches claim entry = inr true
            /\ getOpt entry "suggestedSources" = Claim.suggestedSources c)
        \/ getProp claim "suggestedSources"
           = inr (Claim.suggestedSources c)).
Proof.
  intros Hm Hin Hne.
  destruct (merge_claims_origin _ _ _ _ _ Hm Hin) as [raw [claim [Hr [Hc Hmc]]]].
  exists raw, claim. repeat split; auto.
  destruct (mergeClaim_sources _ _ _ Hmc) as [sug [own [Hf [Hown Hs]]]].
  unfold or in Hs.
  destruct (truthy (getOpt sug "suggestedSources")) eqn:Hts.
  - left.
    destruct (findSuggestion_inv _ _ _ Hf) as [[l1 [l2 [Hl [_ Hv]]]]|[-> _]].
    + rewrite Hts in Hs.
      exists (l1 ++ sug :: l2)%list, sug. repeat split; auto.
      apply in_or_app. right. left. reflexivity.
    + simpl in Hts. discriminate.
  - right. destruct (truthy own) eqn:Hto.
    + rewrite ?Hto in Hs. now rewrite Hs.
    + rewrite ?Hto in Hs. simpl in Hs. congruence.
Qed.

(** The claim as stated fails on scenario 1 extended with a suggestion:
    the claim is normalised to verified and still carries the source the AI
    entry suggests; and a claim for which the backend names a source keeps
    it although no AI entry exists. *)
Lemma verified_claim_keeps_suggested_sources :
  (exists r c,
      merge Samples.eiffelBackend VNull Samples.eiffelInsight = inr r
      /\ VerificationResult.claims r = [c]
      /\ Claim.status c = ClaimVerified
      /\ Claim.suggestedSources c
         = VArr [VStr "https://www.toureiffel.paris/en"])
  /\ (exists c,
        mergeClaim VNull Samples.sourcedClaim = inr c
        /\ Claim.suggestedSources c = VArr [VStr "https://www.nist.gov"]).
Proof.
  split.
  - eexists _, _. split; [vm_compute; reflexivity|]. repeat split.
  - eexists. split; [vm_compute; reflexivity|]. reflexivity.
Qed.

Lemma suggested_sources_origin_witness :
  exists r c,
    merge Samples.eiffelBackend VNull Samples.eiffelInsight = inr r
    /\ In c (VerificationResult.claims r)
    /\ Claim.suggestedSources c <> VArr []
    /\ exists raw claim,
        getProp Samples.eiffelBackend "claims" = inr (VArr raw)
        /\ In claim raw
        /\ mergeClaim Samples.eiffelInsight claim = inr c.
Proof.
  set (c := Claim.make (VStr "The Eiffel Tower is 330m tall") ClaimVerified
              (VStr "matches official spec")
              (VArr [VStr "https://www.toureiffel.paris/en"])).
  set (r := VerificationResult.make VUndefined (VNum 82) [c]
              [Citation.make (VStr "Wikipedia")
                 (VStr "https://en.wikipedia.org/wiki/Eiffel_Tower")
                 CitationValid (VStr "")]
              (VStr "Low") (VStr "Unable to assess") (VStr "")
              "backend+ai").
  assert (Hm : merge Samples.eiffelBackend VNull Samples.eiffelInsight
               = inr r) by reflexivity.
  assert (Hin : In c (VerificationResult.claims r))
    by (left; reflexivity).
  assert (Hne : Claim.suggestedSources c <> VArr []) by discriminate.
  exists r, c. split; [exact Hm|]. split; [exact Hin|]. split; [exact Hne|].
  destruct (suggested_sources_origin _ _ _ _ _ Hm Hin Hne)
    as [raw [claim [H1 [H2 [H3 _]]]]].
  exists raw, claim. auto.
Defined.

(** The callback of [find] on two strings. *)
Lemma suggestionMatches_strings (claim entry : value) (t c : string) :
  getProp claim "text" = inr (VStr t) ->
  getProp entry "claimText" = inr (VStr c) ->
  suggestionMatches claim entry
  = inr (negb (t =? "")%string && negb (c =? "")%string
         && (includes (toLowerCase t) (toLowerCase (first30 c))
             || includes (toLowerCase c) (toLowerCase (first30 t)))).
Proof.
  intros Ht Hc. unfold suggestionMatches. rewrite Ht. cbn [bind].
  destruct t as [|a t]; [reflexivity|].
  cbn [truthy String.eqb negb]. rewrite Hc. cbn [bind].
  destruct c as [|b c]; [reflexivity|].
  cbn [truthy String.eqb negb andb]. unfold ret. f_equal.
  unfold substring, first30. cbn [Nat.min Nat.max Nat.sub].
  now rewrite !substring_lower.
Qed.

Lemma suggestionMatches_criterion (claim entry : value) (t c : string) :
  getProp claim "text" = inr (VStr t) ->
  getProp entry "claimText" = inr (VStr c) ->
  suggestionMatches claim entry = inr true
  <-> t <> "" /\ c <> "" /\ prefixOverlap t c.
Proof.
  intros Ht Hc. rewrite (suggestionMatches_strings _ _ _ _ Ht Hc).
  unfold prefixOverlap.
  rewrite <- !includes_lower_lower_iff.
  destruct (String.eqb_spec t "") as [->|nt];
    destruct (String.eqb_spec c "") as [->|nc]; cbn [negb andb];
    try (split; [discriminate | intros [H1 [H2 _]]; congruence]).
  rewrite <- orb_true_iff. split.
  - intros [= H]. auto.
  - intros [_ [_ H]]. now rewrite H.
Qed.

(** The callback of [find] says yes on two non-empty strings only. *)
Lemma suggestionMatches_true (claim entry : value) :
  suggestionMatches claim entry = inr true
  <-> exists t c,
        getProp claim "text" = inr (VStr t)
        /\ getProp entry "claimText" = inr (VStr c)
        /\ t <> "" /\ c <> "" /\ prefixOverlap t c.
Proof.
  split.
  - intros H.
    assert (Hshape : exists t c,
              getProp claim "text" = inr (VStr t)
              /\ getProp entry "claimText" = inr (VStr c)).
    { unfold suggestionMatches in H.
      destruct (getProp claim "text") as [e|v]; [discriminate|].
      cbn [bind] in H.
      destruct (negb (truthy v)); [discriminate|].
      destruct (getProp entry "claimText") as [e|u]; [discriminate|].
      cbn [bind] in H.
      destruct (negb (truthy u)); [discriminate|].
      destruct v as [| | | |t| |]; try discriminate;
        destruct u as [| | | |c| |]; try discriminate.
      now exists t, c. }
    destruct Hshape as [t [c [Ht Hc]]]. exists t, c.
    split; [exact Ht|]. split; [exact Hc|].
    now apply (suggestionMatches_criterion claim entry t c Ht Hc).
  - intros [t [c [Ht [Hc H]]]].
    now apply (suggestionMatches_criterion claim entry t c Ht Hc).
Qed.

(** C4 (as amended).  For every merged claim, an AI sourceSuggestions
    entry matches iff the property [text] of the backend claim and the
    claimText of the entry are both non-empty strings and the first 30
    characters of either occur in the other, case ignored; a backend
    claim without a [text] (its text may come under [claim]) matches no
    entry.  The first matching entry in list order wins: its
    suggestedSources is taken when it has one; otherwise, and when no
    entry matches, the claim's suggestedSources is the one the backend
    provided, else the empty list. *)
Theorem suggestion_match_rule
  (backendResult backendError aiResult : value)
  (r : VerificationResult.t) (m : Claim.t) :
  merge backendResult backendError aiResult = inr r ->
  In m (VerificationResult.claims r) ->
  exists raw claim own,
    getProp backendResult "claims" = inr (VArr raw)
    /\ In claim raw
    /\ mergeClaim aiResult claim = inr m
    /\ getProp claim "suggestedSources" = inr own
    /\ (forall entry,
          suggestionMatches claim entry = inr true
          <-> exists t c,
                getProp claim "text" = inr (VStr t)
                /\ getProp entry "claimText" = inr (VStr c)
                /\ t <> "" /\ c <> "" /\ prefixOverlap t c)
    /\ (truthy (getOpt claim "text") = false ->
        forall entry, suggestionMatches claim entry = inr false)
    /\ ((exists l1 entry l2,
            getOpt aiResult "sourceSuggestions" = VArr (l1 ++ entry :: l2)
            /\ Forall (fun x => suggestionMatches claim x = inr false) l1
            /\ suggestionMatches claim entry = inr true
            /\ Claim.suggestedSources m
               = or (or (getOpt entry "suggestedSources") own) (VArr []))
        \/ ((nullish (getOpt aiResult "sourceSuggestions") = true
             \/ exists entries,
                  getOpt aiResult "sourceSuggestions" = VArr entries
                  /\ Forall
                       (fun x => suggestionMatches claim x = inr false)
                       entries)
            /\ Claim.suggestedSources m = or own (VArr []))).
Proof.
  intros Hm Hin.
  destruct (merge_claims_origin _ _ _ _ _ Hm Hin) as [raw [claim [Hr [Hc Hmc]]]].
  destruct (mergeClaim_sources _ _ _ Hmc) as [sug [own [Hf [Hown Hs]]]].
  exists raw, claim, own.
  split; [exact Hr|]. split; [exact Hc|]. split; [exact Hmc|].
  split; [exact Hown|]. split; [|split].
  - intros entry. apply suggestionMatches_true.
  - intros Hfalsy entry. unfold suggestionMatches.
    destruct claim as [| | | | | |ps]; try discriminate Hown;
      cbn [getProp getOpt ret bind] in *; try reflexivity.
    now rewrite Hfalsy.
  - destruct (findSuggestion_inv _ _ _ Hf) as [[l1 [l2 [Hl [Hn Hv]]]]|[-> Hno]].
    + left. exists l1, sug, l2. auto.
    + right. split; [exact Hno | exact Hs].
Qed.

(** The claim as stated fails on an entry whose claimText is empty: the
    empty prefix occurs in every text, so the stated test holds, yet the
    code passes the entry over and the claim gets no source from it. *)
Lemma blank_entry_is_passed_over :
  prefixOverlap "The sky is green" ""
  /\ suggestionMatches Samples.skyClaim Samples.blankEntry = inr false
  /\ exists m,
      mergeClaim Samples.blankInsight Samples.skyClaim = inr m
      /\ Claim.suggestedSources m = VArr [].
Proof.
  split; [|split].
  - left. exists "", "", "The sky is green". split; reflexivity.
  - reflexivity.
  - eexists. split; reflexivity.
Qed.

(** The test reads [claim.text] only: a backend claim whose text comes
    under the key [claim] is merged with that text and without the source
    of the entry that repeats it. *)
Example claim_under_alias :
  mergeClaim Samples.eiffelInsight
    (VObj [("claim", VStr "The Eiffel Tower is 330m tall");
           ("verdict", VStr "true")])
  = inr (Claim.make (VStr "The Eiffel Tower is 330m tall") ClaimVerified
           (VStr "") (VArr [])).
Proof. reflexivity. Qed.

Lemma suggestion_match_rule_witness :
  exists r m,
    merge Samples.eiffelBackend VNull Samples.eiffelInsight = inr r
    /\ In m (VerificationResult.claims r)
    /\ exists claim,
        mergeClaim Samples.eiffelInsight claim = inr m
        /\ forall entry,
            suggestionMatches claim entry = inr true
            <-> exists t c,
                  getProp claim "text" = inr (VStr t)
                  /\ getProp entry "claimText" = inr (VStr c)
                  /\ t <> "" /\ c <> "" /\ prefixOverlap t c.
Proof.
  set (m := Claim.make (VStr "The Eiffel Tower is 330m tall") ClaimVerified
              (VStr "matches official spec")
              (VArr [VStr "https://www.toureiffel.paris/en"])).
  set (r := VerificationResult.make VUndefined (VNum 82) [m]
              [Citation.make (VStr "Wikipedia")
                 (VStr "https://en.wikipedia.org/wiki/Eiffel_Tower")
                 CitationValid (VStr "")]
              (VStr "Low") (VStr "Unable to assess") (VStr "")
              "backend+ai").
  assert (Hm : merge Samples.eiffelBackend VNull Samples.eiffelInsight
               = inr r) by reflexivity.
  assert (Hin : In m (VerificationResult.claims r))
    by (left; reflexivity).
  exists r, m. split; [exact Hm|]. split; [exact Hin|].
  destruct (suggestion_match_rule _ _ _ _ _ Hm Hin)
    as [raw [claim [own [_ [_ [H3 [_ [H5 _]]]]]]]].
  exists claim. split; [exact H3 | exact H5].
Defined.

End Merger.

(* ===================================================================== *)
(** ** The URL probe and the citation re-verifier *)
(* ===================================================================== *)

Module Reverifier.
Import Js VerifyCitations Spec Runs JsFacts.

Lemma lookup_setProp (k k' : string) (v : value) (ps : obj) :
  lookup k (setProp k' v ps) = if (k' =? k)%string then v else lookup k ps.
Proof.
  induction ps as [|[k0 v0] ps IH]; simpl.
  - reflexivity.
  - destruct (String.eqb_spec k0 k') as [->|n0]; simpl.
    + destruct (k' =? k)%string; reflexivity.
    + rewrite IH. destruct (String.eqb_spec k0 k) as [->|n1]; [|reflexivity].
      destruct (String.eqb_spec k' k) as [->|n2]; congruence.
Qed.

Section Network.

Variable network : string -> Fetch.

(** A run of [checkUrl] ends with a probe outcome, the same from every
    world. *)
Lemma checkUrl_returns (url : value) (w : World) :
  exists w', checkUrl network url w = (inr (probed network url), w').
Proof.
  unfold probed, checkUrl, tryCatch, probe.
  destruct (negb (truthy url) || isStr url "unknown"); [eexists; reflexivity|].
  destruct url as [| | | |u| |]; try (eexists; reflexivity).
  destruct (negb (startsWith u "http")); [eexists; reflexivity|].
  unfold ioBind, fetch.
  destruct (network u) as [e|r]; [eexists; reflexivity|].
  destruct (negb (ok r)); [eexists; reflexivity|].
  unfold lift. destruct (text r); eexists; reflexivity.
Qed.

(** The callback on an object: the probe of its [url], then the update. *)
Lemma verifyCitation_object (c : obj) (w : World) :
  exists w',
    verifyCitation network (VObj c) w = (inr (reverified network c), w').
Proof.
  unfold verifyCitation, ioBind, lift. cbn [getProp ret].
  destruct (checkUrl_returns (lookup "url" c) w) as [w' ->].
  exists w'. unfold reverified, updated. cbn [getProp ret bind].
  destruct (reconcile _ _ _). reflexivity.
Qed.

Lemma promiseAll_map {A B} (f : A -> io B) (g : A -> B) (xs : list A) :
  (forall x w, In x xs -> exists w', f x w = (inr (g x), w')) ->
  forall w, exists w', promiseAll (map f xs) w = (inr (map g xs), w').
Proof.
  induction xs as [|x xs IH]; intros H w; simpl.
  - now exists w.
  - destruct (H x w (or_introl eq_refl)) as [w1 ->].
    destruct (IH (fun y w0 Hy => H y w0 (or_intror Hy)) w1) as [w2 ->].
    now exists w2.
Qed.

(** The handler on a list of citation objects. *)
Lemma serve_objects (parsed : value) (cs : list obj) (w : World) :
  getProp parsed "citations" = inr (VArr (map VObj cs)) ->
  exists w',
    serve network (mkRequest POST (inr parsed)) w
    = (Verified (map (reverified network) cs), w').
Proof.
  intros Hc. unfold serve, handle, ioBind, lift. cbn [method body].
  rewrite Hc, map_map.
  destruct (promiseAll_map (fun c => verifyCitation network (VObj c))
              (reverified network) cs
              (fun c w0 _ => verifyCitation_object c w0) w)
    as [w' ->].
  now exists w'.
Qed.

(** What the returned object holds under each key. *)
Lemma reverified_lookup (c : obj) (k : string) :
  let p := probed network (lookup "url" c) in
  let sr := reconcile (lookup "status" c) (lookup "reason" c) p in
  lookup k (reverified network c)
  = if (k =? "contentPreview")%string then optional (Probe.preview p)
    else if (k =? "pageTitle")%string then optional (Probe.title p)
    else if (k =? "httpStatus")%string then VNum (Probe.status p)
    else if (k =? "verified")%string then VBool true
    else if (k =? "reason")%string then snd sr
    else if (k =? "status")%string then fst sr
    else lookup k c.
Proof.
  intros p sr. subst p sr. unfold reverified, updated.
  cbn [getProp ret bind spread].
  destruct (reconcile _ _ _) as [st rs]. cbn [ret fst snd].
  rewrite !lookup_setProp.
  rewrite !(String.eqb_sym k). reflexivity.
Qed.

Lemma isStr_iff (v : value) (lit : string) :
  isStr v lit = true <-> v = VStr lit.
Proof.
  destruct v; simpl; try (split; discriminate).
  rewrite String.eqb_eq. split; [now intros -> | now intros [= ->]].
Qed.

Lemma isStr_false (v : value) (lit : string) :
  isStr v lit = false <-> v <> VStr lit.
Proof.
  rewrite <- isStr_iff. destruct (isStr v lit); split; congruence.
Qed.

Lemma titleOrUnknown_eq (title : option string) :
  match title with
  | Some (String _ _ as t) => t
  | _ => "Unknown"
  end = titleOrUnknown title.
Proof. destruct title as [[|a t]|]; reflexivity. Qed.

(** The code's pair is the one the rule of section 4.4 allows. *)
Lemma reconcile_sound (status reason : value) (p : Probe.t) :
  Reconciled status reason p
    (fst (reconcile status reason p)) (snd (reconcile status reason p)).
Proof.
  unfold reconcile.
  destruct (Probe.exists_ p) eqn:He.
  - destruct (isStr status "broken") eqn:Hs; cbn [fst snd].
    + rewrite titleOrUnknown_eq. apply isStr_iff in Hs.
      now apply broken_and_reachable.
    + apply isStr_false in Hs.
      apply every_other_case; intros [H1 H2]; congruence.
  - destruct (isStr status "valid") eqn:Hs; cbn [fst snd].
    + apply isStr_iff in Hs.
      destruct (Z.eqb_spec (Probe.status p) 0) as [Hz|Hz]; cbn [negb].
      * now apply valid_and_unreachable_without_code.
      * now apply valid_and_unreachable_with_code.
    + apply isStr_false in Hs.
      apply every_other_case; intros [H1 H2]; congruence.
Qed.

(** The rule allows one pair only. *)
Lemma Reconciled_functional (status reason s1 r1 s2 r2 : value) (p : Probe.t) :
  Reconciled status reason p s1 r1 ->
  Reconciled status reason p s2 r2 ->
  s1 = s2 /\ r1 = r2.
Proof.
  intros H1 H2.
  destruct H1; destruct H2; auto; try congruence;
    try (exfalso; tauto); try (subst; discriminate).
Qed.

(** C5.  For every citation and probe outcome, re-verification changes
    status and reason by the rule of section 4.4 and by nothing else:
    broken and reachable becomes valid with the page title (or Unknown) in
    the reason; valid and unreachable becomes broken with the HTTP code in
    the reason when there is one, and the fixed text otherwise; every
    other case (fake, also when reachable; valid and reachable; broken and
    unreachable) keeps both. *)
Theorem reverification_reconciles
  (status reason status' reason' : value) (p : Probe.t) :
  (reconcile status reason p = (status', reason')
   <-> Reconciled status reason p status' reason')
  /\ (status = VStr "fake" -> reconcile status reason p = (status, reason))
  /\ (status = VStr "valid" -> Probe.exists_ p = true ->
      reconcile status reason p = (status, reason))
  /\ (status = VStr "broken" -> Probe.exists_ p = false ->
      reconcile status reason p = (status, reason))
  /\ (forall (c : obj) (w : World),
        lookup "status" c = status ->
        lookup "reason" c = reason ->
        probed network (lookup "url" c) = p ->
        exists out w',
          verifyCitation network (VObj c) w = (inr out, w')
          /\ (lookup "status" out, lookup "reason" out)
             = reconcile status reason p).
Proof.
  split; [|split; [|split; [|split]]].
  - split.
    + intros H. pose proof (reconcile_sound status reason p) as Hr.
      now rewrite H in Hr.
    + intros H.
      destruct (Reconciled_functional _ _ _ _ _ _ _
                  (reconcile_sound status reason p) H) as [<- <-].
      now destruct (reconcile status reason p).
  - intros ->. unfold reconcile. now destruct (Probe.exists_ p).
  - intros -> H. unfold reconcile. now rewrite H.
  - intros -> H. unfold reconcile. now rewrite H.
  - intros c w Hs Hr Hp.
    destruct (verifyCitation_object c w) as [w' Hv].
    exists (reverified network c), w'. split; [exact Hv|].
    rewrite !reverified_lookup. cbn. rewrite Hs, Hr, Hp.
    now destruct (reconcile status reason p).
Qed.



(** C7 (as amended).  For every list of citations the re-verifier answers
    with a list of the same length in the same order; each element has
    verified = true, and every property of the citation it comes from
    other than status, reason and the four it writes (verified,
    httpStatus, pageTitle, contentPreview) is as it was, source and url
    among them; no other property appears.  For a citation that has none
    of the four yet, every property it has, status and reason apart, is as
    it was.  The four are written on every run, whatever the citation
    held under them: verified is true, httpStatus is the status of the
    probe of the citation's url, pageTitle its title and contentPreview
    its preview, each undefined when the probe has none. *)
Theorem reverification_frame (parsed : value) (cs : list obj) (w : World) :
  getProp parsed "citations" = inr (VArr (map VObj cs)) ->
  exists out w',
    serve network (mkRequest POST (inr parsed)) w = (Verified out, w')
    /\ List.length out = List.length cs
    /\ map (lookup "source") out = map (lookup "source") cs
    /\ map (lookup "url") out = map (lookup "url") cs
    /\ forall i c,
        nth_error cs i = Some c ->
        exists o,
          nth_error out i = Some o
          /\ lookup "verified" o = VBool true
          /\ (forall k, ~ In k written -> lookup k o = lookup k c)
          /\ (forall k, lookup k o <> VUndefined ->
                        lookup k c <> VUndefined \/ In k written)
          /\ ((forall a, In a added -> lookup a c = VUndefined) ->
              forall k, k <> "status" -> k <> "reason" ->
                        lookup k c <> VUndefined ->
                        lookup k o = lookup k c)
          /\ exists p,
              (forall w0, exists w0',
                  checkUrl network (lookup "url" c) w0 = (inr p, w0'))
              /\ lookup "httpStatus" o = VNum (Probe.status p)
              /\ lookup "pageTitle" o
                 = match Probe.title p with
                   | Some t => VStr t
                   | None => VUndefined
                   end
              /\ lookup "contentPreview" o
                 = match Probe.preview p with
                   | Some t => VStr t
                   | None => VUndefined
                   end.
Proof.
  intros Hc. destruct (serve_objects parsed cs w Hc) as [w' Hs].
  assert (frame : forall c k, ~ In k written ->
            lookup k (reverified network c) = lookup k c).
  { intros c k Hk. rewrite reverified_lookup. cbn zeta.
    unfold written in Hk. simpl in Hk.
    repeat match goal with
           | |- context [(k =? ?lit)%string] =>
               destruct (String.eqb_spec k lit) as [->|_];
               [exfalso; apply Hk; tauto|]
           end.
    reflexivity. }
  exists (map (reverified network) cs), w'.
  split; [exact Hs|]. split; [apply length_map|].
  split; [rewrite map_map; apply map_ext; intros c; apply frame;
          unfold written; simpl; intuition discriminate|].
  split; [rewrite map_map; apply map_ext; intros c; apply frame;
          unfold written; simpl; intuition discriminate|].
  intros i c Hi. exists (reverified network c).
  split; [now apply map_nth_error|].
  split; [now rewrite reverified_lookup|].
  split; [apply frame|].
  split; [|split].
  - intros k Hk.
    destruct (in_dec string_dec k written) as [Hin|Hout]; [now right|].
    left. now rewrite <- (frame c k Hout).
  - intros Hnew k Hns Hnr Hk. apply frame.
    intros [E|[E|Hin]]; [congruence | congruence |].
    apply Hk. now apply Hnew.
  - exists (probed network (lookup "url" c)).
    split; [intros w0; apply checkUrl_returns|].
    rewrite !reverified_lookup. cbn [String.eqb Ascii.eqb Bool.eqb].
    unfold optional. repeat split.
Qed.

End Network.

(** One step of the rule applied to its own result changes no status,
    when both probes agree on reachability. *)
Lemma reconcile_status_stable (status reason reason' : value) (p q : Probe.t) :
  Probe.exists_ p = Probe.exists_ q ->
  fst (reconcile (fst (reconcile status reason p)) reason' q)
  = fst (reconcile status reason p).
Proof.
  intros He. unfold reconcile. rewrite <- He.
  destruct (Probe.exists_ p).
  - destruct (isStr status "broken") eqn:Hs; cbn [fst].
    + reflexivity.
    + now rewrite Hs.
  - destruct (isStr status "valid") eqn:Hs; cbn [fst].
    + reflexivity.
    + now rewrite Hs.
Qed.

(** C8.  Re-verification is idempotent on statuses: when every URL is
    probed with the same outcome (reachability, HTTP code) on both runs,
    re-verifying the output of a first run gives every citation the status
    the first run gave it. *)
Theorem reverification_idempotent
  (first second : string -> Fetch)
  (parsed : value) (cs : list obj) (w : World) :
  getProp parsed "citations" = inr (VArr (map VObj cs)) ->
  (forall c, In c cs ->
     sameOutcome (probed first (lookup "url" c))
                 (probed second (lookup "url" c))) ->
  exists out w',
    serve first (mkRequest POST (inr parsed)) w = (Verified out, w')
    /\ forall parsed' w0,
        getProp parsed' "citations" = inr (VArr (map VObj out)) ->
        exists out' w0',
          serve second (mkRequest POST (inr parsed')) w0
          = (Verified out', w0')
          /\ map (lookup "status") out' = map (lookup "status") out.
Proof.
  intros Hc Hsame.
  destruct (serve_objects first parsed cs w Hc) as [w' Hs].
  exists (map (reverified first) cs), w'. split; [exact Hs|].
  intros parsed' w0 Hc'.
  destruct (serve_objects second parsed' _ w0 Hc') as [w0' Hs'].
  exists (map (reverified second) (map (reverified first) cs)), w0'.
  split; [exact Hs'|].
  rewrite !map_map. apply map_ext_in. intros c Hin.
  rewrite (reverified_lookup second). cbn.
  rewrite !(reverified_lookup first). cbn.
  apply reconcile_status_stable.
  exact (proj1 (Hsame c Hin)).
Qed.

(** Scenario 3: the citation marked broken, whose URL answers 200 with the
    title "Example Domain", comes back valid. *)
Lemma reverification_reconciles_witness :
  exists out w',
    verifyCitation Samples.exampleNetwork (VObj Samples.exampleCitation) []
    = (inr out, w')
    /\ lookup "status" out = VStr "valid"
    /\ lookup "reason" out
       = VStr ("URL is accessible. Page title: " ++ quoted "Example Domain").
Proof.
  destruct (proj2 (proj2 (proj2 (proj2
              (reverification_reconciles Samples.exampleNetwork
                 (VStr "broken") (VStr "Link did not resolve")
                 (VStr "valid") (VStr "")
                 (probed Samples.exampleNetwork
                    (VStr "https://example.com"))))))
              Samples.exampleCitation [] eq_refl eq_refl eq_refl)
    as [out [w' [Hrun Hpair]]].
  exists out, w'. split; [exact Hrun|].
  vm_compute in Hpair. injection Hpair as Hst Hrs.
  split; [exact Hst | exact Hrs].
Defined.


(** The claim as stated fails on a citation that has been re-verified
    before (the client sends back what the last run returned): its
    httpStatus, which is neither status nor reason, is overwritten. *)
Lemma earlier_httpStatus_is_overwritten :
  exists out w',
    serve Samples.exampleNetwork
      (mkRequest POST
         (inr (Samples.citationsRequest [Samples.staleCitation]))) []
    = (Verified [out], w')
    /\ lookup "httpStatus" Samples.staleCitation = VNum 503
    /\ lookup "httpStatus" out = VNum 200.
Proof.
  eexists _, _. split; [vm_compute; reflexivity|]. split; reflexivity.
Qed.

Lemma reverification_frame_witness :
  exists out w',
    serve Samples.exampleNetwork
      (mkRequest POST
         (inr (Samples.citationsRequest
                 [Samples.exampleCitation; Samples.unknownCitation;
                  Samples.goneCitation])))
      []
    = (Verified out, w')
    /\ List.length out = 3
    /\ map (lookup "source") out
       = [VStr "Example"; VStr "A 2019 study"; VStr "Old blog"].
Proof.
  destruct (reverification_frame Samples.exampleNetwork
              (Samples.citationsRequest
                 [Samples.exampleCitation; Samples.unknownCitation;
                  Samples.goneCitation])
              [Samples.exampleCitation; Samples.unknownCitation;
               Samples.goneCitation]
              [] eq_refl)
    as [out [w' [Hrun [Hlen [Hsrc _]]]]].
  exists out, w'. split; [exact Hrun|]. split; [exact Hlen | exact Hsrc].
Defined.

Lemma reverification_idempotent_witness :
  exists out w',
    serve Samples.exampleNetwork
      (mkRequest POST
         (inr (Samples.citationsRequest
                 [Samples.exampleCitation; Samples.unknownCitation;
                  Samples.goneCitation])))
      []
    = (Verified out, w')
    /\ exists out' w0',
        serve Samples.exampleNetwork
          (mkRequest POST (inr (Samples.citationsRequest out))) w'
        = (Verified out', w0')
        /\ map (lookup "status") out' = map (lookup "status") out.
Proof.
  destruct (reverification_idempotent
              Samples.exampleNetwork Samples.exampleNetwork
              (Samples.citationsRequest
                 [Samples.exampleCitation; Samples.unknownCitation;
                  Samples.goneCitation])
              [Samples.exampleCitation; Samples.unknownCitation;
               Samples.goneCitation]
              [] eq_refl
              (fun c _ => conj eq_refl eq_refl))
    as [out [w' [Hrun Hagain]]].
  exists out, w'. split; [exact Hrun|].
  exact (Hagain (Samples.citationsRequest out) w' eq_refl).
Defined.

End Reverifier.

(* ===================================================================== *)
(** ** AI detection *)
(* ===================================================================== *)

Module Detector.
Import Js DetectAi Spec.

Section ParseFallback.

Variable JSON_parse : string -> result value.

(** C9.  In detect-ai, when the content of the gateway's answer is not
    valid JSON once an optional code fence is stripped, the failure of the
    parse is caught and the handler answers 200 with the default payload:
    isAiGenerated = false, confidence = 50, indicators = [], analysis =
    "Unable to determine AI authorship". *)
Theorem unparsable_answer_gives_default
  (req : Request) (apiKey : value) (response : Response)
  (parsed data choices : value) (a b : ascii) (t content : string)
  (e : exn) :
  method req = POST ->
  body req = inr parsed ->
  getProp parsed "text" = inr (VStr (String a t)) ->
  truthy apiKey = true ->
  ok response = true ->
  json JSON_parse response = inr data ->
  getProp data "choices" = inr choices ->
  getOpt (getOpt (firstOpt choices) "message") "content"
  = VStr (String b content) ->
  JSON_parse (jsonText (String b content)) = inl e ->
  serve JSON_parse req apiKey (Settled response) = Detection defaultPayload
  /\ getOpt defaultPayload "isAiGenerated" = VBool false
  /\ getOpt defaultPayload "confidence" = VNum 50
  /\ getOpt defaultPayload "indicators" = VArr []
  /\ getOpt defaultPayload "analysis"
     = VStr "Unable to determine AI authorship".
Proof.
  intros Hm Hb Ht Hk Hok Hj Hc Hcontent Hparse.
  split; [|repeat split].
  unfold serve, handle. rewrite Hm, Hb. cbn [bind].
  rewrite Ht. cbn [bind]. rewrite Hk, Hok. cbn [negb].
  rewrite Hj. cbn [bind]. rewrite Hc. cbn [bind].
  rewrite Hcontent. cbn [truthy String.eqb negb ret].
  unfold parseDetection. now rewrite Hparse.
Qed.

End ParseFallback.

(** The fence is stripped before the parse; text without a fence is taken
    whole. *)
Example jsonText_fenced :
  jsonText Samples.fencedInsightText = Samples.insightText.
Proof. reflexivity. Qed.

Example jsonText_plain :
  jsonText "  I am sorry, I cannot assess this text. "
  = "I am sorry, I cannot assess this text.".
Proof. reflexivity. Qed.

Lemma unparsable_answer_gives_default_witness :
  serve Samples.parse
    (mkRequest POST (Samples.textRequest "It is important to note that."))
    (VStr "key")
    (Samples.okResponse "<completion: prose>")
  = Detection defaultPayload.
Proof.
  apply (unparsable_answer_gives_default Samples.parse
           (mkRequest POST
              (Samples.textRequest "It is important to note that."))
           (VStr "key")
           (mkResponse 200 (inr "<completion: prose>"))
           (VObj [("text", VStr "It is important to note that.")])
           (Samples.completion "I am sorry, I cannot assess this text.")
           (VArr [VObj [("message",
                         VObj [("role", VStr "assistant");
                               ("content",
                                VStr "I am sorry, I cannot assess this text.")])]])
           "I"%char "I"%char "t is important to note that."
           " am sorry, I cannot assess this text."
           (Error "Unexpected token in JSON")
           eq_refl eq_refl eq_refl eq_refl eq_refl eq_refl eq_refl eq_refl
           eq_refl).
Defined.

End Detector.

(* ===================================================================== *)
(** ** More on verify-content: validation, authority of the backend, and
       what malformed upstream data does *)
(* ===================================================================== *)

Module MergeEdges.
Import Js VerifyContent Spec Conditions JsFacts.

Lemma getProp_getOpt (v : value) (k : string) :
  nullish v = false -> getProp v k = inr (getOpt v k).
Proof. destruct v; simpl; intros H; try discriminate; reflexivity. Qed.

Lemma getProp_nullish (v : value) (k : string) :
  nullish v = true -> getProp v k = inl (TypeError k).
Proof. destruct v; simpl; intros H; try discriminate; reflexivity. Qed.

Lemma truthy_not_nullish (v : value) : truthy v = true -> nullish v = false.
Proof. destruct v; simpl; intros H; try discriminate; reflexivity. Qed.

Lemma mapM_Forall2 {A B} (f : A -> result B) (xs : list A) (ys : list B) :
  mapM f xs = inr ys <-> Forall2 (fun x y => f x = inr y) xs ys.
Proof.
  revert ys; induction xs as [|x xs IH]; intros ys; simpl.
  - split.
    + intros [= <-]. constructor.
    + intros H. inversion H. reflexivity.
  - split.
    + destruct (f x) as [e|y] eqn:Hf; cbn [bind]; [discriminate|].
      destruct (mapM f xs) as [e|ys0]; cbn [bind]; [discriminate|].
      intros [= <-]. constructor; [exact Hf | now apply IH].
    + intros H. inversion H as [|x0 y l l' Hxy Hrest]; subst.
      rewrite Hxy. cbn [bind]. apply IH in Hrest. rewrite Hrest.
      reflexivity.
Qed.

Lemma mapM_throws {A B} (f : A -> result B) (xs : list A) (x : A) (e : exn) :
  In x xs -> f x = inl e -> exists e', mapM f xs = inl e'.
Proof.
  induction xs as [|y xs IH]; simpl; [intros []|].
  intros [->|Hin] Hf.
  - rewrite Hf. cbn [bind]. eauto.
  - destruct (f y) as [e0|b]; cbn [bind]; [eauto|].
    destruct (IH Hin Hf) as [e' ->]. cbn [bind]. eauto.
Qed.

Lemma Forall2_common {A B C} (P : A -> B -> Prop) (Q : A -> C -> Prop)
  (R : B -> C -> Prop) :
  (forall x y z, P x y -> Q x z -> R y z) ->
  forall xs ys zs, Forall2 P xs ys -> Forall2 Q xs zs -> Forall2 R ys zs.
Proof.
  intros H xs. induction xs as [|x xs IH]; intros ys zs Hp Hq;
    inversion Hp; inversion Hq; subst; constructor; eauto.
Qed.

(** The callback of [claims.map], once it returns. *)
Lemma mergeClaim_inv (aiResult claim : value) (m : Claim.t) :
  mergeClaim aiResult claim = inr m ->
  exists aiSuggestion st,
    findSuggestion aiResult claim = inr aiSuggestion
    /\ nullish claim = false
    /\ normalizeClaimStatus
         (or (or (getOpt claim "status") (getOpt claim "verdict"))
             (getOpt claim "verification_status")) = inr st
    /\ m = Claim.make
             (or (or (getOpt claim "text") (getOpt claim "claim")) (VStr ""))
             st
             (or (or (or (getOpt claim "note") (getOpt claim "explanation"))
                     (getOpt claim "reason")) (VStr ""))
             (or (or (getOpt aiSuggestion "suggestedSources")
                     (getOpt claim "suggestedSources")) (VArr [])).
Proof.
  unfold mergeClaim.
  destruct (findSuggestion aiResult claim) as [e|aiSuggestion];
    [discriminate|].
  cbn [bind].
  destruct (nullish claim) eqn:Hn.
  - rewrite (getProp_nullish _ _ Hn). discriminate.
  - rewrite !(getProp_getOpt _ _ Hn). cbn [bind].
    destruct (normalizeClaimStatus _) as [e|st] eqn:Hst; cbn [bind];
      [discriminate|].
    intros [= <-]. exists aiSuggestion, st. repeat split.
Qed.

(** The merge of a truthy backend result, with its property reads done. *)
Lemma merge_truthy (b e a : value) :
  truthy b = true ->
  merge b e a
  = bind (mapArray "claims.map" (mergeClaim a) (getOpt b "claims"))
      (fun claims =>
       bind (mapArray "citations.map" mergeCitation (getOpt b "citations"))
         (fun citations =>
          ret (VerificationResult.make
                 VUndefined
                 (coalesce (coalesce (getOpt b "trustScore")
                                     (getOpt b "trust_score")) (VNum 50))
                 claims citations
                 (or (getOpt a "hallucinationRisk") (VStr "Medium"))
                 (or (getOpt a "hallucinationRiskReason")
                     (VStr "Unable to assess"))
                 (or (getOpt a "analysisSummary") (VStr ""))
                 "backend+ai"))).
Proof.
  intros Hb. unfold merge. rewrite Hb.
  rewrite !(getProp_getOpt _ _ (truthy_not_nullish _ Hb)). cbn [bind].
  destruct (mapArray "claims.map" (mergeClaim a) (getOpt b "claims"));
    cbn [bind]; [reflexivity|].
  destruct (mapArray "citations.map" mergeCitation (getOpt b "citations"));
    reflexivity.
Qed.

Lemma mapArray_inv {B} (site : string) (f : value -> result B) (x : value)
  (ys : list B) :
  mapArray site f x = inr ys ->
  exists xs, arrayOr x = Some xs /\ mapM f xs = inr ys.
Proof.
  unfold mapArray, arrayOr.
  destruct (or x (VArr [])); try discriminate. eauto.
Qed.

(** What a successful merge of a truthy backend result is made of. *)
Lemma merge_truthy_inv (b e a : value) (r : VerificationResult.t) :
  truthy b = true ->
  merge b e a = inr r ->
  exists rawClaims rawCitations,
    arrayOr (getOpt b "claims") = Some rawClaims
    /\ arrayOr (getOpt b "citations") = Some rawCitations
    /\ mapM (mergeClaim a) rawClaims = inr (VerificationResult.claims r)
    /\ mapM mergeCitation rawCitations
       = inr (VerificationResult.citations r)
    /\ VerificationResult.trustScore r
       = coalesce (coalesce (getOpt b "trustScore") (getOpt b "trust_score"))
                  (VNum 50)
    /\ VerificationResult.hallucinationRisk r
       = or (getOpt a "hallucinationRisk") (VStr "Medium")
    /\ VerificationResult.hallucinationRiskReason r
       = or (getOpt a "hallucinationRiskReason") (VStr "Unable to assess")
    /\ VerificationResult.analysisSummary r
       = or (getOpt a "analysisSummary") (VStr "")
    /\ VerificationResult.source r = "backend+ai"
    /\ VerificationResult.error r = VUndefined.
Proof.
  intros Hb. rewrite (merge_truthy _ _ _ Hb).
  destruct (mapArray "claims.map" (mergeClaim a) (getOpt b "claims"))
    as [e1|claims] eqn:Hc; cbn [bind]; [discriminate|].
  destruct (mapArray "citations.map" mergeCitation (getOpt b "citations"))
    as [e2|cits] eqn:Hk; cbn [bind]; [discriminate|].
  intros [= <-]. cbn.
  destruct (mapArray_inv _ _ _ _ Hc) as [xs [Hxs Hm]].
  destruct (mapArray_inv _ _ _ _ Hk) as [ys [Hys Hn]].
  exists xs, ys. repeat split; assumption.
Qed.

Section Handler.

Variable JSON_parse : string -> result value.

(** Past the checks, with a truthy backend result, the reply is the merge
    or the 500 of its throw. *)
Lemma serve_merge (req : Request) (apiKey : value) (backend ai : Fetch)
  (b : value) :
  accepted req apiKey ->
  backendReturns JSON_parse backend b ->
  serve JSON_parse req apiKey backend ai
  = match merge b VNull (callAi JSON_parse ai) with
    | inl e => ServerError (message e)
    | inr r => Merged r
    end.
Proof.
  intros [Hm [[parsed [c [t [Hb Ht]]]] Hk]] [r [-> [Hok [Hj Hv]]]].
  unfold serve, handle. rewrite Hm, Hb. cbn [bind]. rewrite Ht. cbn [bind].
  unfold callBackend. rewrite Hok. cbn [negb]. rewrite Hj, Hk. cbn [negb].
  destruct (merge b VNull (callAi JSON_parse ai)); reflexivity.
Qed.

End Handler.

(** X1.  The backend alone decides the facts: two merges of the same
    backend result with different AI results agree on the trust score, on
    the citations, and on the text, status and note of every claim. *)
Theorem backend_is_authoritative
  (b e a1 a2 : value) (r1 r2 : VerificationResult.t) :
  merge b e a1 = inr r1 ->
  merge b e a2 = inr r2 ->
  VerificationResult.trustScore r1 = VerificationResult.trustScore r2
  /\ VerificationResult.citations r1 = VerificationResult.citations r2
  /\ VerificationResult.source r1 = VerificationResult.source r2
  /\ Forall2 (fun m1 m2 =>
                Claim.text m1 = Claim.text m2
                /\ Claim.status m1 = Claim.status m2
                /\ Claim.note m1 = Claim.note m2)
             (VerificationResult.claims r1) (VerificationResult.claims r2).
Proof.
  intros H1 H2. destruct (truthy b) eqn:Hb.
  - destruct (merge_truthy_inv _ _ _ _ Hb H1)
      as [xs [ys [Hxs [Hys [Hc1 [Hk1 [Ht1 [_ [_ [_ [Hs1 _]]]]]]]]]]].
    destruct (merge_truthy_inv _ _ _ _ Hb H2)
      as [xs' [ys' [Hxs' [Hys' [Hc2 [Hk2 [Ht2 [_ [_ [_ [Hs2 _]]]]]]]]]]].
    rewrite Hxs in Hxs'. injection Hxs' as <-.
    rewrite Hys in Hys'. injection Hys' as <-.
    split; [congruence|]. split; [congruence|]. split; [congruence|].
    apply mapM_Forall2 in Hc1. apply mapM_Forall2 in Hc2.
    eapply Forall2_common; [|exact Hc1|exact Hc2].
    intros x m1 m2 Hx Hx'.
    destruct (mergeClaim_inv _ _ _ Hx) as [s1 [st1 [_ [_ [Hn1 ->]]]]].
    destruct (mergeClaim_inv _ _ _ Hx') as [s2 [st2 [_ [_ [Hn2 ->]]]]].
    cbn. repeat split. congruence.
  - unfold merge in H1, H2. rewrite Hb in H1, H2.
    injection H1 as <-. injection H2 as <-. cbn. repeat split. constructor.
Qed.

Lemma backend_is_authoritative_witness :
  exists r1 r2,
    merge Samples.eiffelBackend VNull VNull = inr r1
    /\ merge Samples.eiffelBackend VNull Samples.eiffelInsight = inr r2
    /\ VerificationResult.trustScore r1 = VerificationResult.trustScore r2
    /\ VerificationResult.citations r1 = VerificationResult.citations r2.
Proof.
  eexists _, _.
  split; [vm_compute; reflexivity|]. split; [vm_compute; reflexivity|].
  pose proof (backend_is_authoritative Samples.eiffelBackend VNull VNull
                Samples.eiffelInsight _ _ eq_refl eq_refl) as [H1 [H2 _]].
  split; [exact H1 | exact H2].
Defined.

(** X2.  A merge of a truthy backend result keeps the backend's lists as
    they are laid out: the i-th merged claim is the merge of the i-th
    backend claim and the i-th merged citation that of the i-th backend
    citation; nothing is dropped, added or reordered. *)
Theorem merged_lists_follow_backend
  (b e a : value) (r : VerificationResult.t) :
  truthy b = true ->
  merge b e a = inr r ->
  exists rawClaims rawCitations,
    arrayOr (getOpt b "claims") = Some rawClaims
    /\ arrayOr (getOpt b "citations") = Some rawCitations
    /\ Forall2 (fun raw m => mergeClaim a raw = inr m)
               rawClaims (VerificationResult.claims r)
    /\ Forall2 (fun raw c => mergeCitation raw = inr c)
               rawCitations (VerificationResult.citations r)
    /\ List.length (VerificationResult.claims r) = List.length rawClaims
    /\ List.length (VerificationResult.citations r)
       = List.length rawCitations.
Proof.
  intros Hb Hm.
  destruct (merge_truthy_inv _ _ _ _ Hb Hm)
    as [xs [ys [Hxs [Hys [Hc [Hk _]]]]]].
  apply mapM_Forall2 in Hc. apply mapM_Forall2 in Hk.
  exists xs, ys. repeat split; try assumption.
  - symmetry. eapply Forall2_length; eassumption.
  - symmetry. eapply Forall2_length; eassumption.
Qed.

Lemma merged_lists_follow_backend_witness :
  exists r,
    merge Samples.eiffelBackend VNull Samples.eiffelInsight = inr r
    /\ List.length (VerificationResult.claims r) = 1
    /\ List.length (VerificationResult.citations r) = 1.
Proof.
  eexists. split; [vm_compute; reflexivity|].
  destruct (merged_lists_follow_backend Samples.eiffelBackend VNull
              Samples.eiffelInsight _ eq_refl eq_refl)
    as [xs [ys [Hxs [Hys [_ [_ [Hl1 Hl2]]]]]]].
  injection Hxs as <-. injection Hys as <-. split; [exact Hl1 | exact Hl2].
Defined.

Lemma mergeClaim_malformed (a claim : value) :
  malformedClaim claim = true -> exists e, mergeClaim a claim = inl e.
Proof.
  unfold malformedClaim, mergeClaim. intros H.
  destruct (findSuggestion a claim) as [e|sug]; cbn [bind]; [eauto|].
  destruct (nullish claim) eqn:Hn.
  - rewrite (getProp_nullish _ _ Hn). cbn [bind]. eauto.
  - rewrite !(getProp_getOpt _ _ Hn). cbn [bind].
    cbn [orb] in H. apply andb_prop in H. destruct H as [Ht Hs].
    unfold normalizeClaimStatus. rewrite Ht. cbn [negb].
    destruct (or (or (getOpt claim "status") (getOpt claim "verdict"))
                 (getOpt claim "verification_status"));
      try discriminate; cbn [bind throw]; eauto.
Qed.

Section Handler.

Variable JSON_parse : string -> result value.

(** X3.  One malformed claim fails the whole request: when the backend's
    claims hold a null, or a claim whose status is a truthy value that is
    no string (a number, true, an object), the answer is a 500 and no
    claim at all is returned. *)
Theorem malformed_claim_fails_the_request
  (req : Request) (apiKey : value) (backend ai : Fetch)
  (b claim : value) (xs : list value) :
  accepted req apiKey ->
  backendReturns JSON_parse backend b ->
  arrayOr (getOpt b "claims") = Some xs ->
  In claim xs ->
  malformedClaim claim = true ->
  exists msg, serve JSON_parse req apiKey backend ai = ServerError msg.
Proof.
  intros Ha Hb Hxs Hin Hbad.
  rewrite (serve_merge JSON_parse _ _ _ _ _ Ha Hb).
  destruct Hb as [r [_ [_ [_ Hv]]]].
  rewrite (merge_truthy _ _ _ Hv).
  unfold mapArray at 1. unfold arrayOr in Hxs.
  destruct (or (getOpt b "claims") (VArr [])); try discriminate.
  injection Hxs as ->.
  destruct (mergeClaim_malformed (callAi JSON_parse ai) claim Hbad)
    as [e He].
  destruct (mapM_throws _ _ _ _ Hin He) as [e' ->]. cbn [bind]. eauto.
Qed.

(** X4.  A malformed AI insight fails a request the backend answered well:
    when the backend returned at least one claim and the insight's
    sourceSuggestions is neither missing nor an array, the answer is a
    500. *)
Theorem malformed_suggestions_fail_the_request
  (req : Request) (apiKey : value) (backend ai : Fetch)
  (b claim v : value) (rest : list value) :
  accepted req apiKey ->
  backendReturns JSON_parse backend b ->
  arrayOr (getOpt b "claims") = Some (claim :: rest) ->
  getOpt (callAi JSON_parse ai) "sourceSuggestions" = v ->
  nullish v = false ->
  (forall entries, v <> VArr entries) ->
  exists msg, serve JSON_parse req apiKey backend ai = ServerError msg.
Proof.
  intros Ha Hb Hxs Hv Hn Harr.
  rewrite (serve_merge JSON_parse _ _ _ _ _ Ha Hb).
  destruct Hb as [r [_ [_ [_ Ht]]]].
  rewrite (merge_truthy _ _ _ Ht).
  unfold mapArray at 1. unfold arrayOr in Hxs.
  destruct (or (getOpt b "claims") (VArr [])); try discriminate.
  injection Hxs as ->.
  cbn [mapM]. unfold mergeClaim at 1, findSuggestion at 1.
  rewrite Hv, Hn.
  destruct v; try discriminate; cbn [bind throw]; eauto.
  exfalso. eapply Harr. reflexivity.
Qed.

(** An insight that fails in one of the listed ways leaves [aiResult]
    null. *)
Lemma callAi_failed (ai : Fetch) :
  InsightFails JSON_parse ai -> callAi JSON_parse ai = VNull.
Proof.
  intros H. destruct H as [e|r Hok|r e Hj|r aiData Hj Hc|r aiData c e Hj Hc Hp];
    unfold callAi; try reflexivity.
  - now rewrite Hok.
  - destruct (negb (ok r)); [reflexivity|]. now rewrite Hj.
  - destruct (negb (ok r)); [reflexivity|]. rewrite Hj. cbn [bind].
    unfold parseInsight. destruct (nullish aiData) eqn:Hn.
    + now rewrite (getProp_nullish _ _ Hn).
    + rewrite (getProp_getOpt _ _ Hn). cbn [bind].
      fold (contentOf aiData). now rewrite Hc.
  - destruct (negb (ok r)); [reflexivity|]. rewrite Hj. cbn [bind].
    unfold parseInsight. destruct (nullish aiData) eqn:Hn.
    + now rewrite (getProp_nullish _ _ Hn).
    + rewrite (getProp_getOpt _ _ Hn). cbn [bind].
      fold (contentOf aiData). rewrite Hc.
      destruct (negb (truthy (VStr c))); [reflexivity|]. now rewrite Hp.
Qed.

(** X5.  When the supplementary AI call fails (rejected, status outside
    2xx, body or content that does not parse, no content) and the backend
    answered, the merged result has risk "Medium", reason "Unable to
    assess", an empty summary and source "backend+ai", and every claim
    carries the suggestedSources the backend sent for it, else the empty
    list. *)
Theorem failed_insight_leaves_defaults
  (req : Request) (apiKey : value) (backend ai : Fetch)
  (b : value) (fr : VerificationResult.t) :
  accepted req apiKey ->
  backendReturns JSON_parse backend b ->
  InsightFails JSON_parse ai ->
  serve JSON_parse req apiKey backend ai = Merged fr ->
  VerificationResult.hallucinationRisk fr = VStr "Medium"
  /\ VerificationResult.hallucinationRiskReason fr = VStr "Unable to assess"
  /\ VerificationResult.analysisSummary fr = VStr ""
  /\ VerificationResult.source fr = "backend+ai"
  /\ exists raw,
      arrayOr (getOpt b "claims") = Some raw
      /\ Forall2 (fun claim m =>
                    Claim.suggestedSources m
                    = or (getOpt claim "suggestedSources") (VArr []))
                 raw (VerificationResult.claims fr).
Proof.
  intros Ha Hb Hai Hs.
  rewrite (serve_merge JSON_parse _ _ _ _ _ Ha Hb) in Hs.
  rewrite (callAi_failed _ Hai) in Hs.
  destruct Hb as [r [_ [_ [_ Ht]]]].
  destruct (merge b VNull VNull) as [e|fr'] eqn:Hm; [discriminate|].
  injection Hs as ->.
  destruct (merge_truthy_inv _ _ _ _ Ht Hm)
    as [xs [ys [Hxs [_ [Hc [_ [_ [H1 [H2 [H3 [H4 _]]]]]]]]]]].
  split; [exact H1|]. split; [exact H2|]. split; [exact H3|].
  split; [exact H4|].
  exists xs. split; [exact Hxs|].
  apply mapM_Forall2 in Hc.
  eapply Forall2_impl; [|exact Hc].
  intros claim m Hmc.
  destruct (mergeClaim_inv _ _ _ Hmc) as [sug [st [Hf [_ [_ ->]]]]].
  cbn in Hf. injection Hf as <-. reflexivity.
Qed.

(** X6.  A backend call that succeeds with a falsy body (JSON null, false,
    0 or the empty string) is treated as a failure: the answer is the
    ai-only-fallback result with the error "Backend verification failed",
    trust score 0 and no claims or citations. *)
Theorem falsy_backend_body_is_a_failure
  (req : Request) (apiKey : value) (backend ai : Fetch)
  (r : Response) (v : value) :
  accepted req apiKey ->
  backend = Settled r -> ok r = true ->
  json JSON_parse r = inr v ->
  truthy v = false ->
  exists fr,
    serve JSON_parse req apiKey backend ai = Merged fr
    /\ VerificationResult.source fr = "ai-only-fallback"
    /\ VerificationResult.error fr = VStr "Backend verification failed"
    /\ VerificationResult.trustScore fr = VNum 0
    /\ VerificationResult.claims fr = []
    /\ VerificationResult.citations fr = [].
Proof.
  intros [Hm [[parsed [c [t [Hb Ht]]]] Hk]] -> Hok Hj Hv.
  unfold serve, handle. rewrite Hm, Hb. cbn [bind]. rewrite Ht. cbn [bind].
  unfold callBackend. rewrite Hok. cbn [negb]. rewrite Hj, Hk. cbn [negb].
  unfold merge. rewrite Hv. cbn [bind ret].
  eexists. split; [reflexivity|]. cbn. repeat split.
Qed.

End Handler.

Lemma accepted_scenario : accepted Scenarios.request Scenarios.key.
Proof.
  split; [reflexivity|]. split; [|reflexivity].
  exists (VObj [("text", VStr "The Eiffel Tower is 330m tall.")]),
         "T"%char, "he Eiffel Tower is 330m tall.".
  split; reflexivity.
Defined.

Lemma malformed_claim_fails_the_request_witness :
  exists msg,
    serve Scenarios.parse Scenarios.request Scenarios.key
      (Samples.okResponse "<backend: one claim rated 1>")
      (Rejected (Error "timeout"))
    = ServerError msg.
Proof.
  apply (malformed_claim_fails_the_request Scenarios.parse
           Scenarios.request Scenarios.key
           (Samples.okResponse "<backend: one claim rated 1>")
           (Rejected (Error "timeout"))
           (VObj [("claims",
                   VArr [Samples.eiffelClaim;
                         VObj [("text", VStr "Paris is in France");
                               ("status", VNum 1)]])])
           (VObj [("text", VStr "Paris is in France"); ("status", VNum 1)])
           [Samples.eiffelClaim;
            VObj [("text", VStr "Paris is in France"); ("status", VNum 1)]]
           accepted_scenario).
  - eexists. repeat split; reflexivity.
  - reflexivity.
  - right. left. reflexivity.
  - reflexivity.
Defined.

Lemma malformed_suggestions_fail_the_request_witness :
  exists msg,
    serve Scenarios.parse Scenarios.request Scenarios.key
      (Samples.okResponse "<backend: eiffel>")
      (Samples.okResponse "<completion: no suggestions>")
    = ServerError msg.
Proof.
  apply (malformed_suggestions_fail_the_request Scenarios.parse
           Scenarios.request Scenarios.key
           (Samples.okResponse "<backend: eiffel>")
           (Samples.okResponse "<completion: no suggestions>")
           Samples.eiffelBackend Samples.eiffelClaim (VStr "none") []
           accepted_scenario).
  - eexists. repeat split; reflexivity.
  - reflexivity.
  - reflexivity.
  - reflexivity.
  - intros entries. discriminate.
Defined.

(** Scenario 1: the backend answers, the AI call fails. *)
Lemma failed_insight_leaves_defaults_witness :
  exists fr,
    serve Scenarios.parse Scenarios.request Scenarios.key
      (Samples.okResponse "<backend: eiffel>")
      (Rejected (Error "timeout"))
    = Merged fr
    /\ VerificationResult.hallucinationRisk fr = VStr "Medium"
    /\ VerificationResult.source fr = "backend+ai".
Proof.
  eexists. split; [vm_compute; reflexivity|].
  assert (Hb : backendReturns Scenarios.parse
                 (Samples.okResponse "<backend: eiffel>")
                 Samples.eiffelBackend)
    by (eexists; repeat split; reflexivity).
  destruct (failed_insight_leaves_defaults Scenarios.parse
              Scenarios.request Scenarios.key
              (Samples.okResponse "<backend: eiffel>")
              (Rejected (Error "timeout"))
              Samples.eiffelBackend _
              accepted_scenario Hb
              (call_rejected Scenarios.parse (Error "timeout"))
              eq_refl)
    as [H1 [_ [_ [H4 _]]]].
  split; [exact H1 | exact H4].
Defined.

Lemma falsy_backend_body_is_a_failure_witness :
  exists fr,
    serve Scenarios.parse Scenarios.request Scenarios.key
      (Samples.okResponse "null") (Rejected (Error "timeout"))
    = Merged fr
    /\ VerificationResult.source fr = "ai-only-fallback"
    /\ VerificationResult.error fr = VStr "Backend verification failed".
Proof.
  destruct (falsy_backend_body_is_a_failure Scenarios.parse
              Scenarios.request Scenarios.key
              (Samples.okResponse "null") (Rejected (Error "timeout"))
              (mkResponse 200 (inr "null")) VNull
              accepted_scenario eq_refl eq_refl eq_refl eq_refl)
    as [fr [H1 [H2 [H3 _]]]].
  exists fr. auto.
Defined.

End MergeEdges.

(* ===================================================================== *)
(** ** The checks at the head of the two text handlers *)
(* ===================================================================== *)

Module Validation.
Import Js Conditions.

Lemma validText_getProp (parsed : value) :
  nullish parsed = false ->
  validText parsed = true ->
  exists c t, getProp parsed "text" = inr (VStr (String c t)).
Proof.
  intros Hn Hv. rewrite (MergeEdges.getProp_getOpt _ _ Hn).
  unfold validText in Hv.
  destruct (getOpt parsed "text") as [| | | |[|c t]| |]; try discriminate.
  eauto.
Qed.

(** X7.  Both text handlers check the request before anything else
    counts.  A body that cannot be read or parses to null is answered with
    500; a body whose text is missing, empty or no string is answered with
    400 "Text is required"; with a valid text and no API key the answer is
    500 "LOVABLE_API_KEY is not configured", whatever the upstream calls
    returned. *)
Theorem requests_are_checked_first
  (JSON_parse : string -> result value)
  (body : result value) (apiKey : value) (backend ai gateway : Fetch) :
  let vc := VerifyContent.serve JSON_parse (mkRequest POST body)
              apiKey backend ai in
  let da := DetectAi.serve JSON_parse (mkRequest POST body)
              apiKey gateway in
  (forall e, body = inl e ->
     vc = VerifyContent.ServerError (message e)
     /\ da = DetectAi.ServerError (message e))
  /\ (forall parsed, body = inr parsed -> nullish parsed = true ->
        (exists msg, vc = VerifyContent.ServerError msg)
        /\ (exists msg, da = DetectAi.ServerError msg))
  /\ (forall parsed, body = inr parsed -> nullish parsed = false ->
        validText parsed = false ->
        vc = VerifyContent.BadRequest "Text is required"
        /\ da = DetectAi.BadRequest "Text is required")
  /\ (forall parsed, body = inr parsed -> nullish parsed = false ->
        validText parsed = true -> truthy apiKey = false ->
        vc = VerifyContent.ServerError "LOVABLE_API_KEY is not configured"
        /\ da = DetectAi.ServerError "LOVABLE_API_KEY is not configured").
Proof.
  cbv zeta. unfold VerifyContent.serve, DetectAi.serve,
    VerifyContent.handle, DetectAi.handle. cbn [method Js.body].
  split; [|split; [|split]].
  - intros e ->. cbn [bind]. split; reflexivity.
  - intros parsed -> Hn. cbn [bind].
    rewrite (MergeEdges.getProp_nullish _ _ Hn). cbn [bind]. eauto.
  - intros parsed -> Hn Hv. cbn [bind].
    rewrite (MergeEdges.getProp_getOpt _ _ Hn). cbn [bind].
    unfold validText in Hv.
    destruct (getOpt parsed "text") as [| | | |[|c t]| |];
      try discriminate; split; reflexivity.
  - intros parsed -> Hn Hv Hk. cbn [bind].
    destruct (validText_getProp _ Hn Hv) as [c [t ->]]. cbn [bind].
    rewrite Hk. cbn [negb].
    destruct (VerifyContent.callBackend JSON_parse backend).
    split; reflexivity.
Qed.

Lemma requests_are_checked_first_witness :
  VerifyContent.serve Scenarios.parse
    (mkRequest POST (inr (VObj [("text", VNum 42)])))
    Scenarios.key (Rejected (Error "timeout")) (Rejected (Error "timeout"))
  = VerifyContent.BadRequest "Text is required"
  /\ DetectAi.serve Scenarios.parse Scenarios.request VUndefined
       (Samples.okResponse "<completion: prose>")
     = DetectAi.ServerError "LOVABLE_API_KEY is not configured".
Proof.
  split.
  - apply (proj1 (proj2 (proj2
             (requests_are_checked_first Scenarios.parse
                (inr (VObj [("text", VNum 42)])) Scenarios.key
                (Rejected (Error "timeout")) (Rejected (Error "timeout"))
                (Rejected (Error "timeout")))))
             (VObj [("text", VNum 42)]) eq_refl eq_refl eq_refl).
  - apply (proj2 (proj2 (proj2
             (requests_are_checked_first Scenarios.parse
                (Samples.textRequest "The Eiffel Tower is 330m tall.")
                VUndefined
                (Rejected (Error "timeout")) (Rejected (Error "timeout"))
                (Samples.okResponse "<completion: prose>"))))
             (VObj [("text", VStr "The Eiffel Tower is 330m tall.")])
             eq_refl eq_refl eq_refl eq_refl).
Defined.

End Validation.

(* ===================================================================== *)
(** ** The code fence *)
(* ===================================================================== *)

Module Fence.
Import Js Conditions JsFacts.

Lemma prefix_fence_head (c : ascii) (s : string) :
  String.prefix "```" (String c s) = true -> c = "`"%char.
Proof.
  rewrite prefix_iff. intros [post H]. simpl in H. now injection H.
Qed.

Lemma fencedBlock_skip (pre rest : string) :
  backquoteFree pre = true ->
  fencedBlock (pre ++ rest) = fencedBlock rest.
Proof.
  induction pre as [|c pre IH]; [reflexivity|].
  unfold backquoteFree. cbn [every]. intros H.
  apply andb_prop in H. destruct H as [Hc Hpre].
  cbn [append fencedBlock]. unfold fenceAt at 1.
  destruct (String.prefix "```" (String c (pre ++ rest))) eqn:Hp.
  - apply prefix_fence_head in Hp. subst c. discriminate.
  - now apply IH.
Qed.

Lemma prefix_app (t post : string) : String.prefix t (t ++ post) = true.
Proof. apply prefix_iff. now exists post. Qed.

Lemma before_fence (x post : string) :
  backquoteFree x = true ->
  before (x ++ "```" ++ post) "```" = Some x.
Proof.
  induction x as [|c x IH].
  { intros _. cbn [append]. destruct post; reflexivity. }
  unfold backquoteFree. cbn [every]. intros H.
  apply andb_prop in H. destruct H as [Hc Hx].
  change (String c x ++ "```" ++ post)
    with (String c (x ++ "```" ++ post)).
  cbn [before].
  destruct (String.prefix "```" (String c (x ++ "```" ++ post))) eqn:Hp.
  - apply prefix_fence_head in Hp. subst c. discriminate.
  - unfold backquoteFree in IH. now rewrite (IH Hx).
Qed.

Lemma trimStart_fence (inner post : string) :
  trimStart (inner ++ "```" ++ post) = trimStart inner ++ "```" ++ post.
Proof.
  induction inner as [|c inner IH]; [reflexivity|].
  cbn [append trimStart]. destruct (isSpace c); [exact IH | reflexivity].
Qed.

Lemma every_trimStart (p : ascii -> bool) (s : string) :
  every p s = true -> every p (trimStart s) = true.
Proof.
  induction s as [|c s IH]; [reflexivity|].
  cbn [every trimStart]. intros H. destruct (isSpace c); [|exact H].
  apply andb_prop in H. now apply IH.
Qed.

Lemma trimStart_idem (s : string) : trimStart (trimStart s) = trimStart s.
Proof.
  induction s as [|c s IH]; [reflexivity|].
  cbn [trimStart]. destruct (isSpace c) eqn:Hc; [exact IH|].
  cbn [trimStart]. now rewrite Hc.
Qed.

(** The capture of a fence that opens with the tag. *)
Lemma fenceAt_tagged (inner post : string) :
  backquoteFree inner = true ->
  fenceAt ("```json" ++ inner ++ "```" ++ post) = Some (trimStart inner).
Proof.
  intros H. unfold fenceAt.
  change ("```json" ++ inner ++ "```" ++ post)
    with ("```" ++ ("json" ++ (inner ++ "```" ++ post))).
  rewrite prefix_app.
  assert (d3 : forall r, drop 3 ("```" ++ r) = r) by reflexivity.
  assert (d4 : forall r, drop 4 ("json" ++ r) = r) by reflexivity.
  rewrite d3, prefix_app, d4.
  rewrite trimStart_fence. apply before_fence.
  now apply every_trimStart.
Qed.

(** X8.  The JSON text taken from a chat answer: an answer without three
    backquotes in a row is taken whole; from an answer with a fenced block
    tagged json the inside of the first block is taken, text before and
    after it dropped; both trimmed. *)
Theorem json_text_of_an_answer (content pre inner post : string) :
  (includes content "```" = false -> jsonText content = trim content)
  /\ (backquoteFree pre = true -> backquoteFree inner = true ->
      jsonText (pre ++ "```json" ++ inner ++ "```" ++ post) = trim inner).
Proof.
  split.
  - intros H. unfold jsonText.
    assert (Hn : fencedBlock content = None).
    { induction content as [|c s IH].
      - reflexivity.
      - cbn [includes] in H. apply orb_false_elim in H.
        destruct H as [Hp Hs]. cbn [fencedBlock]. unfold fenceAt.
        rewrite Hp. now apply IH. }
    now rewrite Hn.
  - intros Hpre Hinner. unfold jsonText.
    rewrite (fencedBlock_skip _ _ Hpre).
    assert (Hf : fencedBlock ("```json" ++ inner ++ "```" ++ post)
                 = Some (trimStart inner)).
    { pose proof (fenceAt_tagged inner post Hinner) as Hat.
      cbn [append] in Hat |- *. cbn [fencedBlock]. now rewrite Hat. }
    rewrite Hf. unfold trim. now rewrite trimStart_idem.
Qed.

Lemma json_text_of_an_answer_witness :
  jsonText "no json here" = "no json here"
  /\ jsonText ("Sure. " ++ "```json" ++ " {} " ++ "```" ++ " Done.") = "{}".
Proof.
  split.
  - apply (proj1 (json_text_of_an_answer "no json here" "" "" "")).
    reflexivity.
  - apply (proj2 (json_text_of_an_answer "" "Sure. " " {} " " Done."));
      reflexivity.
Defined.

End Fence.

(* ===================================================================== *)
(** ** More on detect-ai: which reply for which gateway answer *)
(* ===================================================================== *)

Module DetectEdges.
Import Js DetectAi Conditions.

Section Handler.

Variable JSON_parse : string -> result value.

(** X9.  For an accepted request the reply of detect-ai reflects the
    gateway: 429 is answered iff the gateway said 429, 402 iff it said
    402 (its error body read in both cases); a 200 with a detection is
    answered only when the gateway answered 2xx with a content, and the
    payload is then the parsed content, passed on as it is, or the default
    payload. *)
Theorem detection_reply_reflects_gateway
  (req : Request) (apiKey : value) (gateway : Fetch) :
  accepted req apiKey ->
  (serve JSON_parse req apiKey gateway
   = RateLimited "Rate limit exceeded. Please try again in a moment."
   <-> exists r body,
         gateway = Settled r /\ status r = 429%Z /\ text r = inr body)
  /\ (serve JSON_parse req apiKey gateway
      = CreditsExhausted
          "AI credits exhausted. Please add credits to continue."
      <-> exists r body,
            gateway = Settled r /\ status r = 402%Z /\ text r = inr body)
  /\ (forall payload,
        serve JSON_parse req apiKey gateway = Detection payload ->
        exists r data,
          gateway = Settled r /\ ok r = true
          /\ json JSON_parse r = inr data
          /\ truthy (contentOf data) = true
          /\ (payload = defaultPayload
              \/ exists c, contentOf data = VStr c
                           /\ JSON_parse (jsonText c) = inr payload))
  /\ (forall r data c payload,
        gateway = Settled r -> ok r = true ->
        json JSON_parse r = inr data ->
        contentOf data = VStr c -> c <> "" ->
        JSON_parse (jsonText c) = inr payload ->
        serve JSON_parse req apiKey gateway = Detection payload).
Proof.
  intros [Hm [[parsed [c0 [t0 [Hb Ht]]]] Hk]].
  unfold serve, handle. rewrite Hm, Hb. cbn [bind]. rewrite Ht. cbn [bind].
  rewrite Hk. cbn [negb].
  split; [|split; [|split]].
  - split.
    + destruct gateway as [e|r]; [discriminate|].
      unfold ok. destruct (negb _) eqn:Hok.
      * destruct (text r) as [e|body] eqn:Hbody; cbn [bind];
          [discriminate|].
        destruct (Z.eqb_spec (status r) 429) as [H429|H429].
        -- intros _. exists r, body. auto.
        -- destruct (status r =? 402)%Z; discriminate.
      * destruct (json JSON_parse r) as [e|data]; cbn [bind];
          [discriminate|].
        destruct (getProp data "choices") as [e|ch]; cbn [bind];
          [discriminate|].
        destruct (negb (truthy _)); discriminate.
    + intros [r [body [-> [Hs Hbody]]]]. unfold ok. rewrite Hs, Hbody.
      reflexivity.
  - split.
    + destruct gateway as [e|r]; [discriminate|].
      unfold ok. destruct (negb _) eqn:Hok.
      * destruct (text r) as [e|body] eqn:Hbody; cbn [bind];
          [discriminate|].
        destruct (Z.eqb_spec (status r) 429) as [H429|H429];
          [discriminate|].
        destruct (Z.eqb_spec (status r) 402) as [H402|H402];
          [|discriminate].
        intros _. exists r, body. auto.
      * destruct (json JSON_parse r) as [e|data]; cbn [bind];
          [discriminate|].
        destruct (getProp data "choices") as [e|ch]; cbn [bind];
          [discriminate|].
        destruct (negb (truthy _)); discriminate.
    + intros [r [body [-> [Hs Hbody]]]]. unfold ok. rewrite Hs, Hbody.
      reflexivity.
  - intros payload. destruct gateway as [e|r]; [discriminate|].
    destruct (ok r) eqn:Hok; cbn [negb].
    + destruct (json JSON_parse r) as [e|data] eqn:Hj; cbn [bind];
        [discriminate|].
      destruct (nullish data) eqn:Hn.
      * rewrite (MergeEdges.getProp_nullish _ _ Hn). discriminate.
      * rewrite (MergeEdges.getProp_getOpt _ _ Hn). cbn [bind].
        fold (contentOf data).
        destruct (truthy (contentOf data)) eqn:Hc; cbn [negb];
          [|discriminate].
        intros [= <-]. exists r, data. repeat split; try assumption.
        unfold parseDetection.
        destruct (contentOf data) as [| | | |c| |]; auto.
        destruct (JSON_parse (jsonText c)) as [e|v] eqn:Hp; auto.
        right. exists c. auto.
    + destruct (text r) as [e|body]; cbn [bind]; [discriminate|].
      destruct (status r =? 429)%Z; [discriminate|].
      destruct (status r =? 402)%Z; discriminate.
  - intros r data c payload -> Hok Hj Hc Hne Hp.
    rewrite Hok. cbn [negb]. rewrite Hj. cbn [bind].
    assert (Hn : nullish data = false).
    { destruct data; try reflexivity; discriminate. }
    rewrite (MergeEdges.getProp_getOpt _ _ Hn). cbn [bind].
    fold (contentOf data). rewrite Hc.
    destruct c as [|a c]; [congruence|].
    cbn [truthy String.eqb negb]. unfold parseDetection. now rewrite Hp.
Qed.

End Handler.

Lemma detection_reply_reflects_gateway_witness :
  serve Scenarios.parse Scenarios.request Scenarios.key
    (Settled (mkResponse 429 (inr "slow down")))
  = RateLimited "Rate limit exceeded. Please try again in a moment.".
Proof.
  apply (proj1 (detection_reply_reflects_gateway Scenarios.parse
                  Scenarios.request Scenarios.key
                  (Settled (mkResponse 429 (inr "slow down")))
                  MergeEdges.accepted_scenario)).
  exists (mkResponse 429 (inr "slow down")), "slow down".
  repeat split.
Defined.

End DetectEdges.

(* ===================================================================== *)
(** ** More on verify-citations: requests made, shape of a probe outcome,
       rejected lists *)
(* ===================================================================== *)

Module ProbeEdges.
Import Js VerifyCitations Spec Runs Conditions JsFacts.

Section Network.

Variable network : string -> Fetch.

(** A run of [checkUrl] adds to the world the requests of its URL. *)
Lemma checkUrl_world (url : value) (w : World) :
  checkUrl network url w
  = (inr (probed network url), (w ++ requestsOf url)%list).
Proof.
  unfold probed, checkUrl, tryCatch, probe, requestsOf.
  destruct url as [| |[|]|n|u| |]; cbn [truthy isStr negb orb];
    try (rewrite app_nil_r; reflexivity).
  { destruct (n =? 0)%Z; cbn; rewrite app_nil_r; reflexivity. }
  destruct (String.eqb_spec u "") as [->|_];
    [cbn; rewrite app_nil_r; reflexivity|].
  destruct (String.eqb_spec u "unknown") as [->|_];
    [cbn; rewrite app_nil_r; reflexivity|].
  cbn [negb orb].
  destruct (startsWith u "http"); cbn [negb];
    [|cbn; rewrite app_nil_r; reflexivity].
  unfold ioBind, fetch. cbn [app].
  destruct (network u) as [e|r]; [reflexivity|].
  destruct (negb (ok r)); [reflexivity|].
  unfold lift. destruct (text r); reflexivity.
Qed.

Lemma verifyCitation_world (c : obj) (w : World) :
  verifyCitation network (VObj c) w
  = (inr (reverified network c),
     (w ++ requestsOf (lookup "url" c))%list).
Proof.
  unfold verifyCitation, ioBind, lift. cbn [getProp ret].
  rewrite checkUrl_world. unfold reverified, updated.
  cbn [getProp ret bind]. destruct (reconcile _ _ _). reflexivity.
Qed.

Lemma promiseAll_map_world {A B} (f : A -> io B) (g : A -> B)
  (h : A -> list string) (xs : list A) :
  (forall x w, f x w = (inr (g x), (w ++ h x)%list)) ->
  forall w,
    promiseAll (map f xs) w = (inr (map g xs), (w ++ flat_map h xs)%list).
Proof.
  intros H. induction xs as [|x xs IH]; intros w; simpl.
  - now rewrite app_nil_r.
  - rewrite H, IH. now rewrite app_assoc.
Qed.

Lemma serve_objects_world (parsed : value) (cs : list obj) (w : World) :
  getProp parsed "citations" = inr (VArr (map VObj cs)) ->
  serve network (mkRequest POST (inr parsed)) w
  = (Verified (map (reverified network) cs), (w ++ requested cs)%list).
Proof.
  intros Hc. unfold serve, handle, ioBind, lift. cbn [method body].
  rewrite Hc, map_map.
  rewrite (promiseAll_map_world (fun c => verifyCitation network (VObj c))
             (reverified network)
             (fun c => requestsOf (lookup "url" c)) cs
             verifyCitation_world w).
  reflexivity.
Qed.

Lemma requested_length (cs : list obj) :
  List.length (requested cs) <= List.length cs.
Proof.
  unfold requested. induction cs as [|c cs IH]; [apply le_n|].
  cbn [flat_map]. rewrite length_app. cbn [List.length].
  assert (Hone : List.length (requestsOf (lookup "url" c)) <= 1).
  { unfold requestsOf. destruct (lookup "url" c) as [| | | |v| |];
      cbn; try lia. destruct (startsWith v "http"); cbn; lia. }
  lia.
Qed.

(** X10.  The re-verifier requests the URL of each citation whose url is a
    string starting with "http", once per citation and in list order, and
    never requests anything else. *)
Theorem only_http_urls_are_requested
  (parsed : value) (cs : list obj) (w : World) :
  getProp parsed "citations" = inr (VArr (map VObj cs)) ->
  snd (serve network (mkRequest POST (inr parsed)) w)
  = (w ++ requested cs)%list
  /\ Forall (fun u => startsWith u "http" = true) (requested cs)
  /\ (forall u, In u (requested cs) ->
                exists c, In c cs /\ lookup "url" c = VStr u)
  /\ List.length (requested cs) <= List.length cs.
Proof.
  intros Hc. rewrite (serve_objects_world _ _ _ Hc). cbn [snd].
  split; [reflexivity|]. unfold requested.
  split; [|split].
  - apply Forall_forall. intros u Hu. apply in_flat_map in Hu.
    destruct Hu as [c [_ Hu]]. unfold requestsOf in Hu.
    destruct (lookup "url" c) as [| | | |v| |]; try destruct Hu.
    destruct (startsWith v "http") eqn:Hs; [|destruct Hu].
    destruct Hu as [<-|[]]. exact Hs.
  - intros u Hu. apply in_flat_map in Hu. destruct Hu as [c [Hin Hu]].
    exists c. split; [exact Hin|]. unfold requestsOf in Hu.
    destruct (lookup "url" c) as [| | | |v| |]; try destruct Hu.
    destruct (startsWith v "http"); [|destruct Hu].
    destruct Hu as [<-|[]]. reflexivity.
  - apply requested_length.
Qed.

(** The three ways a probe ends. *)
Lemma probed_cases (url : value) :
  probed network url = unreachable 0
  \/ (exists u r,
        url = VStr u /\ startsWith u "http" = true
        /\ network u = Settled r /\ ok r = false
        /\ probed network url = unreachable (status r))
  \/ (exists u r html,
        url = VStr u /\ startsWith u "http" = true
        /\ network u = Settled r /\ ok r = true /\ text r = inr html
        /\ probed network url
           = Probe.make true (status r)
               (option_map trim (titleMatch html))
               (Some (textContent html))).
Proof.
  unfold probed, checkUrl, tryCatch, probe.
  destruct (negb (truthy url) || isStr url "unknown"); [now left|].
  destruct url as [| | | |u| |]; try (now left).
  destruct (startsWith u "http") eqn:Hs; cbn [negb]; [|now left].
  unfold ioBind, fetch.
  destruct (network u) as [e|r] eqn:Hn; [now left|].
  destruct (ok r) eqn:Hok; cbn [negb].
  - unfold lift. destruct (text r) as [e|html] eqn:Ht; [now left|].
    right. right. exists u, r, html. repeat split; auto.
  - right. left. exists u, r. repeat split; auto.
Qed.

Lemma substring_length_le (n m : nat) (s : string) :
  String.length (String.substring n m s) <= m.
Proof.
  revert n m. induction s as [|c s IH]; intros [|n] [|m]; simpl;
    try lia; try apply IH.
  specialize (IH 0 m). lia.
Qed.

Lemma span_every (p : ascii -> bool) (s : string) :
  every p (fst (span p s)) = true.
Proof.
  induction s as [|c s IH]; [reflexivity|].
  cbn [span]. destruct (p c) eqn:Hp; [|reflexivity].
  destruct (span p s) as [a b]. cbn [fst every] in *. now rewrite Hp.
Qed.

Lemma every_trimEnd (p : ascii -> bool) (s : string) :
  every p s = true -> every p (trimEnd s) = true.
Proof.
  induction s as [|c s IH]; [reflexivity|].
  cbn [every trimEnd]. intros H. apply andb_prop in H.
  destruct H as [Hc Hs]. specialize (IH Hs).
  destruct (trimEnd s) as [|d t].
  - destruct (isSpace c); [reflexivity|]. cbn [every]. now rewrite Hc.
  - cbn [every] in *. now rewrite Hc, IH.
Qed.

Lemma titleMatch_every (html t : string) :
  titleMatch html = Some t -> every notLt t = true.
Proof.
  induction html as [|c html IH]; cbn [titleMatch].
  - unfold titleAt. cbn. discriminate.
  - destruct (titleAt (String c html)) as [inner|] eqn:Hat;
      [|exact IH].
    intros [= <-]. unfold titleAt in Hat.
    destruct (startsWithCI (String c html) "<title"); [|discriminate].
    destruct (snd (span notGt (drop 6 (String c html)))) as [|g r];
      [discriminate|].
    pose proof (span_every notLt r) as Hev.
    destruct (span notLt r) as [x r']. cbn [fst] in Hev.
    destruct x as [|a x]; [discriminate|].
    destruct (startsWithCI r' "</title>"); [|discriminate].
    now injection Hat as <-.
Qed.

(** X11.  The outcome of a probe: it reports reachable exactly when its
    status lies in 200-299, and then only for a string URL starting with
    "http"; an unreachable outcome has no title and no preview; a preview
    is at most 300 units long; a title holds no "<". *)
Theorem probe_outcome_shape (url : value) :
  let p := probed network url in
  (Probe.exists_ p = true <-> (200 <= Probe.status p <= 299)%Z)
  /\ (Probe.exists_ p = true ->
      exists u, url = VStr u /\ startsWith u "http" = true)
  /\ (Probe.exists_ p = false ->
      Probe.title p = None /\ Probe.preview p = None)
  /\ (forall s, Probe.preview p = Some s -> String.length s <= 300)
  /\ (forall t, Probe.title p = Some t -> every notLt t = true).
Proof.
  cbv zeta.
  destruct (probed_cases url)
    as [->|[[u [r [-> [Hs [Hn [Hok ->]]]]]]
           |[u [r [html [-> [Hs [Hn [Hok [Ht ->]]]]]]]]]];
    cbn [unreachable Probe.exists_ Probe.status Probe.title Probe.preview].
  - repeat split; try discriminate; try lia.
  - unfold ok in Hok. repeat split; try discriminate.
    intros H. apply andb_false_iff in Hok.
    destruct Hok as [Hok|Hok]; apply Z.leb_gt in Hok; lia.
  - unfold ok in Hok. apply andb_prop in Hok. destruct Hok as [H1 H2].
    apply Z.leb_le in H1. apply Z.leb_le in H2.
    repeat split; try discriminate; try lia; eauto.
    + intros s [= <-]. unfold textContent. apply substring_length_le.
    + intros t Htitle.
      destruct (titleMatch html) as [t0|] eqn:Hm; [|discriminate].
      injection Htitle as <-. unfold trim.
      apply every_trimEnd, Fence.every_trimStart.
      exact (titleMatch_every _ _ Hm).
Qed.

(** X12.  After re-verification no citation is left marked valid with an
    unreachable URL, nor broken with a reachable one, and the httpStatus
    written is the status of the probe. *)
Theorem status_agrees_with_reachability
  (parsed : value) (cs : list obj) (w : World) :
  getProp parsed "citations" = inr (VArr (map VObj cs)) ->
  exists out w',
    serve network (mkRequest POST (inr parsed)) w = (Verified out, w')
    /\ Forall2
         (fun c o =>
            let p := probed network (lookup "url" c) in
            (lookup "status" o = VStr "valid" -> Probe.exists_ p = true)
            /\ (lookup "status" o = VStr "broken" ->
                Probe.exists_ p = false)
            /\ lookup "httpStatus" o = VNum (Probe.status p))
         cs out.
Proof.
  intros Hc. rewrite (serve_objects_world _ _ _ Hc).
  eexists _, _. split; [reflexivity|]. clear Hc.
  induction cs as [|c cs' IH]; constructor.
  - cbv zeta. rewrite !Reverifier.reverified_lookup. cbn [String.eqb].
    cbn. unfold reconcile.
    destruct (Probe.exists_ (probed network (lookup "url" c))) eqn:He.
    + destruct (isStr (lookup "status" c) "broken") eqn:Hs; cbn [fst].
      * repeat split; discriminate.
      * apply Reverifier.isStr_false in Hs. repeat split; congruence.
    + destruct (isStr (lookup "status" c) "valid") eqn:Hs; cbn [fst].
      * repeat split; discriminate.
      * apply Reverifier.isStr_false in Hs. repeat split; congruence.
  - apply IH.
Qed.

Lemma promiseAll_throws {A} (ms : list (io A)) (m : io A) :
  In m ms ->
  (forall w, exists e w', m w = (inl e, w')) ->
  forall w, exists e w', promiseAll ms w = (inl e, w').
Proof.
  intros Hin Hm. induction ms as [|y ms IH]; [destruct Hin|].
  intros w. cbn [promiseAll]. destruct Hin as [->|Hin].
  - destruct (Hm w) as [e [w1 ->]].
    destruct (promiseAll ms w1) as [rs w2]. eauto.
  - destruct (y w) as [r w1].
    destruct (IH Hin w1) as [e [w2 ->]].
    destruct r; eauto.
Qed.

(** X13.  Lists the re-verifier does not take: a citations value that is
    no array is answered with 400 "Citations array is required" and no
    request is made; an array that holds a null is answered with 500, and
    no list at all is returned for the other citations. *)
Theorem bad_citation_lists_are_rejected (parsed : value) (w : World) :
  nullish parsed = false ->
  ((forall xs, getOpt parsed "citations" <> VArr xs) ->
   serve network (mkRequest POST (inr parsed)) w
   = (BadRequest "Citations array is required", w))
  /\ (forall xs,
        getOpt parsed "citations" = VArr xs ->
        (exists x, In x xs /\ nullish x = true) ->
        exists msg w',
          serve network (mkRequest POST (inr parsed)) w
          = (ServerError msg, w')).
Proof.
  intros Hn. unfold serve, handle, ioBind, lift. cbn [method body].
  rewrite (MergeEdges.getProp_getOpt _ _ Hn).
  split.
  - intros Hna. destruct (getOpt parsed "citations"); try reflexivity.
    exfalso. eapply Hna. reflexivity.
  - intros xs -> [x [Hin Hx]].
    destruct (promiseAll_throws (map (verifyCitation network) xs)
                (verifyCitation network x)) with (w := w)
      as [e [w' ->]].
    + now apply in_map.
    + intros w0. unfold verifyCitation, ioBind, lift.
      rewrite (MergeEdges.getProp_nullish _ _ Hx). eauto.
    + eauto.
Qed.

(** X14.  A citation the backend sent without a URL is merged with the url
    "unknown"; re-verifying the merged citation makes no request and marks
    it verified with httpStatus 0: rated valid, it comes back broken with
    the reason "URL is not accessible or does not exist"; rated broken or
    fake, it keeps status and reason. *)
Theorem citation_without_url_is_not_fetched
  (raw : value) (c : VerifyContent.Citation.t) (w : World) :
  VerifyContent.mergeCitation raw = inr c ->
  truthy (getOpt raw "url") = false ->
  VerifyContent.Citation.url c = VStr "unknown"
  /\ exists out,
      verifyCitation network (VObj (Wire.citationObject c)) w
      = (inr out, w)
      /\ lookup "verified" out = VBool true
      /\ lookup "httpStatus" out = VNum 0
      /\ (VerifyContent.Citation.status c = VerifyContent.CitationValid ->
          lookup "status" out = VStr "broken"
          /\ lookup "reason" out
             = VStr "URL is not accessible or does not exist")
      /\ (VerifyContent.Citation.status c <> VerifyContent.CitationValid ->
          lookup "status" out
          = VStr (VerifyContent.citationStatusText
                    (VerifyContent.Citation.status c))
          /\ lookup "reason" out = VerifyContent.Citation.reason c).
Proof.
  intros Hm Hu.
  assert (Hurl : VerifyContent.Citation.url c = VStr "unknown").
  { unfold VerifyContent.mergeCitation in Hm.
    destruct (nullish raw) eqn:Hn.
    - rewrite (MergeEdges.getProp_nullish _ _ Hn) in Hm. discriminate.
    - rewrite !(MergeEdges.getProp_getOpt _ _ Hn) in Hm. cbn [bind] in Hm.
      destruct (VerifyContent.normalizeCitationStatus _); cbn [bind] in Hm;
        [discriminate|].
      injection Hm as <-. cbn. unfold or. now rewrite Hu. }
  split; [exact Hurl|].
  rewrite verifyCitation_world.
  assert (Hl : lookup "url" (Wire.citationObject c) = VStr "unknown")
    by (cbn; exact Hurl).
  rewrite Hl. cbn [requestsOf startsWith String.prefix].
  exists (reverified network (Wire.citationObject c)).
  split; [now rewrite app_nil_r|].
  rewrite !Reverifier.reverified_lookup. rewrite Hl. cbn.
  destruct c as [src url st rs]. cbn in *.
  destruct st; cbn; repeat split; try congruence; try discriminate.
Qed.

End Network.

Lemma only_http_urls_are_requested_witness :
  snd (serve Samples.exampleNetwork
         (mkRequest POST
            (inr (Samples.citationsRequest
                    [Samples.exampleCitation; Samples.unknownCitation;
                     Samples.goneCitation]))) [])
  = ["https://example.com"; "https://gone.example/post"].
Proof.
  exact (proj1 (only_http_urls_are_requested Samples.exampleNetwork
                  (Samples.citationsRequest
                     [Samples.exampleCitation; Samples.unknownCitation;
                      Samples.goneCitation])
                  [Samples.exampleCitation; Samples.unknownCitation;
                   Samples.goneCitation] [] eq_refl)).
Defined.

Lemma status_agrees_with_reachability_witness :
  exists out w',
    serve Samples.exampleNetwork
      (mkRequest POST
         (inr (Samples.citationsRequest
                 [Samples.exampleCitation; Samples.goneCitation]))) []
    = (Verified out, w')
    /\ map (lookup "status") out = [VStr "valid"; VStr "broken"].
Proof.
  destruct (status_agrees_with_reachability Samples.exampleNetwork
              (Samples.citationsRequest
                 [Samples.exampleCitation; Samples.goneCitation])
              [Samples.exampleCitation; Samples.goneCitation] [] eq_refl)
    as [out [w' [Hrun _]]].
  exists out, w'. split; [exact Hrun|].
  vm_compute in Hrun. injection Hrun as <- _. reflexivity.
Defined.

Lemma bad_citation_lists_are_rejected_witness :
  serve Samples.exampleNetwork
    (mkRequest POST (inr (VObj [("citations", VStr "none")]))) []
  = (BadRequest "Citations array is required", []).
Proof.
  apply (proj1 (bad_citation_lists_are_rejected Samples.exampleNetwork
                  (VObj [("citations", VStr "none")]) [] eq_refl)).
  intros xs. discriminate.
Defined.

Lemma citation_without_url_is_not_fetched_witness :
  exists c out,
    VerifyContent.mergeCitation Scenarios.bareCitation = inr c
    /\ verifyCitation Samples.exampleNetwork
         (VObj (Wire.citationObject c)) []
       = (inr out, [])
    /\ lookup "status" out = VStr "broken".
Proof.
  set (c := VerifyContent.Citation.make (VStr "A 2019 study")
              (VStr "unknown") VerifyContent.CitationValid (VStr "")).
  assert (Hm : VerifyContent.mergeCitation Scenarios.bareCitation = inr c)
    by reflexivity.
  destruct (citation_without_url_is_not_fetched Samples.exampleNetwork
              Scenarios.bareCitation c [] Hm eq_refl)
    as [_ [out [Hrun [_ [_ [Hvalid _]]]]]].
  exists c, out. split; [exact Hm|]. split; [exact Hrun|].
  exact (proj1 (Hvalid eq_refl)).
Defined.

End ProbeEdges.

(* ===================================================================== *)
(** ** The dashboard and the replies it gets *)
(* ===================================================================== *)

Module DashboardProps.
Import Js Client Dashboard.

Lemma callBackend_error_shape (JSON_parse : string -> Js.result value)
  (backend : Fetch) :
  snd (VerifyContent.callBackend JSON_parse backend) = VNull
  \/ exists m, snd (VerifyContent.callBackend JSON_parse backend) = VStr m.
Proof.
  unfold VerifyContent.callBackend. destruct backend as [e|r]; cbn; eauto.
  destruct (negb (ok r)).
  - destruct (text r); cbn; eauto.
  - destruct (VerifyContent.json JSON_parse r); cbn; eauto.
Qed.

(** A merged reply is a merge of what the two calls gave. *)
Lemma serve_merged_origin (JSON_parse : string -> Js.result value)
  (req : Request) (apiKey : value) (backend ai : Fetch)
  (r : VerifyContent.VerificationResult.t) :
  VerifyContent.serve JSON_parse req apiKey backend ai
  = VerifyContent.Merged r ->
  exists b e a,
    VerifyContent.merge b e a = inr r
    /\ (e = VNull \/ exists m, e = VStr m).
Proof.
  unfold VerifyContent.serve, VerifyContent.handle.
  destruct (method req); [discriminate|].
  destruct (body req) as [e0|parsed]; cbn [bind]; [discriminate|].
  destruct (getProp parsed "text") as [e0|t]; cbn [bind]; [discriminate|].
  destruct t as [| | | |[|c t]| |]; try discriminate.
  pose proof (callBackend_error_shape JSON_parse backend) as Hshape.
  destruct (VerifyContent.callBackend JSON_parse backend) as [b e].
  cbn [snd] in Hshape.
  destruct (negb (truthy apiKey)); [discriminate|].
  destruct (VerifyContent.merge b e (VerifyContent.callAi JSON_parse ai))
    as [e0|fr] eqn:Hm; cbn [bind]; [discriminate|].
  intros [= <-]. eauto.
Qed.

(** The error text of a fallback result is a non-empty string. *)
Lemma fallback_error (b e a : value)
  (r : VerifyContent.VerificationResult.t) :
  VerifyContent.merge b e a = inr r ->
  VerifyContent.VerificationResult.source r = "ai-only-fallback" ->
  (e = VNull \/ exists m, e = VStr m) ->
  exists reason,
    VerifyContent.VerificationResult.error r = VStr reason /\ reason <> "".
Proof.
  intros Hm Hs He. destruct (truthy b) eqn:Hb.
  - destruct (MergeEdges.merge_truthy_inv _ _ _ _ Hb Hm)
      as [_ [_ [_ [_ [_ [_ [_ [_ [_ [_ [Hsrc _]]]]]]]]]]].
    rewrite Hsrc in Hs. discriminate.
  - unfold VerifyContent.merge in Hm. rewrite Hb in Hm.
    injection Hm as <-. cbn.
    destruct He as [->|[m ->]].
    + exists "Backend verification failed". split; [reflexivity|discriminate].
    + unfold or. cbn. destruct (String.eqb_spec m "") as [->|Hne]; cbn.
      * exists "Backend verification failed".
        split; [reflexivity|discriminate].
      * exists m. auto.
Qed.

(** What [handleVerify] does with a reply that has a truthy string under
    [error]. *)
Lemma handleVerify_data_error (d : value) (reason : string)
  (aiDetect : Invoked) (inserted : Js.result value) (st : State) :
  getProp d "error" = inr (VStr reason) -> reason <> "" ->
  (trim (inputText st) =? "")%string = false ->
  handleVerify (mkInvoked d VNull) aiDetect inserted st
  = setIsVerifying false
      (toast (mkToast "Verification failed" reason true)
         (setShowResults false (setIsVerifying true st))).
Proof.
  intros Hd Hne Hin. unfold handleVerify. rewrite Hin.
  unfold verifying. cbn [Client.error Client.data truthy].
  unfold andThen, lift. rewrite Hd.
  destruct reason as [|c reason]; [congruence|]. reflexivity.
Qed.

(** X15.  A fallback result never reaches the screen of the dashboard:
    when verify-content answers with an ai-only-fallback result and that
    result is the data of the call, handleVerify sets no result, keeps
    the results hidden, stores nothing in the history and shows the toast
    "Verification failed" with the error text of the result. *)
Theorem fallback_is_shown_as_failure
  (JSON_parse : string -> Js.result value)
  (req : Request) (apiKey : value) (backend ai : Fetch)
  (r : VerifyContent.VerificationResult.t)
  (aiDetect : Invoked) (inserted : Js.result value) (st : State) :
  VerifyContent.serve JSON_parse req apiKey backend ai
  = VerifyContent.Merged r ->
  VerifyContent.VerificationResult.source r = "ai-only-fallback" ->
  (trim (inputText st) =? "")%string = false ->
  exists reason,
    VerifyContent.VerificationResult.error r = VStr reason
    /\ let st' := handleVerify (mkInvoked (VObj (Wire.resultObject r)) VNull)
                    aiDetect inserted st in
       result st' = result st
       /\ showResults st' = false
       /\ isVerifying st' = false
       /\ inserts st' = inserts st
       /\ historyRefreshTrigger st' = historyRefreshTrigger st
       /\ toasts st'
          = (toasts st ++ [mkToast "Verification failed" reason true])%list.
Proof.
  intros Hs Hsrc Hin.
  destruct (serve_merged_origin _ _ _ _ _ _ Hs) as [b [e [a [Hm He]]]].
  destruct (fallback_error _ _ _ _ Hm Hsrc He) as [reason [Hr Hne]].
  exists reason. split; [exact Hr|]. cbv zeta.
  rewrite (handleVerify_data_error _ reason); try assumption.
  - cbn. repeat split.
  - unfold Wire.resultObject. rewrite Hr. reflexivity.
Qed.

Lemma fallback_is_shown_as_failure_witness :
  exists r reason,
    VerifyContent.serve Samples.parse
      (mkRequest POST (Samples.textRequest "The moon is made of cheese."))
      (VStr "key") (Rejected (Error "connection refused"))
      (Samples.okResponse "<completion: fenced insight>")
    = VerifyContent.Merged r
    /\ VerifyContent.VerificationResult.error r = VStr reason
    /\ toasts (handleVerify
                 (mkInvoked (VObj (Wire.resultObject r)) VNull)
                 (mkInvoked VNull VNull) (inr VNull)
                 (mkState "The moon is made of cheese." VNull false false
                    false 0 [] []))
       = [mkToast "Verification failed" reason true].
Proof.
  eexists.
  assert (Hs : VerifyContent.serve Samples.parse
                 (mkRequest POST
                    (Samples.textRequest "The moon is made of cheese."))
                 (VStr "key") (Rejected (Error "connection refused"))
                 (Samples.okResponse "<completion: fenced insight>")
               = VerifyContent.Merged
                   (VerifyContent.VerificationResult.make
                      (VStr "connection refused") (VNum 0) [] []
                      (VStr "High") (VStr "Backend verification required")
                      (VStr "Several figures lack a source.")
                      "ai-only-fallback")) by reflexivity.
  destruct (fallback_is_shown_as_failure _ _ _ _ _ _
              (mkInvoked VNull VNull) (inr VNull)
              (mkState "The moon is made of cheese." VNull false false
                 false 0 [] [])
              Hs eq_refl eq_refl)
    as [reason [Hr [_ [_ [_ [_ [_ Ht]]]]]]].
  exists reason. split; [exact Hs|]. split; [exact Hr | exact Ht].
Defined.

(** X16.  A trust score of 0 is not displayed: the merge keeps a backend
    score of 0, but handleVerify takes [data.trustScore || 50], so the
    result on the screen and the row stored in the history hold 50, while
    the toast says "Trust score: 0%". *)
Theorem zero_score_is_shown_as_50
  (b e a : value) (r : VerifyContent.VerificationResult.t)
  (aiDetect : Invoked) (inserted : Js.result value) (st : State) :
  truthy b = true ->
  getOpt b "trustScore" = VNum 0 ->
  VerifyContent.merge b e a = inr r ->
  (trim (inputText st) =? "")%string = false ->
  VerifyContent.VerificationResult.trustScore r = VNum 0
  /\ let st' := handleVerify (mkInvoked (VObj (Wire.resultObject r)) VNull)
                  aiDetect inserted st in
     getOpt (result st') "trustScore" = VNum 50
     /\ showResults st' = true
     /\ (exists row,
           inserts st' = (inserts st ++ [row])%list
           /\ trust_score row = VNum 50)
     /\ toasts st'
        = (toasts st
           ++ [mkToast "Verification complete" "Trust score: 0%" false])%list.
Proof.
  intros Hb Hts Hm Hin.
  destruct (MergeEdges.merge_truthy_inv _ _ _ _ Hb Hm)
    as [_ [_ [_ [_ [_ [_ [Hscore [_ [_ [_ [_ Herr]]]]]]]]]]].
  rewrite Hts in Hscore. cbn in Hscore.
  split; [exact Hscore|]. cbv zeta.
  unfold handleVerify. rewrite Hin.
  unfold verifying. cbn [Client.error Client.data truthy].
  unfold Wire.resultObject. rewrite Herr, Hscore.
  cbn [nullish app getProp ret lookup String.eqb Ascii.eqb Bool.eqb].
  unfold andThen, lift, modify. cbn.
  unfold saveToHistory. destruct inserted as [e0|err]; cbn.
  - repeat split. eexists. split; reflexivity.
  - destruct (truthy err); cbn; repeat split; eexists; split; reflexivity.
Qed.

Lemma zero_score_is_shown_as_50_witness :
  exists r,
    VerifyContent.merge (VObj [("trustScore", VNum 0)]) VNull VNull = inr r
    /\ VerifyContent.VerificationResult.trustScore r = VNum 0
    /\ getOpt (result (handleVerify
                         (mkInvoked (VObj (Wire.resultObject r)) VNull)
                         (mkInvoked VNull VNull) (inr VNull)
                         (mkState "Some text." VNull false false false 0
                            [] [])))
         "trustScore"
       = VNum 50.
Proof.
  eexists. split; [reflexivity|].
  destruct (zero_score_is_shown_as_50 (VObj [("trustScore", VNum 0)])
              VNull VNull _ (mkInvoked VNull VNull) (inr VNull)
              (mkState "Some text." VNull false false false 0 [] [])
              eq_refl eq_refl eq_refl eq_refl)
    as [H0 [H50 _]].
  split; [exact H0 | exact H50].
Defined.

(** X17.  A successful citation check replaces the citations of the
    result and nothing else: with the reply of verify-citations to the
    request the dashboard sends as the data of the call, the result holds
    the returned citations, as many as before, in the same order and with
    the source and url they had, each marked verified; every other part of
    the result (trust score, claims, ...) is as it was. *)
Theorem checked_citations_replace_the_old_ones
  (network : string -> Fetch) (ps : obj) (cs out : list obj)
  (st : State) (w w' : VerifyCitations.World) :
  result st = VObj ps ->
  lookup "citations" ps = VArr (map VObj cs) ->
  cs <> [] ->
  VerifyCitations.serve network (mkRequest POST (inr (citationsBody st))) w
  = (VerifyCitations.Verified out, w') ->
  let st' :=
    handleVerifyCitations
      (mkInvoked (VObj [("citations", VArr (map VObj out))]) VNull) st in
  exists ps',
    result st' = VObj ps'
    /\ lookup "citations" ps' = VArr (map VObj out)
    /\ (forall k, k <> "citations" -> lookup k ps' = lookup k ps)
    /\ List.length out = List.length cs
    /\ map (lookup "url") out = map (lookup "url") cs
    /\ map (lookup "source") out = map (lookup "source") cs
    /\ Forall (fun o => lookup "verified" o = VBool true) out
    /\ isVerifyingCitations st' = false
    /\ toasts st'
       = (toasts st
          ++ [mkToast "Citations verified"
                "All citation URLs have been checked" false])%list.
Proof.
  intros Hr Hc Hne Hs. cbv zeta.
  assert (Hbody : getProp (citationsBody st) "citations"
                  = inr (VArr (map VObj cs))).
  { unfold citationsBody. rewrite Hr. cbn. now rewrite Hc. }
  rewrite (ProbeEdges.serve_objects_world network _ _ _ Hbody) in Hs.
  injection Hs as <- _.
  exists (setProp "citations"
            (VArr (map VObj (map (Runs.reverified network) cs))) ps).
  assert (Hrun :
    handleVerifyCitations
      (mkInvoked
         (VObj [("citations",
                 VArr (map VObj (map (Runs.reverified network) cs)))])
         VNull) st
    = setIsVerifyingCitations false
        (toast (mkToast "Citations verified"
                  "All citation URLs have been checked" false)
           (setResult
              (VObj (setProp "citations"
                       (VArr (map VObj
                                (map (Runs.reverified network) cs))) ps))
              (setIsVerifyingCitations true st)))).
  { unfold handleVerifyCitations. rewrite Hr. cbn [nullish getProp ret bind].
    rewrite Hc. cbn [lengthOf ret].
    destruct cs as [|c cs']; [congruence|].
    cbn [map List.length truthy negb Z.of_nat Z.eqb].
    unfold verifyingCitations.
    cbn [Client.error Client.data truthy getProp ret lookup String.eqb
         Ascii.eqb Bool.eqb].
    unfold andThen, lift, modify, ret. cbv beta iota zeta. cbn [truthy].
    cbv beta iota. cbn [result setIsVerifyingCitations spread].
    rewrite Hr. reflexivity. }
  rewrite Hrun. cbn [result isVerifyingCitations toasts
                     setIsVerifyingCitations toast setResult].
  split; [reflexivity|].
  split; [rewrite Reverifier.lookup_setProp; now rewrite String.eqb_refl|].
  split.
  { intros k Hk. rewrite Reverifier.lookup_setProp.
    destruct (String.eqb_spec "citations" k); congruence. }
  split; [now rewrite length_map|].
  split.
  { rewrite map_map. apply map_ext. intros c.
    now rewrite Reverifier.reverified_lookup. }
  split.
  { rewrite map_map. apply map_ext. intros c.
    now rewrite Reverifier.reverified_lookup. }
  split.
  { apply Forall_forall. intros o Ho. apply in_map_iff in Ho.
    destruct Ho as [c [<- _]]. now rewrite Reverifier.reverified_lookup. }
  split; reflexivity.
Qed.

Lemma checked_citations_replace_the_old_ones_witness :
  exists out ps',
    result (handleVerifyCitations
              (mkInvoked (VObj [("citations", VArr (map VObj out))]) VNull)
              (mkState "Some text."
                 (VObj [("trustScore", VNum 82);
                        ("citations",
                         VArr [VObj Samples.exampleCitation])])
                 true false false 1 [] []))
    = VObj ps'
    /\ lookup "trustScore" ps' = VNum 82
    /\ List.length out = 1.
Proof.
  set (st := mkState "Some text."
               (VObj [("trustScore", VNum 82);
                      ("citations", VArr [VObj Samples.exampleCitation])])
               true false false 1 [] []).
  destruct (checked_citations_replace_the_old_ones Samples.exampleNetwork
              [("trustScore", VNum 82);
               ("citations", VArr [VObj Samples.exampleCitation])]
              [Samples.exampleCitation]
              [Runs.reverified Samples.exampleNetwork
                 Samples.exampleCitation]
              st [] ["https://example.com"]
              eq_refl eq_refl ltac:(discriminate) eq_refl)
    as [ps' [Hres [_ [Hframe [Hlen _]]]]].
  exists [Runs.reverified Samples.exampleNetwork Samples.exampleCitation],
         ps'.
  split; [exact Hres|]. split; [|exact Hlen].
  rewrite (Hframe "trustScore" ltac:(discriminate)). reflexivity.
Defined.

Lemma substring_whole (m : nat) (s : string) :
  String.length s <= m -> String.substring 0 m s = s.
Proof.
  revert m. induction s as [|c s IH]; intros [|m] H; simpl in *;
    try reflexivity; try lia.
  rewrite IH; [reflexivity | lia].
Qed.

Lemma substring_length_exact (m : nat) (s : string) :
  m <= String.length s -> String.length (String.substring 0 m s) = m.
Proof.
  revert m. induction s as [|c s IH]; intros [|m] H; simpl in *;
    try reflexivity; try lia.
  rewrite IH; [reflexivity | lia].
Qed.

Lemma length_app_string (a b : string) :
  String.length (a ++ b) = String.length a + String.length b.
Proof. induction a; simpl; congruence. Qed.

(** X18.  The preview stored with a verification is the text itself when
    the text has at most 200 units, and its first 200 units followed by
    "..." otherwise; it is never longer than 203 units. *)
Theorem text_preview_is_bounded (text : string) :
  String.length (textPreview text) <= 203
  /\ (String.length text <= 200 -> textPreview text = text)
  /\ (200 < String.length text ->
      textPreview text = String.substring 0 200 text ++ "..."
      /\ String.length (textPreview text) = 203).
Proof.
  unfold textPreview, substring. cbn [Nat.min Nat.max Nat.sub].
  destruct (Nat.ltb_spec 200 (String.length text)) as [Hlong|Hshort].
  - rewrite length_app_string, substring_length_exact by lia.
    cbn [String.length]. repeat split; try lia.
  - rewrite substring_whole by lia.
    assert (Hnil : forall s : string, s ++ "" = s)
      by (induction s; simpl; congruence).
    rewrite Hnil. repeat split; try lia.
Qed.

(** A list that is missing has been replaced by the empty one before the
    copy, so the copy goes through. *)
Lemma jsonRoundTrip_or (a : value) :
  jsonRoundTrip (or a (VArr [])) = inr (jsonCopy (or a (VArr []))).
Proof.
  unfold or. destruct (truthy a) eqn:Ha; [|reflexivity].
  destruct a; try discriminate; reflexivity.
Qed.

(** [handleVerify] always hands over a result that can be stored. *)
Lemma saveToHistory_of_result (inserted : Js.result value) (text : string)
  (d : value) (ai : Invoked) (st : State) :
  saveToHistory inserted text (verificationResultOf d ai) st
  = let st1 :=
      insert (mkRow (textPreview text) text
                (or (getOpt d "trustScore") (VNum 50))
                (jsonCopy (or (getOpt d "claims") (VArr [])))
                (jsonCopy (or (getOpt d "citations") (VArr [])))) st in
    match inserted with
    | inl _ => st1
    | inr error => if truthy error then st1 else refreshHistory st1
    end.
Proof.
  unfold saveToHistory, verificationResultOf.
  cbn [getProp lookup String.eqb Ascii.eqb Bool.eqb ret bind].
  rewrite !jsonRoundTrip_or. reflexivity.
Qed.

(** X19.  Whatever the two calls resolve to and however the insert ends,
    a verification of a non-blank text settles: the busy flag is cleared,
    the text is kept, and exactly one message is shown, either the failure
    or the completion.  With the completion the results are shown and one
    row holding the text and its preview is offered to the history; as
    long as the results are hidden, neither the result nor the history
    has changed. *)
Theorem verification_always_settles
  (verifyResponse aiDetect : Invoked) (inserted : Js.result value)
  (st : State) :
  (trim (inputText st) =? "")%string = false ->
  let st' := handleVerify verifyResponse aiDetect inserted st in
  isVerifying st' = false
  /\ inputText st' = inputText st
  /\ (exists t,
        toasts st' = (toasts st ++ [t])%list
        /\ ((destructive t = true /\ title t = "Verification failed")
            \/ (destructive t = false
                /\ title t = "Verification complete"
                /\ showResults st' = true
                /\ exists row,
                     inserts st' = (inserts st ++ [row])%list
                     /\ full_text row = inputText st
                     /\ text_preview row = textPreview (inputText st))))
  /\ (showResults st' = false ->
      result st' = result st /\ inserts st' = inserts st).
Proof.
  intros Hin. cbv zeta. unfold handleVerify. rewrite Hin.
  unfold verifying, andThen, lift, modify, raise.
  destruct (truthy (error verifyResponse)).
  - destruct (getProp (error verifyResponse) "message") as [x|m]; cbn.
    + repeat split; eauto 6.
    + destruct (newError _) as [x|e]; cbn; repeat split; eauto 6.
  - destruct (getProp (data verifyResponse) "error") as [x|dataError]; cbn.
    + repeat split; eauto 6.
    + destruct (truthy dataError).
      * destruct (newError dataError) as [x|e]; cbn; repeat split; eauto 6.
      * rewrite saveToHistory_of_result. cbv zeta.
        destruct (toStr (getOpt (data verifyResponse) "trustScore"))
          as [x|score];
          (destruct inserted as [x'|err]; [|destruct (truthy err)]); cbn;
          (split; [reflexivity|]); (split; [reflexivity|]);
          (split; [|discriminate]); eexists; (split; [reflexivity|]);
          cbn; solve [left; split; reflexivity
                     | right; split; [reflexivity|]; split; [reflexivity|];
                       split; [reflexivity|]; eexists;
                       split; [reflexivity|]; split; reflexivity].
Qed.

Lemma verification_always_settles_witness :
  isVerifying
    (handleVerify
       (mkInvoked VNull (VObj [("message", VStr "Failed to fetch")]))
       (mkInvoked VNull VNull) (inr VNull)
       (mkState "Some text." VNull false false false 0 [] []))
  = false.
Proof.
  exact (proj1 (verification_always_settles
                  (mkInvoked VNull
                     (VObj [("message", VStr "Failed to fetch")]))
                  (mkInvoked VNull VNull) (inr VNull)
                  (mkState "Some text." VNull false false false 0 [] [])
                  eq_refl)).
Defined.

End DashboardProps.

(* ===================================================================== *)
(** ** Comparison mode and the replies it gets *)
(* ===================================================================== *)

Module ComparisonProps.
Import Js Client ComparisonMode.

(** X20.  Comparison mode does not look at the error of a reply: a text
    whose backend verification failed (an ai-only-fallback result, trust
    score 0) is kept with trust score 50 and no claims, and the comparison
    is reported as complete. *)
Theorem comparison_shows_a_fallback_as_50
  (b e a dB : value) (r : VerifyContent.VerificationResult.t)
  (st : State) :
  VerifyContent.merge b e a = inr r ->
  truthy b = false ->
  nullish dB = false ->
  (trim (textA st) =? "")%string = false ->
  (trim (textB st) =? "")%string = false ->
  VerifyContent.VerificationResult.trustScore r = VNum 0
  /\ let st' := handleCompare
                  (mkInvoked (VObj (Wire.resultObject r)) VNull)
                  (mkInvoked dB VNull) st in
     getOpt (resultA st') "trustScore" = VNum 50
     /\ getOpt (resultA st') "claims" = VArr []
     /\ isComparing st' = false
     /\ toasts st'
        = (toasts st
           ++ [mkToast "Comparison complete"
                 "Both texts have been analyzed" false])%list.
Proof.
  intros Hm Hb Hn HA HB.
  unfold VerifyContent.merge in Hm. rewrite Hb in Hm. injection Hm as <-.
  split; [reflexivity|]. cbv zeta.
  unfold handleCompare. rewrite HA, HB. cbn [orb].
  unfold comparing. cbn [Client.error Client.data truthy].
  unfold andThen, lift, modify, pure.
  rewrite (MergeEdges.getProp_getOpt dB _ Hn).
  assert (He : nullish (or e (VStr "Backend verification failed")) = false).
  { apply MergeEdges.truthy_not_nullish. unfold or.
    destruct (truthy e) eqn:Ht; [exact Ht | reflexivity]. }
  unfold Wire.resultObject.
  cbn [VerifyContent.VerificationResult.error
       VerifyContent.VerificationResult.trustScore
       VerifyContent.VerificationResult.claims
       VerifyContent.VerificationResult.citations].
  rewrite He. cbn. repeat split.
Qed.

Lemma comparison_shows_a_fallback_as_50_witness :
  exists r,
    VerifyContent.merge VNull (VStr "connection refused") VNull = inr r
    /\ getOpt (resultA
                 (handleCompare
                    (mkInvoked (VObj (Wire.resultObject r)) VNull)
                    (mkInvoked (VObj [("trustScore", VNum 82)]) VNull)
                    (mkState "First text." "Second text." VNull VNull
                       false [])))
         "trustScore"
       = VNum 50.
Proof.
  eexists. split; [reflexivity|].
  exact (proj1 (proj2 (comparison_shows_a_fallback_as_50 VNull
                         (VStr "connection refused") VNull
                         (VObj [("trustScore", VNum 82)]) _
                         (mkState "First text." "Second text." VNull VNull
                            false [])
                         eq_refl eq_refl eq_refl eq_refl eq_refl))).
Defined.

End ComparisonProps.

(* ===================================================================== *)
(** ** The highlighted text shows the original text *)
(* ===================================================================== *)

Module HighlightProps.
Import Js HighlightedText.

Lemma append_empty (s : string) : s ++ "" = s.
Proof. induction s; simpl; congruence. Qed.

Lemma append_assoc (a b c : string) : (a ++ b) ++ c = a ++ b ++ c.
Proof. induction a; simpl; congruence. Qed.

Lemma before_split (s t pre : string) :
  before s t = Some pre -> exists post, s = pre ++ t ++ post.
Proof.
  revert pre. induction s as [|c s IH]; intros pre H; cbn [before] in H.
  - destruct (String.prefix t "") eqn:Hp; [|discriminate].
    injection H as <-. apply JsFacts.prefix_iff in Hp.
    destruct Hp as [post Hp]. now exists post.
  - destruct (String.prefix t (String c s)) eqn:Hp.
    + injection H as <-. apply JsFacts.prefix_iff in Hp.
      destruct Hp as [post Hp]. now exists post.
    + destruct (before s t) as [pre'|]; simpl in H; [|discriminate].
      injection H as <-. destruct (IH _ eq_refl) as [post ->].
      now exists post.
Qed.

(** A claim that is found lies in the text, up to the case of letters. *)
Lemma position_occurrence (originalText : string) (c : Claim) :
  position originalText c <> (-1)%Z ->
  exists pre mid post,
    originalText = pre ++ mid ++ post
    /\ position originalText c = Z.of_nat (String.length pre)
    /\ toLowerCase mid = toLowerCase (text c)
    /\ String.length mid = String.length (text c).
Proof.
  unfold position, indexOf.
  destruct (before (toLowerCase originalText) (toLowerCase (text c)))
    as [p|] eqn:Hb; [|congruence].
  intros _. destruct (before_split _ _ _ Hb) as [q Hq].
  destruct (JsFacts.toLowerCase_split _ _ _ Hq)
    as [pre [rest [Htext [Hpre Hrest]]]].
  destruct (JsFacts.toLowerCase_split _ _ _ Hrest)
    as [mid [post [Hrest' [Hmid Hpost]]]].
  exists pre, mid, post. subst rest.
  split; [exact Htext|]. split.
  - now rewrite <- Hpre, JsFacts.toLowerCase_length.
  - split; [exact Hmid|].
    now rewrite <- (JsFacts.toLowerCase_length mid), Hmid,
      JsFacts.toLowerCase_length.
Qed.

Lemma substring_join (s : string) (a b : nat) :
  a <= b ->
  String.substring 0 a s ++ String.substring a (b - a) s
  = String.substring 0 b s.
Proof.
  revert a b.
  induction s as [|c s IH]; intros [|a] [|b] H; simpl;
    try reflexivity; try lia.
  rewrite IH by lia. reflexivity.
Qed.

Lemma substring_middle (pre mid post : string) :
  String.substring (String.length pre) (String.length mid)
    (pre ++ mid ++ post)
  = mid.
Proof.
  induction pre as [|c pre IH]; simpl; [|exact IH].
  induction mid as [|d mid IHm]; simpl.
  - now destruct post.
  - now rewrite IHm.
Qed.

Lemma shown_app (a b : list Element) :
  shown (a ++ b) = shown a ++ shown b.
Proof.
  induction a as [|e a IH]; simpl; [reflexivity|].
  now rewrite IH, append_assoc.
Qed.

(** What [forEach] keeps true: the elements pushed so far show the text up
    to [lastIndex]. *)
Lemma place_shown (originalText : string) (claims : list Claim) :
  forall (idx : nat) (elements : list Element) (lastIndex : Z),
    (0 <= lastIndex)%Z ->
    shown elements
    = String.substring 0 (Z.to_nat lastIndex) originalText ->
    apart originalText lastIndex claims = true ->
    (0 <= snd (place originalText idx claims (elements, lastIndex)))%Z
    /\ shown (fst (place originalText idx claims (elements, lastIndex)))
       = String.substring 0
           (Z.to_nat
              (snd (place originalText idx claims (elements, lastIndex))))
           originalText.
Proof.
  induction claims as [|claim rest IH]; intros idx elements lastIndex
    Hpos Hshown Hapart; cbn [place apart fst snd] in *.
  - now split.
  - destruct (position originalText claim =? -1)%Z.
    + now apply IH.
    + apply andb_true_iff in Hapart. destruct Hapart as [Hle Hrest].
      apply Z.leb_le in Hle. apply IH; [lia| |exact Hrest].
      set (p := position originalText claim) in *.
      set (n := String.length (text claim)).
      destruct (Z.gtb_spec p lastIndex) as [Hgt|Hngt].
      * rewrite !shown_app. cbn [shown content]. rewrite !append_empty.
        rewrite Hshown. unfold slice.
        replace (Z.to_nat (p - lastIndex))
          with (Z.to_nat p - Z.to_nat lastIndex) by lia.
        rewrite substring_join by lia.
        replace (Z.to_nat (p + Z.of_nat n - p))
          with (Z.to_nat (p + Z.of_nat n) - Z.to_nat p) by lia.
        now rewrite substring_join by lia.
      * assert (p = lastIndex) by lia. subst lastIndex.
        rewrite shown_app. cbn [shown content]. rewrite append_empty.
        rewrite Hshown. unfold slice.
        replace (Z.to_nat (p + Z.of_nat n - p))
          with (Z.to_nat (p + Z.of_nat n) - Z.to_nat p) by lia.
        now rewrite substring_join by lia.
Qed.

(** A highlighted span comes from the claim with its key. *)
Lemma place_marked (originalText : string) (claims : list Claim)
  (k : nat) (c : Claim) (s : string) :
  forall (idx : nat) (elements : list Element) (lastIndex : Z),
    In (Marked k c s)
       (fst (place originalText idx claims (elements, lastIndex))) ->
    In (Marked k c s) elements
    \/ (idx <= k
        /\ nth_error claims (k - idx) = Some c
        /\ position originalText c <> (-1)%Z
        /\ s = slice originalText (position originalText c)
                 (position originalText c
                  + Z.of_nat (String.length (text c)))%Z).
Proof.
  induction claims as [|claim rest IH]; intros idx elements lastIndex H;
    cbn [place fst] in H.
  - now left.
  - assert (Hlater :
      idx <= k /\ nth_error rest (k - S idx) = Some c ->
      S idx <= k -> nth_error (claim :: rest) (k - idx) = Some c).
    { intros [_ Hn] Hlt. replace (k - idx) with (S (k - S idx)) by lia.
      exact Hn. }
    destruct (position originalText claim =? -1)%Z eqn:Hfound.
    + destruct (IH _ _ _ H) as [Hin|[Hle [Hn Hrest]]]; [now left|].
      right. split; [lia|]. split; [|exact Hrest].
      replace (k - idx) with (S (k - S idx)) by lia. exact Hn.
    + destruct (IH _ _ _ H) as [Hin|[Hle [Hn Hrest]]].
      * apply in_app_or in Hin. destruct Hin as [Hin|[Hin|[]]].
        -- destruct (position originalText claim >? lastIndex)%Z;
             [|now left].
           apply in_app_or in Hin.
           destruct Hin as [Hin|[Hin|[]]]; [now left | discriminate].
        -- injection Hin as -> -> <-. right.
           rewrite Nat.sub_diag. apply Z.eqb_neq in Hfound.
           now repeat split.
      * right. split; [lia|]. split; [|exact Hrest].
        replace (k - idx) with (S (k - S idx)) by lia. exact Hn.
Qed.

Lemma insertByPosition_In (originalText : string) (x c : Claim)
  (ys : list Claim) :
  In c (insertByPosition originalText x ys) <-> c = x \/ In c ys.
Proof.
  induction ys as [|y ys IH]; simpl.
  - intuition congruence.
  - destruct (position originalText x <=? position originalText y)%Z;
      simpl; rewrite ?IH; intuition congruence.
Qed.

Lemma sortedClaims_In (originalText : string) (claims : list Claim)
  (c : Claim) :
  In c (sortedClaims originalText claims) <-> In c claims.
Proof.
  induction claims as [|x claims IH]; simpl; [tauto|].
  unfold sortedClaims in *. simpl.
  rewrite insertByPosition_In, IH. intuition congruence.
Qed.

(** X21.  When the claims found lie apart in the order of display, the
    component shows the original text: the contents of its elements, put
    in a row, are the text, with nothing lost, repeated or changed in
    case. *)
Theorem highlighting_keeps_the_text
  (originalText : string) (claims : list Claim) :
  apart originalText 0 (sortedClaims originalText claims) = true ->
  shown (render originalText claims) = originalText.
Proof.
  intros Hapart. unfold render.
  assert (Hnone : shown [] = String.substring 0 (Z.to_nat 0) originalText)
    by now destruct originalText.
  destruct (place_shown originalText (sortedClaims originalText claims)
              0 [] 0%Z ltac:(lia) Hnone Hapart) as [Hpos Hshown].
  clear Hnone.
  destruct (place originalText 0 (sortedClaims originalText claims)
              ([], 0%Z)) as [elements lastIndex].
  cbn [fst snd] in *.
  assert (Hall :
    shown (if (lastIndex <? Z.of_nat (String.length originalText))%Z
           then (elements
                 ++ [Plain None (sliceFrom originalText lastIndex)])%list
           else elements)
    = originalText).
  { destruct (Z.ltb_spec lastIndex (Z.of_nat (String.length originalText)))
      as [Hlt|Hge].
    - rewrite shown_app. cbn [shown content]. rewrite append_empty, Hshown.
      unfold sliceFrom. rewrite substring_join by lia.
      now apply DashboardProps.substring_whole.
    - rewrite Hshown. apply DashboardProps.substring_whole. lia. }
  destruct (if (lastIndex <? Z.of_nat (String.length originalText))%Z
            then _ else _) as [|e es].
  - simpl in Hall. rewrite <- Hall. reflexivity.
  - exact Hall.
Qed.

Lemma highlighting_keeps_the_text_witness :
  shown (render "Paris is in France. The sky is green."
           [mkClaim "the sky is green" VerifyContent.ClaimFalse "It is blue.";
            mkClaim "Paris is in France" VerifyContent.ClaimVerified
              "Well known."])
  = "Paris is in France. The sky is green.".
Proof.
  apply highlighting_keeps_the_text. vm_compute. reflexivity.
Defined.

(** X22.  Every highlighted span of the component belongs to one of the
    claims it was given, the one its key counts in the order of display,
    and is the part of the original text at the claim's position; that
    part reads as the claim's text when the case of letters is ignored. *)
Theorem highlighted_spans_are_occurrences
  (originalText : string) (claims : list Claim)
  (k : nat) (c : Claim) (s : string) :
  In (Marked k c s) (render originalText claims) ->
  nth_error (sortedClaims originalText claims) k = Some c
  /\ In c claims
  /\ toLowerCase s = toLowerCase (text c)
  /\ exists pre post,
       originalText = pre ++ s ++ post
       /\ position originalText c = Z.of_nat (String.length pre).
Proof.
  intros H. unfold render in H.
  assert (Hplaced :
    In (Marked k c s)
       (fst (place originalText 0 (sortedClaims originalText claims)
               ([], 0%Z)))).
  { destruct (place originalText 0 (sortedClaims originalText claims)
                ([], 0%Z)) as [elements lastIndex].
    cbn [fst].
    destruct (lastIndex <? Z.of_nat (String.length originalText))%Z.
    - destruct (elements ++ _)%list as [|e es] eqn:He.
      + destruct H as [H|[]]. discriminate.
      + rewrite <- He in H. apply in_app_or in H.
        destruct H as [H|[H|[]]]; [exact H | discriminate].
    - destruct elements as [|e es]; [|exact H].
      destruct H as [H|[]]. discriminate. }
  destruct (place_marked _ _ _ _ _ _ _ _ Hplaced)
    as [[]|[_ [Hnth [Hfound Hs]]]].
  rewrite Nat.sub_0_r in Hnth.
  split; [exact Hnth|].
  split; [apply (sortedClaims_In originalText);
          exact (nth_error_In _ _ Hnth)|].
  destruct (position_occurrence _ _ Hfound)
    as [pre [mid [post [Htext [Hp [Hlow Hlen]]]]]].
  assert (Hmid : s = mid).
  { rewrite Hs, Hp. unfold slice. rewrite Nat2Z.id.
    replace (Z.to_nat (Z.of_nat (String.length pre)
                       + Z.of_nat (String.length (text c))
                       - Z.of_nat (String.length pre)))
      with (String.length mid) by lia.
    rewrite Htext at 1. apply substring_middle. }
  rewrite Hmid. split; [exact Hlow|]. now exists pre, post.
Qed.

Lemma highlighted_spans_are_occurrences_witness :
  toLowerCase "Paris is in France"
  = toLowerCase
      (text (mkClaim "paris is in france" VerifyContent.ClaimVerified
               "Well known.")).
Proof.
  exact (proj1 (proj2 (proj2
    (highlighted_spans_are_occurrences
       "Paris is in France. The sky is green."
       [mkClaim "the sky is green" VerifyContent.ClaimFalse "It is blue.";
        mkClaim "paris is in france" VerifyContent.ClaimVerified "Well known."]
       0 (mkClaim "paris is in france" VerifyContent.ClaimVerified
            "Well known.")
       "Paris is in France"
       (or_introl eq_refl))))).
Defined.

End HighlightProps.

(* ===================================================================== *)
(** ** The summary of an export *)
(* ===================================================================== *)

Module ExportProps.
Import Js ExportResults.

Lemma count_cons (st : string) (c : obj) (cs : list obj) :
  count st (c :: cs)
  = (if isStr (lookup "status" c) st then 1 else 0) + count st cs.
Proof.
  unfold count. simpl. now destruct (isStr (lookup "status" c) st).
Qed.

(** The status of a citation after a check is valid, broken or fake when
    it was before. *)
Lemma reverified_status (network : string -> Fetch) (c : obj) :
  (exists st, lookup "status" c
              = VStr (VerifyContent.citationStatusText st)) ->
  exists st, lookup "status" (Runs.reverified network c)
             = VStr (VerifyContent.citationStatusText st).
Proof.
  intros [st Hst]. rewrite Reverifier.reverified_lookup. cbn [String.eqb
    Ascii.eqb Bool.eqb fst]. unfold VerifyCitations.reconcile. rewrite Hst.
  destruct (VerifyCitations.Probe.exists_ _); destruct st; cbn;
    solve [ now exists VerifyContent.CitationValid
          | now exists VerifyContent.CitationBroken
          | now exists VerifyContent.CitationFake ].
Qed.

Lemma counts_of_known_citations (cs : list obj) :
  Forall (fun c => exists st,
            lookup "status" c
            = VStr (VerifyContent.citationStatusText st)) cs ->
  count "valid" cs + count "broken" cs + count "fake" cs = List.length cs.
Proof.
  induction 1 as [|c cs [st Hst] _ IH]; [reflexivity|].
  rewrite !count_cons, Hst. simpl List.length.
  destruct st; cbn; lia.
Qed.

Lemma counts_of_known_claims (cs : list obj) :
  Forall (fun c => exists st,
            lookup "status" c = VStr (VerifyContent.claimStatusText st)) cs ->
  count "verified" cs + count "questionable" cs + count "false" cs
  = List.length cs.
Proof.
  induction 1 as [|c cs [st Hst] _ IH]; [reflexivity|].
  rewrite !count_cons, Hst. simpl List.length.
  destruct st; cbn; lia.
Qed.

(** X23.  The counts in the summary of an export add up for everything
    verify-content returns, also after its citations went through any
    number of checks by verify-citations: each claim is counted as
    verified, questionable or false and each citation as valid, broken or
    fake, once. *)
Theorem export_counts_add_up
  (r : VerifyContent.VerificationResult.t)
  (network : string -> Fetch) (checks : nat) :
  let s :=
    summary
      (map Wire.claimObject (VerifyContent.VerificationResult.claims r))
      (Nat.iter checks (map (Runs.reverified network))
         (map Wire.citationObject
            (VerifyContent.VerificationResult.citations r))) in
  verifiedClaims s + questionableClaims s + falseClaims s = totalClaims s
  /\ validCitations s + brokenCitations s + fakeCitations s
     = totalCitations s.
Proof.
  cbv zeta. unfold summary.
  cbn [verifiedClaims questionableClaims falseClaims totalClaims
       validCitations brokenCitations fakeCitations totalCitations].
  split.
  - apply counts_of_known_claims.
    apply Forall_forall. intros o Ho. apply in_map_iff in Ho.
    destruct Ho as [c [<- _]]. now exists (VerifyContent.Claim.status c).
  - apply counts_of_known_citations.
    induction checks as [|n IH]; cbn [Nat.iter nat_rect].
    + apply Forall_forall. intros o Ho. apply in_map_iff in Ho.
      destruct Ho as [c [<- _]].
      now exists (VerifyContent.Citation.status c).
    + apply Forall_forall. intros o Ho. apply in_map_iff in Ho.
      destruct Ho as [c [<- Hc]]. apply reverified_status.
      exact (proj1 (Forall_forall _ _) IH c Hc).
Qed.

(** X24.  A check by verify-citations neither gives nor takes the status
    fake: the number of fake citations of an export is the same before
    and after, whatever the network answers and whatever the citations
    hold. *)
Theorem checks_keep_the_fake_count
  (network : string -> Fetch) (cs : list obj) :
  count "fake" (map (Runs.reverified network) cs) = count "fake" cs.
Proof.
  induction cs as [|c cs IH]; [reflexivity|].
  cbn [map]. rewrite !count_cons, IH. f_equal.
  rewrite Reverifier.reverified_lookup.
  cbn [String.eqb Ascii.eqb Bool.eqb fst]. unfold VerifyCitations.reconcile.
  destruct (VerifyCitations.Probe.exists_ _).
  - destruct (isStr (lookup "status" c) "broken") eqn:Hb; [|reflexivity].
    destruct (lookup "status" c) as [| | | |s| |]; try discriminate.
    cbn in Hb. apply String.eqb_eq in Hb. now subst s.
  - destruct (isStr (lookup "status" c) "valid") eqn:Hb; [|reflexivity].
    destruct (lookup "status" c) as [| | | |s| |]; try discriminate.
    cbn in Hb. apply String.eqb_eq in Hb. now subst s.
Qed.

End ExportProps.

(* ===================================================================== *)
(** ** A verification stored and loaded again *)
(* ===================================================================== *)

Module HistoryProps.
Import Js Client Dashboard.

Lemma isArray_jsonCopy (v : value) :
  VerificationHistory.isArray (jsonCopy v) = VerificationHistory.isArray v.
Proof. destruct v; reflexivity. Qed.

(** X25.  What goes into the history and what comes back.  A result that
    is null or undefined, or whose claims or citations are undefined, is
    not stored: building the row throws inside the [try], [insert] is
    never called and the state stays as it is.  For a result with a
    number as trust score and both lists defined, [saveToHistory] offers
    one row; read back as it was stored and loaded through the history
    panel, the row restores the text, the trust score and the JSON copy
    of each of the two lists that is an array (an empty list stands for
    one that is not), and shows the results; every other part of the
    result (the hallucination risk and its reason, the summary, the
    source, the AI detection) is undefined afterwards. *)
Theorem loading_restores_score_and_lists
  (inserted : Js.result value) (text : string) (verificationResult : value)
  (st st0 : State) :
  (nullish verificationResult = true
   \/ getOpt verificationResult "claims" = VUndefined
   \/ getOpt verificationResult "citations" = VUndefined ->
   saveToHistory inserted text verificationResult st = st)
  /\ (forall n,
        getOpt verificationResult "trustScore" = VNum n ->
        getOpt verificationResult "claims" <> VUndefined ->
        getOpt verificationResult "citations" <> VUndefined ->
        exists row,
          inserts (saveToHistory inserted text verificationResult st)
          = (inserts st ++ [row])%list
          /\ let st1 := VerificationHistory.handleLoad
                          (VerificationHistory.parsed row) st0 in
             inputText st1 = text
             /\ showResults st1 = true
             /\ getOpt (result st1) "trustScore" = VNum n
             /\ getOpt (result st1) "claims"
                = (if VerificationHistory.isArray
                        (getOpt verificationResult "claims")
                   then jsonCopy (getOpt verificationResult "claims")
                   else VArr [])
             /\ getOpt (result st1) "citations"
                = (if VerificationHistory.isArray
                        (getOpt verificationResult "citations")
                   then jsonCopy (getOpt verificationResult "citations")
                   else VArr [])
             /\ (forall k,
                   k <> "trustScore" -> k <> "claims" ->
                   k <> "citations" ->
                   getOpt (result st1) k = VUndefined)
             /\ toasts st1
                = (toasts st0
                   ++ [mkToast "Loaded from history"
                         "Previous verification result restored"
                         false])%list).
Proof.
  split.
  - intros H. unfold saveToHistory.
    destruct verificationResult as [| |b|n|s|xs|ps];
      cbn [getProp getOpt ret bind throw jsonRoundTrip nullish] in *;
      try reflexivity.
    destruct H as [H|[H|H]]; [discriminate| |].
    + now rewrite H.
    + rewrite H. now destruct (jsonRoundTrip (lookup "claims" ps)).
  - intros n Hscore Hclaims Hcitations.
    destruct verificationResult as [| |b|n0|s|xs|ps];
      cbn [getOpt] in *; try discriminate.
    assert (Hcopy : forall v, v <> VUndefined ->
                      jsonRoundTrip v = inr (jsonCopy v))
      by (intros [| | | | | |] Hv; congruence || reflexivity).
    exists (mkRow (textPreview text) text (VNum n)
              (jsonCopy (lookup "claims" ps))
              (jsonCopy (lookup "citations" ps))).
    split.
    + unfold saveToHistory. cbn [getProp ret bind].
      rewrite Hscore, (Hcopy _ Hclaims), (Hcopy _ Hcitations).
      cbn [bind ret].
      destruct inserted as [e|err]; [reflexivity|].
      destruct (truthy err); reflexivity.
    + cbv zeta.
      unfold VerificationHistory.handleLoad, VerificationHistory.parsed,
        handleLoadFromHistory.
      cbn [result toast setShowResults setResult setInputText getOpt lookup
           inputText showResults toasts full_text trust_score claims
           citations String.eqb Ascii.eqb Bool.eqb].
      rewrite !isArray_jsonCopy.
      split; [reflexivity|]. split; [reflexivity|]. split; [reflexivity|].
      split; [reflexivity|]. split; [reflexivity|]. split; [|reflexivity].
      intros k H1 H2 H3.
      change (lookup k [("trustScore", VNum n);
                        ("claims",
                         if VerificationHistory.isArray (lookup "claims" ps)
                         then jsonCopy (lookup "claims" ps) else VArr []);
                        ("citations",
                         if VerificationHistory.isArray
                              (lookup "citations" ps)
                         then jsonCopy (lookup "citations" ps)
                         else VArr [])]
              = VUndefined).
      cbn [lookup].
      destruct (String.eqb_spec "trustScore" k); [congruence|].
      destruct (String.eqb_spec "claims" k); [congruence|].
      destruct (String.eqb_spec "citations" k); [congruence|].
      reflexivity.
Qed.

Lemma loading_restores_score_and_lists_witness :
  saveToHistory (inr VNull) "Some text." VNull
    (mkState "Some text." VNull false false false 0 [] [])
  = mkState "Some text." VNull false false false 0 [] []
  /\ exists row,
       inserts (saveToHistory (inr VNull) "Some text."
                  (VObj [("trustScore", VNum 82);
                         ("claims", VArr []);
                         ("citations",
                          VArr [VObj Samples.exampleCitation]);
                         ("source", VStr "backend+ai")])
                  (mkState "Some text." VNull false false false 0 [] []))
       = [row]
       /\ getOpt (result (VerificationHistory.handleLoad
                            (VerificationHistory.parsed row)
                            (mkState "" VNull false false false 0 [] [])))
            "source"
          = VUndefined.
Proof.
  split.
  - apply (proj1 (loading_restores_score_and_lists (inr VNull) "Some text."
                    VNull
                    (mkState "Some text." VNull false false false 0 [] [])
                    (mkState "" VNull false false false 0 [] []))).
    left. reflexivity.
  - destruct (proj2 (loading_restores_score_and_lists (inr VNull)
                       "Some text."
                       (VObj [("trustScore", VNum 82);
                              ("claims", VArr []);
                              ("citations",
                               VArr [VObj Samples.exampleCitation]);
                              ("source", VStr "backend+ai")])
                       (mkState "Some text." VNull false false false 0 [] [])
                       (mkState "" VNull false false false 0 [] []))
                82%Z eq_refl ltac:(discriminate) ltac:(discriminate))
      as [row [Hrow [_ [_ [_ [_ [_ [Hrest _]]]]]]]].
    exists row. split; [exact Hrow|].
    apply Hrest; discriminate.
Defined.

End HistoryProps.
